(** * EduMate retrieval engine: vector index, ingestion pipeline, hybrid search

    A shallow embedding of [FAISSManager] ([src/database/faiss_manager.py]:
    [load_database], [save_database], [add_document], [search],
    [search_by_topic], [get_database_stats], [clear_database]), of
    [DocumentProcessor] ([src/database/document_processor.py]: the
    constructor, the registry load and save, [get_file_hash], the two text
    extractors, [extract_metadata_from_path], [chunk_text], [process_file],
    [scan_and_process_documents], [get_database_summary],
    [search_documents]) and of the [clear_database] and
    [add_single_document] commands of [upload_document.py].

    Conventions of the embedding.
    - Python [str] values are [string]s whose characters are read as code
      points 0..255; [bytes] read from a file are [string]s as well.
    - Python [int] is [Z]; list positions that Python resolves with negative
      indices or clamps in slices are written out in [py_index] and
      [py_slice].
    - Similarity scores are floats in the source; they are only compared and
      copied, so they are rationals here ([Q], compared with [Qle_bool]).
      The one comparison of a float32 score with a Python float, the
      threshold test of [search], is made in float32 as NumPy makes it.
    - A metadata dictionary is a [gmap] whose values are [pyval]s, so that a
      record with a value of the wrong type raises as it does in Python.
      The registry [processed_files] is written to its file item by item,
      so it is a [pydict], the list of its items in insertion order.
    - Exceptions are values of [exn]; a computation that can raise returns a
      [result]; a method that mutates [self] is a function from the state to
      a result and the state reached, which is the state at the point of the
      raise when it raises.  [print] calls are dropped.
    - The external collaborators (sentence encoder, FAISS flat index search,
      hashlib, pathlib, os.walk, the PDF and DOCX readers) are the fields of
      the classes [Engine] and [Files]; the four files of the database
      directory are the fields of [Disk]: the registry file with its text,
      the three others with what reading them gives. *)

From Stdlib Require Import ZArith QArith String Ascii List Lia Bool Sorted Permutation.
From stdpp Require Import base option list gmap strings.

Import ListNotations.
Local Open Scope string_scope.
Local Open Scope list_scope.
Local Open Scope stdpp_scope.
Local Open Scope Z_scope.

(** ** Exceptions and the two monads *)

Inductive exn : Type :=
| ValueError
| IndexError
| TypeError
| AttributeError
| AssertionError
| OSError
| LibraryError (msg : string).

Inductive result (A : Type) : Type :=
| Ok (a : A)
| Raise (e : exn).
Arguments Ok {A} a.
Arguments Raise {A} e.

#[global] Instance result_ret : MRet result := fun A a => Ok a.
#[global] Instance result_bind : MBind result := fun A B f m =>
  match m with
  | Ok a => f a
  | Raise e => Raise e
  end.

(** [try: body / except Exception: handler] for a computation without
    state. *)
Definition try_except {A} (body : result A) (handler : exn -> result A) : result A :=
  match body with
  | Ok a => Ok a
  | Raise e => handler e
  end.

(** Stateful computations: the state reached is returned also on a raise. *)
Definition M (S A : Type) : Type := S -> result A * S.

#[global] Instance M_ret {S} : MRet (M S) := fun A a s => (Ok a, s).
#[global] Instance M_bind {S} : MBind (M S) := fun A B f m s =>
  match m s with
  | (Ok a, s') => f a s'
  | (Raise e, s') => (Raise e, s')
  end.

Definition get {S} : M S S := fun s => (Ok s, s).
Definition modify {S} (f : S -> S) : M S unit := fun s => (Ok tt, f s).
Definition lift {S A} (r : result A) : M S A := fun s => (r, s).

(** [try: body / except Exception: handler]: the handler runs in the state
    the body had reached. *)
Definition try_except_M {S A} (body : M S A) (handler : exn -> M S A) : M S A :=
  fun s =>
    match body s with
    | (Ok a, s') => (Ok a, s')
    | (Raise e, s') => handler e s'
    end.

(** [for x in l: body x]. *)
Fixpoint for_each {S A} (l : list A) (body : A -> M S unit) : M S unit :=
  match l with
  | [] => mret tt
  | x :: l' => body x ;; for_each l' body
  end.

(** A loop that carries a local variable. *)
Fixpoint for_fold {S A B} (l : list A) (body : B -> A -> M S B) (b : B) : M S B :=
  match l with
  | [] => mret b
  | x :: l' => b' ← body b x; for_fold l' body b'
  end.

(** The same loop for computations without state. *)
Fixpoint for_fold_r {A B} (l : list A) (body : B -> A -> result B) (b : B) : result B :=
  match l with
  | [] => Ok b
  | x :: l' => b' ← body b x; for_fold_r l' body b'
  end.

(** ** Python sequences *)

Definition len {A} (l : list A) : Z := Z.of_nat (List.length l).

(** [l[i]]: negative positions count from the end, out of range raises. *)
Definition py_index {A} (l : list A) (i : Z) : result A :=
  let j := if i <? 0 then i + len l else i in
  if (j <? 0) || (len l <=? j) then Raise IndexError
  else match nth_error l (Z.to_nat j) with
       | Some x => Ok x
       | None => Raise IndexError
       end.

(** A slice bound: negative bounds count from the end, then clamp. *)
Definition clamp_bound (n i : Z) : Z :=
  if i <? 0 then Z.max (i + n) 0 else Z.min i n.

(** [l[i:j]]. *)
Definition py_slice {A} (l : list A) (i j : Z) : list A :=
  let lo := clamp_bound (len l) i in
  let hi := clamp_bound (len l) j in
  firstn (Z.to_nat (hi - lo)) (skipn (Z.to_nat lo) l).

(** [l[:j]]. *)
Definition py_slice_to {A} (l : list A) (j : Z) : list A := py_slice l 0 j.

(** [len(range(start, stop, step))] for a non-zero step. *)
Definition range_len (start stop step : Z) : Z :=
  if 0 <? step then
    if start <? stop then (stop - start + step - 1) / step else 0
  else
    if stop <? start then (start - stop - step - 1) / (- step) else 0.

(** [range(start, stop, step)]: a zero step raises ValueError. *)
Definition py_range (start stop step : Z) : result (list Z) :=
  if step =? 0 then Raise ValueError
  else Ok (map (fun k => start + Z.of_nat k * step)
               (seq 0 (Z.to_nat (range_len start stop step)))).

(** [enumerate(l)]. *)
Definition enumerate {A} (l : list A) : list (Z * A) :=
  combine (map Z.of_nat (seq 0 (List.length l))) l.

(** ** Single-precision floats *)

(** [2^k] for an integer [k]. *)
Definition pow2 (k : Z) : Q :=
  if 0 <=? k then inject_Z (2 ^ k) else 1 # Z.to_pos (2 ^ (- k)).

(** The integer nearest to [q], the even one of two that are equally
    near. *)
Definition round_half_even (q : Q) : Z :=
  let n := Qnum q in
  let d := Z.pos (Qden q) in
  let f := n / d in
  let r := 2 * (n mod d) in
  if r <? d then f else if d <? r then f + 1 else if Z.even f then f else f + 1.

(** [floor(log2 q)] for [q > 0]. *)
Definition ilog2 (q : Q) : Z :=
  let a := Z.log2 (Qnum q) - Z.log2 (Z.pos (Qden q)) in
  if Qle_bool (pow2 a) q then a else a - 1.

(** The float32 nearest to [x], the one with the even significand of two
    that are equally near: a significand of 24 bits and an exponent of at
    least -126, smaller numbers being spaced [2^-149] apart.  [None]
    stands for an infinity, which the conversion gives beyond the largest
    float32. *)
Definition float32 (x : Q) : option Q :=
  if Qeq_bool x 0 then Some 0%Q
  else
    let a := if Qle_bool 0 x then x else (- x)%Q in
    let e := Z.max (ilog2 a) (-126) in
    let ulp := pow2 (e - 23) in
    let r := (inject_Z (round_half_even (a / ulp)) * ulp)%Q in
    if Qle_bool (pow2 128) r then None
    else Some (if Qle_bool 0 x then r else (- r)%Q).

(** [score >= similarity_threshold] for a [numpy.float32] score and a
    Python float: NumPy converts the Python float to float32 and compares
    there. *)
Definition score_ge (score similarity_threshold : Q) : bool :=
  match float32 similarity_threshold with
  | Some t => Qle_bool t score
  | None => Qle_bool similarity_threshold 0%Q
  end.

(** ** Python strings *)

(** [str.isspace] on the code points 0..255. *)
Definition is_space (c : ascii) : bool :=
  let n := N_of_ascii c in
  (((9 <=? n) && (n <=? 13)) || ((28 <=? n) && (n <=? 32))
   || (n =? 133) || (n =? 160))%N.

(** [str.lower] on one code point of 0..255. *)
Definition lower_char (c : ascii) : ascii :=
  let n := N_of_ascii c in
  if (((65 <=? n) && (n <=? 90))
      || ((192 <=? n) && (n <=? 222) && negb (n =? 215)))%N
  then ascii_of_N (n + 32) else c.

Fixpoint lower (s : string) : string :=
  match s with
  | EmptyString => EmptyString
  | String c s' => String (lower_char c) (lower s')
  end.

(** [s.replace(a, b)] for single characters [a] and [b]. *)
Fixpoint replace_char (a b : ascii) (s : string) : string :=
  match s with
  | EmptyString => EmptyString
  | String c s' => String (if Ascii.eqb c a then b else c) (replace_char a b s')
  end.

Definition is_empty (s : string) : bool :=
  match s with EmptyString => true | _ => false end.

(** [s.endswith(suffix)]. *)
Definition endswith (s suffix : string) : bool :=
  (String.length suffix <=? String.length s)%nat
  && String.eqb (substring (String.length s - String.length suffix)
                           (String.length suffix) s) suffix.

(** [needle in hay] for strings. *)
Fixpoint contains (needle hay : string) : bool :=
  String.prefix needle hay
  || match hay with
     | EmptyString => false
     | String _ hay' => contains needle hay'
     end.

(** [s.split()]: the maximal runs of characters that are not white space.
    [cur] is the run being read. *)
Fixpoint split_from (cur : string) (s : string) : list string :=
  match s with
  | EmptyString => if is_empty cur then [] else [cur]
  | String c s' =>
      if is_space c then
        if is_empty cur then split_from EmptyString s'
        else cur :: split_from EmptyString s'
      else split_from (cur ++ String c EmptyString)%string s'
  end.

Definition py_split (s : string) : list string := split_from EmptyString s.

(** [sep.join(l)]. *)
Definition join (sep : string) (l : list string) : string := String.concat sep l.

Fixpoint lstrip (s : string) : string :=
  match s with
  | EmptyString => EmptyString
  | String c s' => if is_space c then lstrip s' else s
  end.

Fixpoint rstrip (s : string) : string :=
  match s with
  | EmptyString => EmptyString
  | String c s' =>
      let r := rstrip s' in
      if is_space c && is_empty r then EmptyString else String c r
  end.

(** [s.strip()]. *)
Definition strip (s : string) : string := rstrip (lstrip s).

(** The string ["\n"]. *)
Definition newline : string := String (ascii_of_N 10) EmptyString.

(** [os.path.join(a, b)] on a POSIX system. *)
Definition path_join (a b : string) : string :=
  if String.prefix "/" b then b
  else if is_empty a || endswith a "/" then (a ++ b)%string
  else (a ++ "/" ++ b)%string.

(** ** Data model *)

(** The values that occur in a metadata dictionary: strings ([id],
    [file_path], [title], [course], [chapter]), integers ([chunk_id],
    [total_chunks]) and lists of strings ([topics]). *)
Inductive pyval : Type :=
| VStr (s : string)
| VInt (z : Z)
| VList (l : list string).

#[global] Instance pyval_eq_dec : EqDecision pyval.
Proof. solve_decision. Defined.

#[global] Instance pyval_countable : Countable pyval.
Proof.
  refine (inj_countable'
            (fun v => match v with
                      | VStr s => inl s
                      | VInt z => inr (inl z)
                      | VList l => inr (inr l)
                      end)
            (fun x => match x with
                      | inl s => VStr s
                      | inr (inl z) => VInt z
                      | inr (inr l) => VList l
                      end) _).
  intros []; reflexivity.
Defined.

(** A metadata dictionary. *)
Abbreviation Meta := (gmap string pyval).

(** A search result: the dictionary with the keys [content], [metadata],
    [similarity] and, once [search_by_topic] has tagged it, [match_type]. *)
Record Hit : Type := mkHit {
  hit_content : string;
  hit_metadata : Meta;
  hit_similarity : Q;
  hit_match_type : option string
}.

(** The dictionary [search_by_topic] returns. *)
Record TopicResult : Type := mkTopicResult {
  matches : list Hit;
  total_found : Z;
  has_exact_match : bool
}.

(** A flat inner-product index: its dimension and the stored vectors in
    insertion order ([ntotal] is their number). *)
Record Index (V : Type) : Type := mkIndex {
  index_d : Z;
  index_xb : list V
}.
Arguments mkIndex {V} _ _.
Arguments index_d {V} _.
Arguments index_xb {V} _.

Definition ntotal {V} (ix : Index V) : Z := len (index_xb ix).

(** The sentence encoder and the FAISS library.
    [encode text] is [self.encoder.encode([text]).astype(np.float32)];
    [index_search ix q k] is [zip(scores[0], indices[0])] of
    [ix.search(q, k)]. *)
Class Engine : Type := {
  Vec : Type;
  dim : Vec -> Z;
  encode : string -> result Vec;
  normalize_L2 : Vec -> Vec;
  index_search : Index Vec -> Vec -> Z -> result (list (Q * Z))
}.

(** The file system and the file-format libraries.
    [pypdf2_pages p] is [PyPDF2.PdfReader(open(p, 'rb')).pages] with the
    outcome of [extract_text()] for each page; [pdfplumber_pages] the same
    for [pdfplumber], whose [extract_text()] may return [None];
    [docx_paragraphs p] the paragraph texts of [docx.Document(p)];
    [os_walk d] the [(root, files)] pairs of [os.walk(d)]. *)
Class Files : Type := {
  read_bytes : string -> result string;
  md5_hexdigest : string -> string;
  path_parts : string -> list string;
  path_stem : string -> string;
  os_walk : string -> list (string * list string);
  pypdf2_pages : string -> result (list (result string));
  pdfplumber_pages : string -> result (list (result (option string)));
  docx_paragraphs : string -> result (list string)
}.

(** The registry [processed_files], a Python dictionary from paths to
    hashes.  A dictionary keeps its keys in the order of their first
    insertion, and that is the order of the lines of the registry file, so
    the registry is the list of its items. *)
Record pydict : Type := mkDict { dict_items : list (string * string) }.

(** [d.get(k)]. *)
Fixpoint dict_get (k : string) (l : list (string * string)) : option string :=
  match l with
  | [] => None
  | (k', v) :: l' => if String.eqb k' k then Some v else dict_get k l'
  end.

(** [d[k] = v]: a key that is present keeps its place. *)
Fixpoint dict_set (k v : string) (l : list (string * string)) : list (string * string) :=
  match l with
  | [] => [(k, v)]
  | (k', v') :: l' =>
      if String.eqb k' k then (k', v) :: l' else (k', v') :: dict_set k v l'
  end.

#[global] Instance pydict_lookup : Lookup string string pydict :=
  fun k d => dict_get k (dict_items d).
#[global] Instance pydict_insert : Insert string string pydict :=
  fun k v d => mkDict (dict_set k v (dict_items d)).
#[global] Instance pydict_empty : Empty pydict := mkDict [].
#[global] Instance pydict_singleton : SingletonM string string pydict :=
  fun k v => mkDict [(k, v)].
#[global] Instance pydict_size : Size pydict := fun d => List.length (dict_items d).

(** The artifacts of the database directory: [faiss.index],
    [metadata.pkl], [documents.pkl] and [processed_files.txt] ([None]: the
    file does not exist).  An index file or a pickle file that exists holds
    [Ok v] when reading it gives [v], which it does after [v] was written
    into it, and [Raise e] when reading it fails with [e], as for a damaged
    file; the registry file holds its text. *)
Record Disk (V : Type) : Type := mkDisk {
  index_file : option (result (Index V));
  metadata_file : option (result (list Meta));
  documents_file : option (result (list string));
  processed_files_txt : option string
}.
Arguments mkDisk {V} _ _ _ _.
Arguments index_file {V} _.
Arguments metadata_file {V} _.
Arguments documents_file {V} _.
Arguments processed_files_txt {V} _.

(** The four file names of the database directory. *)
Inductive artifact : Type :=
| IndexFile
| MetadataFile
| DocumentsFile
| ProcessedFilesTxt.

Record FAISSManager (V : Type) : Type := mkFAISSManager {
  index : Index V;
  metadata : list Meta;
  documents : list string
}.
Arguments mkFAISSManager {V} _ _ _.
Arguments index {V} _.
Arguments metadata {V} _.
Arguments documents {V} _.

(** A [DocumentProcessor] together with the database directory it works
    on. *)
Record Store (V : Type) : Type := mkStore {
  documents_folder : string;
  faiss_manager : FAISSManager V;
  processed_files : pydict;
  disk : Disk V
}.
Arguments mkStore {V} _ _ _ _.
Arguments documents_folder {V} _.
Arguments faiss_manager {V} _.
Arguments processed_files {V} _.
Arguments disk {V} _.

Definition embedding_dim : Z := 384.

(** [sorted(l, key=lambda x: x['similarity'], reverse=True)]: the stable
    sort by descending similarity (equal keys keep their order in [l]). *)
Fixpoint insert_desc (x : Hit) (l : list Hit) : list Hit :=
  match l with
  | [] => [x]
  | y :: l' =>
      if Qle_bool (hit_similarity y) (hit_similarity x) then x :: y :: l'
      else y :: insert_desc x l'
  end.

Definition sorted_desc (l : list Hit) : list Hit := fold_right insert_desc [] l.

(** The state the methods work on. *)
Abbreviation ST := (Store Vec).

(** ** [FAISSManager] *)

Section FAISS_manager.
Context `{Engine}.

Definition set_fm (f : FAISSManager Vec -> FAISSManager Vec) (s : ST) : ST :=
  mkStore (documents_folder s) (f (faiss_manager s)) (processed_files s) (disk s).

Definition set_disk (f : Disk Vec -> Disk Vec) (s : ST) : ST :=
  mkStore (documents_folder s) (faiss_manager s) (processed_files s) (f (disk s)).

Definition set_processed_files (f : pydict -> pydict) (s : ST) : ST :=
  mkStore (documents_folder s) (faiss_manager s) (f (processed_files s)) (disk s).

(** [faiss.IndexFlatIP(self.embedding_dim)]. *)
Definition IndexFlatIP (d : Z) : Index Vec := mkIndex d [].

(** [self.index.add(embedding)]: FAISS refuses a vector whose dimension
    is not the index's; otherwise the vector is stored last. *)
Definition index_add (v : Vec) : M ST unit := fun s =>
  let ix := index (faiss_manager s) in
  if dim v =? index_d ix then
    (Ok tt, set_fm (fun fm => mkFAISSManager (mkIndex (index_d ix) (index_xb ix ++ [v]))
                                             (metadata fm) (documents fm)) s)
  else (Raise AssertionError, s).

(** [self.metadata.append(m)]. *)
Definition metadata_append (m : Meta) : M ST unit :=
  modify (set_fm (fun fm => mkFAISSManager (index fm) (metadata fm ++ [m]) (documents fm))).

(** [self.documents.append(c)]. *)
Definition documents_append (c : string) : M ST unit :=
  modify (set_fm (fun fm => mkFAISSManager (index fm) (metadata fm) (documents fm ++ [c]))).

Definition add_document_body (content : string) (meta : Meta) : M ST unit :=
  embedding ← lift (encode content);
  let embedding := normalize_L2 embedding in
  index_add embedding;;
  metadata_append meta;;
  documents_append content.

Definition add_document (content : string) (meta : Meta) : M ST unit :=
  try_except_M (add_document_body content meta) (fun _ => mret tt).

(** The loop of [search] over [zip(scores[0], indices[0])]. *)
Definition search_step (fm : FAISSManager Vec) (similarity_threshold : Q)
    (results : list Hit) (si : Q * Z) : result (list Hit) :=
  let '(score, idx) := si in
  if score_ge score similarity_threshold && (idx <? len (metadata fm)) then
    c ← py_index (documents fm) idx;
    m ← py_index (metadata fm) idx;
    Ok (results ++ [mkHit c m score None])
  else Ok results.

Definition search_body (fm : FAISSManager Vec) (query : string) (top_k : Z)
    (similarity_threshold : Q) : result (list Hit) :=
  if ntotal (index fm) =? 0 then Ok []
  else
    query_embedding ← encode query;
    let query_embedding := normalize_L2 query_embedding in
    raw ← index_search (index fm) query_embedding top_k;
    for_fold_r raw (search_step fm similarity_threshold) [].

Definition search (fm : FAISSManager Vec) (query : string) (top_k : Z)
    (similarity_threshold : Q) : result (list Hit) :=
  try_except (search_body fm query top_k similarity_threshold) (fun _ => Ok []).

(** [meta.get('title', '').lower()]. *)
Definition title_lower (meta : Meta) : result string :=
  match meta !! "title" with
  | None => Ok (lower "")
  | Some (VStr s) => Ok (lower s)
  | Some _ => Raise AttributeError
  end.

(** [any(topic.lower() in tag.lower() for tag in topic_tags)]; iterating
    a string yields its characters, an integer is not iterable. *)
Definition any_tag (topic : string) (topic_tags : pyval) : result bool :=
  match topic_tags with
  | VList l => Ok (existsb (fun tag => contains (lower topic) (lower tag)) l)
  | VStr s =>
      Ok (existsb (fun c => contains (lower topic) (lower (String c "")))
                  (list_ascii_of_string s))
  | VInt _ => Raise TypeError
  end.

(** Step 1 of [search_by_topic]: one round of the loop over
    [enumerate(self.metadata)]. *)
Definition metadata_step (fm : FAISSManager Vec) (topic : string)
    (metadata_matches : list Hit) (im : Z * Meta) : result (list Hit) :=
  let '(i, meta) := im in
  title ← title_lower meta;
  let topic_tags := default (VList []) (meta !! "topics") in
  hit ← (if contains (lower topic) title then Ok true else any_tag topic topic_tags);
  if hit : bool then
    c ← py_index (documents fm) i;
    Ok (metadata_matches ++ [mkHit c meta (95 # 100) (Some "metadata")])
  else Ok metadata_matches.

Definition metadata_pass (fm : FAISSManager Vec) (topic : string) : result (list Hit) :=
  for_fold_r (enumerate (metadata fm)) (metadata_step fm topic) [].

(** [match['match_type'] = 'content']. *)
Definition tag_content (m : Hit) : Hit :=
  mkHit (hit_content m) (hit_metadata m) (hit_similarity m) (Some "content").

(** [match['metadata'].get('id', '')]. *)
Definition match_id (m : Hit) : pyval := default (VStr "") (hit_metadata m !! "id").

(** [x in seen] for a set: a list is not hashable. *)
Definition py_set_mem (x : pyval) (seen : gset pyval) : result bool :=
  match x with
  | VList _ => Raise TypeError
  | _ => Ok (bool_decide (x ∈ seen))
  end.

(** One round of the deduplication loop of [search_by_topic]. *)
Definition dedup_step (acc : gset pyval * list Hit) (m : Hit)
    : result (gset pyval * list Hit) :=
  let '(seen_indices, unique_matches) := acc in
  let mid := match_id m in
  known ← py_set_mem mid seen_indices;
  if known : bool then Ok (seen_indices, unique_matches)
  else Ok ({[ mid ]} ∪ seen_indices, unique_matches ++ [m]).

Definition search_by_topic_body (fm : FAISSManager Vec) (topic : string) (top_k : Z)
    : result TopicResult :=
  metadata_matches ← metadata_pass fm topic;
  content_matches ← search fm topic top_k (6 # 10);
  let content_matches := map tag_content content_matches in
  let all_matches := metadata_matches ++ content_matches in
  '(_, unique_matches) ← for_fold_r (sorted_desc all_matches) dedup_step (∅, []);
  Ok (mkTopicResult (py_slice_to unique_matches top_k)
                    (len unique_matches)
                    (0 <? len metadata_matches)).

Definition empty_result : TopicResult := mkTopicResult [] 0 false.

Definition search_by_topic (fm : FAISSManager Vec) (topic : string) (top_k : Z)
    : result TopicResult :=
  try_except (search_by_topic_body fm topic top_k) (fun _ => Ok empty_result).

Definition path_exists (a : artifact) (d : Disk Vec) : bool :=
  match a with
  | IndexFile => bool_decide (is_Some (index_file d))
  | MetadataFile => bool_decide (is_Some (metadata_file d))
  | DocumentsFile => bool_decide (is_Some (documents_file d))
  | ProcessedFilesTxt => bool_decide (is_Some (processed_files_txt d))
  end.

Definition os_remove (a : artifact) (d : Disk Vec) : Disk Vec :=
  match a with
  | IndexFile => mkDisk None (metadata_file d) (documents_file d) (processed_files_txt d)
  | MetadataFile => mkDisk (index_file d) None (documents_file d) (processed_files_txt d)
  | DocumentsFile => mkDisk (index_file d) (metadata_file d) None (processed_files_txt d)
  | ProcessedFilesTxt => mkDisk (index_file d) (metadata_file d) (documents_file d) None
  end.

Definition clear_database : M ST unit :=
  try_except_M
    (modify (set_fm (fun _ => mkFAISSManager (IndexFlatIP embedding_dim) [] []));;
     for_each [IndexFile; MetadataFile; DocumentsFile]
       (fun file_path =>
          s ← get;
          if path_exists file_path (disk s)
          then modify (set_disk (os_remove file_path))
          else mret tt))
    (fun _ => mret tt).

(** [faiss.read_index] and the two [pickle.load] calls raise when the file
    they read is damaged; the handler then starts from an empty manager. *)
Definition load_database : M ST unit :=
  try_except_M
    (s ← get;
     (match index_file (disk s) with
      | Some stored =>
          ix ← lift stored;
          modify (set_fm (fun fm => mkFAISSManager ix (metadata fm) (documents fm)))
      | None =>
          modify (set_fm (fun fm => mkFAISSManager (IndexFlatIP embedding_dim)
                                                   (metadata fm) (documents fm)))
      end);;
     (match metadata_file (disk s) with
      | Some stored =>
          ms ← lift stored;
          modify (set_fm (fun fm => mkFAISSManager (index fm) ms (documents fm)))
      | None => mret tt
      end);;
     (match documents_file (disk s) with
      | Some stored =>
          ds ← lift stored;
          modify (set_fm (fun fm => mkFAISSManager (index fm) (metadata fm) ds))
      | None => mret tt
      end))
    (fun _ => modify (set_fm (fun _ => mkFAISSManager (IndexFlatIP embedding_dim) [] []))).

Definition save_database : M ST unit :=
  try_except_M
    (s ← get;
     let fm := faiss_manager s in
     modify (set_disk (fun d => mkDisk (Some (Ok (index fm))) (metadata_file d)
                                       (documents_file d) (processed_files_txt d)));;
     modify (set_disk (fun d => mkDisk (index_file d) (Some (Ok (metadata fm)))
                                       (documents_file d) (processed_files_txt d)));;
     modify (set_disk (fun d => mkDisk (index_file d) (metadata_file d)
                                       (Some (Ok (documents fm))) (processed_files_txt d))))
    (fun _ => mret tt).

End FAISS_manager.

(** ** The registry file *)

(** The line [save_processed_files] writes for one entry:
    [f"{file_path}|{file_hash}\n"]. *)
Definition registry_line (item : string * string) : string :=
  (fst item ++ "|" ++ snd item ++ newline)%string.

(** The text [save_processed_files] writes for the items of the registry,
    in their order. *)
Definition registry_text (items : list (string * string)) : string :=
  String.concat "" (map registry_line items).

(** Reading in text mode: ["\r\n"] and ["\r"] arrive as ["\n"]. *)
Fixpoint universal_newlines (s : string) : string :=
  match s with
  | EmptyString => EmptyString
  | String c s' =>
      if Ascii.eqb c (ascii_of_N 13) then
        match s' with
        | String c' s'' =>
            if Ascii.eqb c' (ascii_of_N 10)
            then String (ascii_of_N 10) (universal_newlines s'')
            else String (ascii_of_N 10) (universal_newlines s')
        | EmptyString => String (ascii_of_N 10) EmptyString
        end
      else String c (universal_newlines s')
  end.

(** [for line in f]: the lines, each with its terminator; [cur] is the
    line being read. *)
Fixpoint lines_from (cur : string) (s : string) : list string :=
  match s with
  | EmptyString => if is_empty cur then [] else [cur]
  | String c s' =>
      if Ascii.eqb c (ascii_of_N 10)
      then (cur ++ newline)%string :: lines_from EmptyString s'
      else lines_from (cur ++ String c EmptyString)%string s'
  end.

Definition file_lines (content : string) : list string :=
  lines_from EmptyString (universal_newlines content).

(** [s.split(sep, 1)] when it has two parts: the text before the first
    separator and the text after it. *)
Fixpoint split_once (sep : ascii) (s : string) : option (string * string) :=
  match s with
  | EmptyString => None
  | String c s' =>
      if Ascii.eqb c sep then Some (EmptyString, s')
      else match split_once sep s' with
           | Some (a, b) => Some (String c a, b)
           | None => None
           end
  end.

(** One round of the loop of [load_processed_files]; the state is the
    dictionary [processed_files].  Unpacking a list of one part into two
    names raises [ValueError]. *)
Definition read_registry_line (line : string) : M pydict unit :=
  if contains "|" line then
    match split_once "|"%char (strip line) with
    | Some (file_path, file_hash) =>
        modify (fun processed_files => <[file_path := file_hash]> processed_files)
    | None => lift (Raise ValueError)
    end
  else mret tt.

(** [load_processed_files] on the content of [processed_files.txt]
    ([None]: no such file): what was read before a failure is kept. *)
Definition read_registry (content : option string) : pydict :=
  match content with
  | None => ∅
  | Some text =>
      snd (try_except_M (for_each (file_lines text) read_registry_line)
                        (fun _ => mret tt) ∅)
  end.

(** ** [DocumentProcessor] *)

Section Document_processor.
Context `{Engine} `{Files}.

(** The registry read back from its [path|hash] lines; no file, no
    entries. *)
Definition load_processed_files (d : Disk Vec) : pydict :=
  read_registry (processed_files_txt d).

(** [DocumentProcessor(documents_folder, db_path)] on the database
    directory [d]: the manager starts empty and loads the database, then
    the registry is loaded. *)
Definition open_store (folder : string) (d : Disk Vec) : ST :=
  let s0 := mkStore folder (mkFAISSManager (IndexFlatIP embedding_dim) [] []) ∅ d in
  let s1 := snd (load_database s0) in
  set_processed_files (fun _ => load_processed_files (disk s1)) s1.

(** The registry is written as one [path|hash] line per entry, in the
    order of [self.processed_files.items()]. *)
Definition save_processed_files : M ST unit :=
  try_except_M
    (s ← get;
     modify (set_disk (fun d => mkDisk (index_file d) (metadata_file d) (documents_file d)
                                       (Some (registry_text
                                                (dict_items (processed_files s)))))))
    (fun _ => mret tt).

Definition get_file_hash (file_path : string) : string :=
  match try_except (bytes ← read_bytes file_path; Ok (md5_hexdigest bytes))
                   (fun _ => Ok "") with
  | Ok h => h
  | Raise _ => ""
  end.

(** The two readers of [extract_text_from_pdf]; the state is the local
    variable [text]. *)
Definition pdf_first_method (file_path : string) : M string unit :=
  pages ← lift (pypdf2_pages file_path);
  for_each pages (fun page =>
    page_text ← lift page;
    modify (fun text => (text ++ page_text ++ newline)%string)).

Definition pdf_alternative_method (file_path : string) : M string unit :=
  pages ← lift (pdfplumber_pages file_path);
  for_each pages (fun page =>
    page_text ← lift page;
    match page_text with
    | Some t => if is_empty t then mret tt
                else modify (fun text => (text ++ t ++ newline)%string)
    | None => mret tt
    end).

(** The result of the [try] statement is [Some v] when it executes
    [return v] and [None] when control reaches the statement after it. *)
Definition extract_text_from_pdf (file_path : string) : string :=
  let run : M string (option string) :=
    try_except_M
      (pdf_first_method file_path;; mret None)
      (fun _ =>
         try_except_M
           (pdf_alternative_method file_path;; mret None)
           (fun _ => mret (Some ""))) in
  match run "" with
  | (Ok (Some v), _) => v
  | (Ok None, text) => strip text
  | (Raise _, _) => ""
  end.

Definition extract_text_from_docx (file_path : string) : string :=
  match try_except
          (paragraphs ← docx_paragraphs file_path;
           let text := fold_left (fun text p => (text ++ p ++ newline)%string) paragraphs "" in
           Ok (strip text))
          (fun _ => Ok "") with
  | Ok t => t
  | Raise _ => ""
  end.

(** The position of the first path component equal to [documents], or
    [-1]. *)
Fixpoint find_documents (parts : list string) (i : Z) : Z :=
  match parts with
  | [] => -1
  | part :: parts' =>
      if String.eqb part "documents" then i else find_documents parts' (i + 1)
  end.

Definition underscores_to_spaces (s : string) : string :=
  replace_char "_"%char " "%char s.

Definition extract_metadata_from_path (file_path : string) : result Meta :=
  let parts := path_parts file_path in
  let metadata : Meta :=
    <["topics" := VList []]>
    (<["chapter" := VStr "General"]>
     (<["course" := VStr "General"]>
      (<["title" := VStr (path_stem file_path)]>
       (<["file_path" := VStr file_path]>
        (<["id" := VStr (substring 0 8 (md5_hexdigest file_path))]> ∅))))) in
  let documents_idx := find_documents parts 0 in
  if documents_idx =? -1 then Ok metadata
  else
    metadata ← (if documents_idx + 1 <? len parts then
                  part ← py_index parts (documents_idx + 1);
                  Ok (<["course" := VStr (underscores_to_spaces part)]> metadata)
                else Ok metadata);
    metadata ← (if documents_idx + 2 <? len parts then
                  part ← py_index parts (documents_idx + 2);
                  Ok (<["chapter" := VStr (underscores_to_spaces part)]> metadata)
                else Ok metadata);
    Ok (<["topics" := VList (map underscores_to_spaces
                                 (py_slice parts (documents_idx + 1) (-1)))]> metadata).

Definition chunk_step (words : list string) (chunk_size : Z)
    (chunks : list string) (i : Z) : list string :=
  let chunk := join " " (py_slice words i (i + chunk_size)) in
  if is_empty (strip chunk) then chunks else chunks ++ [strip chunk].

Definition chunk_text (text : string) (chunk_size overlap : Z) : result (list string) :=
  if is_empty text then Ok []
  else
    let words := py_split text in
    idxs ← py_range 0 (len words) (chunk_size - overlap);
    Ok (fold_left (chunk_step words chunk_size) idxs []).

(** The part of [process_file] after the text has been extracted. *)
Definition process_text (file_path text : string) : M ST bool :=
  if is_empty text then mret false
  else
    metadata ← lift (extract_metadata_from_path file_path);
    chunks ← lift (chunk_text text 500 50);
    for_each (enumerate chunks) (fun '(i, chunk) =>
      let chunk_metadata :=
        <["total_chunks" := VInt (len chunks)]> (<["chunk_id" := VInt i]> metadata) in
      add_document chunk chunk_metadata);;
    let file_hash := get_file_hash file_path in
    modify (set_processed_files (fun reg => <[file_path := file_hash]> reg));;
    mret true.

Definition process_file (file_path : string) : M ST bool :=
  try_except_M
    (if endswith (lower file_path) ".pdf" then
       process_text file_path (extract_text_from_pdf file_path)
     else if endswith (lower file_path) ".docx" then
       process_text file_path (extract_text_from_docx file_path)
     else mret false)
    (fun _ => mret false).

(** [file_path not in self.processed_files or
    self.processed_files[file_path] != file_hash]. *)
Definition needs_processing (reg : pydict) (file_path file_hash : string)
    : bool :=
  match reg !! file_path with
  | None => true
  | Some h => negb (String.eqb h file_hash)
  end.

(** The body of the inner loop of [scan_and_process_documents]. *)
Definition scan_file (root : string) (processed_count : Z) (file : string) : M ST Z :=
  if endswith (lower file) ".pdf" || endswith (lower file) ".docx" then
    let file_path := path_join root file in
    let file_hash := get_file_hash file_path in
    s ← get;
    if needs_processing (processed_files s) file_path file_hash then
      ok ← process_file file_path;
      if ok : bool then mret (processed_count + 1) else mret processed_count
    else mret processed_count
  else mret processed_count.

(** The body of the outer loop: the files of one directory. *)
Definition walk_body (processed_count : Z) (rf : string * list string) : M ST Z :=
  let '(root, files) := rf in for_fold files (scan_file root) processed_count.

Definition scan_and_process_documents : M ST Z :=
  s ← get;
  processed_count ← for_fold (os_walk (documents_folder s)) walk_body 0;
  (if 0 <? processed_count then save_processed_files;; save_database else mret tt);;
  mret processed_count.

(** [clear_database] of [upload_document.py] after the user typed
    [CONFIRM]. *)
Definition upload_clear_database : M ST unit :=
  try_except_M
    (clear_database;;
     modify (set_processed_files (fun _ => ∅));;
     save_processed_files)
    (fun _ => mret tt).

End Document_processor.

(** ** Statistics and the callers *)

(** The dictionary of [get_database_stats] merged with the two entries
    [get_database_summary] adds. *)
Record Summary : Type := mkSummary {
  total_documents : Z;
  total_metadata : Z;
  database_size : string;
  courses : gmap pyval Z;
  summary_processed_files : Z
}.

Section Callers.
Context `{Engine} `{Files}.

(** [index_file_kb] is the text of
    [f"{os.path.getsize(self.index_file) / 1024:.2f}"]. *)
Definition get_database_stats (index_file_kb : string) (s : ST) : Z * Z * string :=
  (ntotal (index (faiss_manager s)),
   len (metadata (faiss_manager s)),
   if path_exists IndexFile (disk s) then (index_file_kb ++ " KB")%string else "0 KB").

(** One round of the loop of [get_database_summary]:
    [courses[course] = courses.get(course, 0) + 1]; a list cannot be a
    key. *)
Definition count_course (courses : gmap pyval Z) (metadata : Meta)
    : result (gmap pyval Z) :=
  let course := default (VStr "Unknown") (metadata !! "course") in
  match course with
  | VList _ => Raise TypeError
  | _ => Ok (<[course := default 0 (courses !! course) + 1]> courses)
  end.

Definition get_database_summary (index_file_kb : string) (s : ST) : result Summary :=
  let '(total_documents, total_metadata, database_size) :=
    get_database_stats index_file_kb s in
  courses ← for_fold_r (metadata (faiss_manager s)) count_course ∅;
  Ok (mkSummary total_documents total_metadata database_size courses
                (Z.of_nat (size (processed_files s)))).

(** [None] is Python's [None]. *)
Definition search_documents (s : ST) (query : string) (top_k : Z)
    : result (option string) :=
  results ← search_by_topic (faiss_manager s) query top_k;
  match matches results with
  | best_match :: _ => Ok (Some (hit_content best_match))
  | [] => Ok None
  end.

(** [add_single_document] of [upload_document.py]: [typed] is what
    [input] returns and [file_exists] is [os.path.exists]. *)
Definition add_single_document (typed : string) (file_exists : string -> bool)
    : M ST unit :=
  let file_path := strip typed in
  if is_empty file_path then mret tt
  else if negb (file_exists file_path) then mret tt
  else if negb (endswith (lower file_path) ".pdf" || endswith (lower file_path) ".docx")
  then mret tt
  else
    try_except_M
      (success ← process_file file_path;
       if success : bool then save_processed_files;; save_database else mret tt)
      (fun _ => mret tt).

End Callers.

(** ** Predicates used in the statements *)

Fixpoint no_space (s : string) : bool :=
  match s with
  | EmptyString => true
  | String c s' => negb (is_space c) && no_space s'
  end.

(** A word: not empty and free of white space. *)
Definition is_word (w : string) : Prop := is_empty w = false /\ no_space w = true.

Definition starts_ok (s : string) : Prop :=
  match s with
  | EmptyString => False
  | String c _ => is_space c = false
  end.

Fixpoint ends_ok (s : string) : Prop :=
  match s with
  | EmptyString => True
  | String c s' =>
      match s' with
      | EmptyString => is_space c = false
      | String _ _ => ends_ok s'
      end
  end.

(** The window of [size] words that starts at word [i]. *)
Definition window (words : list string) (size i : Z) : string :=
  join " " (firstn (Z.to_nat size) (skipn (Z.to_nat i) words)).

(** The words [words[i : i + size]] for [i >= 0]. *)
Definition word_run (words : list string) (size i : Z) : list string :=
  firstn (Z.to_nat size) (skipn (Z.to_nat i) words).

(** The positions [0, step, 2 * step, ...] below [n]. *)
Definition window_starts (n step : Z) : list Z :=
  map (fun k => 0 + Z.of_nat k * step) (seq 0 (Z.to_nat (range_len 0 n step))).

(** The three parallel sequences have the same length. *)
Definition aligned {V} (fm : FAISSManager V) : Prop :=
  ntotal (index fm) = len (metadata fm) /\ len (metadata fm) = len (documents fm).

(** The vector an [add_document] of [content] stores in an index of
    dimension [d], if the encoder answers and FAISS takes the vector. *)
Definition accepted `{Engine} (d : Z) (content : string) : option Vec :=
  match encode content with
  | Ok v => if dim (normalize_L2 v) =? d then Some (normalize_L2 v) else None
  | Raise _ => None
  end.

(** The manager after one [add_document]. *)
Definition add_one `{Engine} (fm : FAISSManager Vec) (cm : string * Meta)
    : FAISSManager Vec :=
  match accepted (index_d (index fm)) (fst cm) with
  | Some v =>
      mkFAISSManager (mkIndex (index_d (index fm)) (index_xb (index fm) ++ [v]))
                     (metadata fm ++ [snd cm]) (documents fm ++ [fst cm])
  | None => fm
  end.

(** A sequence of [add_document] calls. *)
Definition add_documents `{Engine} (ops : list (string * Meta)) : M ST unit :=
  for_each ops (fun cm => add_document (fst cm) (snd cm)).


(** The pairs of the FAISS answer that the loop of [search] keeps. *)
Definition keeps {V} (fm : FAISSManager V) (similarity_threshold : Q) (si : Q * Z) : bool :=
  score_ge (fst si) similarity_threshold && (snd si <? len (metadata fm)).

(** [h] is the result built from the pair [si] of the FAISS answer. *)
Definition hit_at {V} (fm : FAISSManager V) (h : Hit) (si : Q * Z) : Prop :=
  py_index (documents fm) (snd si) = Ok (hit_content h)
  /\ py_index (metadata fm) (snd si) = Ok (hit_metadata h)
  /\ hit_similarity h = fst si
  /\ hit_match_type h = None.

(** The text [process_file] extracts, [None] for an unsupported type. *)
Definition extracted_text `{Files} (file_path : string) : option string :=
  if endswith (lower file_path) ".pdf" then Some (extract_text_from_pdf file_path)
  else if endswith (lower file_path) ".docx" then Some (extract_text_from_docx file_path)
  else None.

(** The file has a supported type and text can be extracted from it. *)
Definition extractable `{Files} (file_path : string) : bool :=
  match extracted_text file_path with
  | Some text => negb (is_empty text)
  | None => false
  end.

(** The [(chunk, chunk_metadata)] pairs [process_file] passes to
    [add_document]. *)
Definition chunk_entries (metadata : Meta) (chunks : list string) : list (string * Meta) :=
  map (fun ic => (snd ic,
                  <["total_chunks" := VInt (len chunks)]>
                    (<["chunk_id" := VInt (fst ic)]> metadata)))
      (enumerate chunks).

(** The entries of a list of [add_document] calls that are stored. *)
Definition stored `{Engine} (d : Z) (entries : list (string * Meta)) : list (string * Meta) :=
  List.filter (fun cm => bool_decide (is_Some (accepted d (fst cm)))) entries.

(** The positions, among the chunks of a file, of the chunks that
    [add_document] stores in an index of dimension [d]. *)
Definition stored_positions `{Engine} (d : Z) (chunks : list string) : list Z :=
  map fst (List.filter (fun ic => bool_decide (is_Some (accepted d (snd ic))))
                       (enumerate chunks)).

(** The extensions [scan_and_process_documents] looks at. *)
Definition supported (file : string) : bool :=
  endswith (lower file) ".pdf" || endswith (lower file) ".docx".

(** Nothing is left to do for the file: no text can be extracted from it,
    or the registry holds its current fingerprint. *)
Definition settled `{Files} (reg : pydict) (file_path : string) : Prop :=
  extractable file_path = false \/ reg !! file_path = Some (get_file_hash file_path).

(** The vectors of a list of [add_document] calls that are stored. *)
Definition stored_vectors `{Engine} (d : Z) (entries : list (string * Meta)) : list Vec :=
  omap (fun cm => accepted d (fst cm)) entries.

(** Every supported file of the walk is settled. *)
Definition all_settled `{Files} (reg : pydict)
    (walk : list (string * list string)) : Prop :=
  forall root files, In (root, files) walk ->
  forall file, In file files -> supported file = true ->
  settled reg (path_join root file).

(** The matches a deduplication by id keeps: the first occurrence of every
    id that is not in [seen]. *)
Fixpoint first_occurrences (seen : gset pyval) (l : list Hit) : list Hit :=
  match l with
  | [] => []
  | m :: l' =>
      if bool_decide (match_id m ∈ seen) then first_occurrences seen l'
      else m :: first_occurrences ({[ match_id m ]} ∪ seen) l'
  end.

(** The deduplicated matches of a call of [search_by_topic]: the first
    occurrences by id among the matches of the two passes sorted by
    descending similarity, and none when the body of the call raises. *)
Definition unique_matches_of `{Engine} (fm : FAISSManager Vec) (topic : string)
    (top_k : Z) : list Hit :=
  match search_by_topic_body fm topic top_k,
        metadata_pass fm topic,
        search fm topic top_k (6 # 10) with
  | Ok _, Ok metadata_matches, Ok content_matches =>
      first_occurrences ∅ (sorted_desc (metadata_matches
                                        ++ map tag_content content_matches))
  | _, _, _ => []
  end.

(** The text a page loop appends for [texts]: every page text followed by
    a new line. *)
Definition page_lines (texts : list string) : string :=
  String.concat "" (map (fun t => (t ++ newline)%string) texts).

(** The page texts the loop over the pdfplumber pages keeps: [None] and the
    empty text are skipped. *)
Definition usable_pages (pages : list (option string)) : list string :=
  flat_map (fun o => match o with
                     | Some t => if is_empty t then [] else [t]
                     | None => []
                     end) pages.

(** A reader fails after it has read the pages [read]: on opening the
    file, with no page read, or on the page that follows [read]. *)
Definition fails_after {P} (pages : result (list (result P))) (read : list P) : Prop :=
  (read = [] /\ exists e, pages = Raise e)
  \/ exists e rest, pages = Ok (map Ok read ++ Raise e :: rest).

(** Only white space. *)
Fixpoint all_space (s : string) : bool :=
  match s with
  | EmptyString => true
  | String c s' => is_space c && all_space s'
  end.

(** [fm'] holds what [fm] holds, in the same places, followed by as many
    new vectors as new metadata records as new texts. *)
Definition extends {V} (fm fm' : FAISSManager V) : Prop :=
  index_d (index fm') = index_d (index fm)
  /\ exists vs ms ds,
       index_xb (index fm') = index_xb (index fm) ++ vs
       /\ metadata fm' = metadata fm ++ ms
       /\ documents fm' = documents fm ++ ds
       /\ len vs = len ms /\ len ms = len ds.

(** [a] does not score below [b]. *)
Definition by_similarity (a b : Hit) : Prop :=
  Qle (hit_similarity b) (hit_similarity a).

(** [l[i]] exists: [-len(l) <= i < len(l)]. *)
Definition resolves {A} (l : list A) (i : Z) : bool :=
  (- len l <=? i) && (i <? len l).

(** How a match of [search_by_topic] is tagged and what it scores. *)
Definition tagged (h : Hit) : Prop :=
  (hit_match_type h = Some "metadata" /\ hit_similarity h = 95 # 100)
  \/ (hit_match_type h = Some "content" /\ Qle (6 # 10) (hit_similarity h)).

(** The length of [l[:k]]. *)
Definition prefix_length (n k : Z) : Z :=
  if k <? 0 then Z.max (k + n) 0 else Z.min k n.

(** The title is a string or missing. *)
Definition title_is_text (m : Meta) : Prop :=
  match m !! "title" with
  | None | Some (VStr _) => True
  | Some _ => False
  end.

(** The topics are a list or a string, or missing. *)
Definition topics_iterable (m : Meta) : Prop :=
  match m !! "topics" with
  | Some (VInt _) => False
  | _ => True
  end.

(** The test of the metadata pass on a record whose title is text and
    whose topics can be iterated. *)
Definition names_topic (topic : string) (m : Meta) : bool :=
  contains (lower topic)
           (lower (match m !! "title" with Some (VStr s) => s | _ => "" end))
  || match default (VList []) (m !! "topics") with
     | VList l => existsb (fun tag => contains (lower topic) (lower tag)) l
     | VStr s => existsb (fun c => contains (lower topic) (lower (String c "")))
                         (list_ascii_of_string s)
     | VInt _ => false
     end.

(** The match the metadata pass builds from a text and its record. *)
Definition metadata_hit (cm : string * Meta) : Hit :=
  mkHit (fst cm) (snd cm) (95 # 100) (Some "metadata").

(** The character [c] does not occur in [s]. *)
Fixpoint no_char (c : ascii) (s : string) : bool :=
  match s with
  | EmptyString => true
  | String x s' => negb (Ascii.eqb x c) && no_char c s'
  end.

(** No white space in front. *)
Definition left_clean (s : string) : Prop :=
  match s with
  | EmptyString => True
  | String c _ => is_space c = false
  end.

(** An entry of the registry that its line gives back: the path is free
    of bars and line ends and has no white space in front, the hash is free
    of line ends and has no white space at its end. *)
Definition survives (item : string * string) : Prop :=
  no_char "|" (fst item) = true
  /\ no_char (ascii_of_N 10) (fst item) = true
  /\ no_char (ascii_of_N 13) (fst item) = true
  /\ left_clean (fst item)
  /\ no_char (ascii_of_N 10) (snd item) = true
  /\ no_char (ascii_of_N 13) (snd item) = true
  /\ ends_ok (snd item).

(** A registry that its file gives back: no path occurs twice, as in every
    dictionary, and every item survives. *)
Definition restorable (reg : pydict) : Prop :=
  List.NoDup (map fst (dict_items reg)) /\ Forall survives (dict_items reg).

(** The database directory after [save_processed_files] and
    [save_database]. *)
Definition saved_disk {V} (s : Store V) : Disk V :=
  mkDisk (Some (Ok (index (faiss_manager s))))
         (Some (Ok (metadata (faiss_manager s))))
         (Some (Ok (documents (faiss_manager s))))
         (Some (registry_text (dict_items (processed_files s)))).

(** The file exists and reading it fails. *)
Definition damaged {A} (file : option (result A)) : bool :=
  match file with
  | Some (Raise _) => true
  | _ => false
  end.

(** [metadata.get('course', 'Unknown')]. *)
Definition course_of (m : Meta) : pyval := default (VStr "Unknown") (m !! "course").

Definition is_list (v : pyval) : bool :=
  match v with
  | VList _ => true
  | _ => false
  end.

(** The number of records of the course [c]. *)
Definition records_of (c : pyval) (ms : list Meta) : Z :=
  len (List.filter (fun m => bool_decide (course_of m = c)) ms).

(** ** Concrete collaborators, used to run the model *)

(** The lowest float32, the score FAISS pads an answer with. *)
Definition lowest_score : Q := - (340282346638528859811704183484516925440 # 1).

(** A stand-in for the encoder and the inner product: a text is its own
    embedding, identical texts score 1 and different texts score
    [other]. *)
Definition demo_score (other : Q) (q v : string) : Q :=
  if String.eqb q v then 1 else other.

(** [x] comes before [y] in a FAISS answer: a higher score, or the same
    score and a later position. *)
Definition comes_before (x y : Q * Z) : bool :=
  negb (Qle_bool (fst x) (fst y)) || (Qeq_bool (fst x) (fst y) && (snd y <? snd x)).

Fixpoint insert_pair (x : Q * Z) (l : list (Q * Z)) : list (Q * Z) :=
  match l with
  | [] => [x]
  | y :: l' => if comes_before x y then x :: y :: l' else y :: insert_pair x l'
  end.

(** One vector of the scan: it takes the place of the worst pair kept when
    it scores above it. *)
Definition heap_add (kept : list (Q * Z)) (x : Q * Z) : list (Q * Z) :=
  match rev kept with
  | worst :: others =>
      if negb (Qle_bool (fst x) (fst worst)) then insert_pair x (rev others) else kept
  | [] => kept
  end.

(** A stand-in for the exhaustive inner-product search of a flat FAISS
    index: [k > 0] is required; the [k] best pairs are collected, starting
    from [k] padding pairs [(lowest, -1)], by a scan of the vectors in
    insertion order, and are returned in descending score, equal scores in
    descending position. *)
Definition demo_search (other : Q) (ix : Index string) (q : string) (k : Z)
    : result (list (Q * Z)) :=
  if k <=? 0 then Raise AssertionError
  else
    let scored := combine (map (demo_score other q) (index_xb ix))
                          (map Z.of_nat (seq 0 (List.length (index_xb ix)))) in
    Ok (fold_left heap_add scored (repeat (lowest_score, -1) (Z.to_nat k))).

Definition demo_engine (other : Q) : Engine := {|
  Vec := string;
  dim := fun _ => embedding_dim;
  encode := fun text => Ok text;
  normalize_L2 := fun v => v;
  index_search := demo_search other
|}.

(** An encoder that is down. *)
Definition failing_engine : Engine := {|
  Vec := string;
  dim := fun _ => embedding_dim;
  encode := fun _ => Raise (LibraryError "encoder unavailable");
  normalize_L2 := fun v => v;
  index_search := demo_search 0
|}.

(** The folder [documents/Algorithms] with [recursion.pdf], whose text is
    the single word [recursion], and a text file. *)
Definition demo_files : Files := {|
  read_bytes := fun _ => Ok "%PDF-1.4";
  md5_hexdigest := fun _ => "9e107d9d372bb6826bd81d3542a419d6";
  path_parts := fun _ => ["documents"; "Algorithms"; "recursion.pdf"];
  path_stem := fun _ => "recursion";
  os_walk := fun d =>
    [(d, []); ((d ++ "/Algorithms")%string, ["recursion.pdf"; "notes.txt"])];
  pypdf2_pages := fun _ => Ok [Ok "recursion"];
  pdfplumber_pages := fun _ => Raise OSError;
  docx_paragraphs := fun _ => Raise OSError
|}.

Definition demo_path : string := "documents/Algorithms/recursion.pdf".

(** The store of a [DocumentProcessor] created on an empty database
    directory. *)
Definition new_store `{Engine} : ST :=
  mkStore "documents" (mkFAISSManager (IndexFlatIP embedding_dim) [] []) ∅
          (mkDisk None None None None).

(** A manager whose only metadata record has an integer title. *)
Definition untyped_title_manager : FAISSManager string :=
  mkFAISSManager (mkIndex embedding_dim ["text"]) [ {[ "title" := VInt 3 ]} ] ["text"].

(** The store after the first scan of the demo folder. *)
Definition demo_store : Store string :=
  snd (@scan_and_process_documents (demo_engine (7 # 10)) demo_files
         (@new_store (demo_engine (7 # 10)))).

(** The metadata record of the demo PDF's only chunk. *)
Definition demo_meta : Meta :=
  <["total_chunks" := VInt 1]>
  (<["chunk_id" := VInt 0]>
   (<["topics" := VList ["Algorithms"]]>
    (<["chapter" := VStr "recursion.pdf"]>
     (<["course" := VStr "Algorithms"]>
      (<["title" := VStr "recursion"]>
       (<["file_path" := VStr demo_path]>
        (<["id" := VStr "9e107d9d"]> ∅))))))).

(** The two matches [search_by_topic] finds for the demo PDF. *)
Definition demo_metadata_match : Hit :=
  mkHit "recursion" demo_meta (95 # 100) (Some "metadata").

Definition demo_content_match (score : Q) : Hit :=
  mkHit "recursion" demo_meta score None.

(** The demo store after [FAISSManager.clear_database]. *)
Definition cleared_demo_store : Store string :=
  snd (@clear_database (demo_engine (7 # 10)) demo_store).

(** A new [DocumentProcessor] started on the directory that
    [clear_database] left behind. *)
Definition reopened_cleared_store : Store string :=
  @open_store (demo_engine (7 # 10)) "documents" (disk cleared_demo_store).

(** A manager that holds two documents. *)
Definition two_documents_manager : FAISSManager string :=
  faiss_manager (snd (@add_documents (demo_engine (7 # 10))
                        [("sorting", ∅); ("recursion", ∅)] new_store)).

(** A text of [n] words. *)
Definition words_text (n : nat) : string := join " " (repeat "w" n).



(** A file system whose documents hold nothing but white space. *)
Definition blank_files : Files := {|
  read_bytes := fun _ => Ok "%PDF-1.4";
  md5_hexdigest := fun _ => "9e107d9d372bb6826bd81d3542a419d6";
  path_parts := fun _ => ["documents"; "blank.pdf"];
  path_stem := fun _ => "blank";
  os_walk := fun d => [(d, ["blank.pdf"; "blank.docx"])];
  pypdf2_pages := fun _ => Ok [Ok " "; Ok newline];
  pdfplumber_pages := fun _ => Raise OSError;
  docx_paragraphs := fun _ => Ok [" "; ""]
|}.

(** A documents folder with one PDF whose name has a bar in it. *)
Definition bar_files : Files := {|
  read_bytes := fun _ => Ok "%PDF-1.4";
  md5_hexdigest := fun _ => "9e107d9d372bb6826bd81d3542a419d6";
  path_parts := fun _ => ["documents"; "a|b.pdf"];
  path_stem := fun _ => "a|b";
  os_walk := fun d => [(d, ["a|b.pdf"])];
  pypdf2_pages := fun _ => Ok [Ok "recursion"];
  pdfplumber_pages := fun _ => Raise OSError;
  docx_paragraphs := fun _ => Raise OSError
|}.

(** The store after the first scan of that folder, and a new
    [DocumentProcessor] started on the directory the scan wrote. *)
Definition bar_store : Store string :=
  snd (@scan_and_process_documents (demo_engine (7 # 10)) bar_files
         (@new_store (demo_engine (7 # 10)))).

Definition reopened_bar_store : Store string :=
  @open_store (demo_engine (7 # 10)) "documents" (disk bar_store).

(** A manager that has lost the text of its second document. *)
Definition short_documents_manager : FAISSManager string :=
  mkFAISSManager (mkIndex embedding_dim ["sorting"; "recursion"]) [∅; ∅] ["sorting"].

(** A database directory without its metadata file. *)
Definition index_only_disk : Disk string :=
  mkDisk (Some (Ok (mkIndex embedding_dim ["recursion"]))) None
         (Some (Ok ["recursion"])) None.

(** A registry with one entry. *)
Definition demo_registry : pydict :=
  {[ demo_path := "9e107d9d372bb6826bd81d3542a419d6" ]}.

(** The store after [process_file] on the demo PDF. *)
Definition demo_processed_store : Store string :=
  snd (@process_file (demo_engine (7 # 10)) demo_files demo_path
         (@new_store (demo_engine (7 # 10)))).

(** * Properties *)

(** ** The registry as a dictionary *)

Lemma pydict_lookup_insert_eq (reg : pydict) (k v : string) :
  <[k := v]> reg !! k = Some v.
Proof.
  destruct reg as [l]. unfold lookup, insert, pydict_lookup, pydict_insert.
  cbn [dict_items]. induction l as [|[k' v'] l IH]; cbn [dict_set dict_get].
  - now rewrite String.eqb_refl.
  - destruct (String.eqb k' k) eqn:E; cbn [dict_get]; now rewrite E.
Qed.

Lemma pydict_lookup_insert_ne (reg : pydict) (k q v : string) :
  k <> q -> <[k := v]> reg !! q = reg !! q.
Proof.
  intros Hne. destruct reg as [l]. unfold lookup, insert, pydict_lookup, pydict_insert.
  cbn [dict_items]. induction l as [|[k' v'] l IH]; cbn [dict_set dict_get].
  - apply String.eqb_neq in Hne. now rewrite Hne.
  - destruct (String.eqb k' k) eqn:E; cbn [dict_get].
    + apply String.eqb_eq in E. subst k'. apply String.eqb_neq in Hne. now rewrite Hne.
    + now rewrite IH.
Qed.

Lemma pydict_insert_insert (reg : pydict) (k v : string) :
  <[k := v]> (<[k := v]> reg) = <[k := v]> reg.
Proof.
  destruct reg as [l]. unfold insert, pydict_insert. cbn [dict_items]. f_equal.
  induction l as [|[k' v'] l IH]; cbn [dict_set].
  - now rewrite String.eqb_refl.
  - destruct (String.eqb k' k) eqn:E; cbn [dict_set]; rewrite E; [reflexivity|].
    now rewrite IH.
Qed.

(** ** Strings and slices *)

Lemma no_space_app (a b : string) :
  no_space (a ++ b)%string = no_space a && no_space b.
Proof.
  induction a as [|c a IH]; simpl; [reflexivity|].
  rewrite IH. now rewrite andb_assoc.
Qed.

Lemma is_empty_app (a b : string) :
  is_empty (a ++ b)%string = is_empty a && is_empty b.
Proof. destruct a; reflexivity. Qed.

Lemma split_from_words (s cur : string) :
  no_space cur = true -> Forall is_word (split_from cur s).
Proof.
  revert cur. induction s as [|c s IH]; intros cur Hcur; simpl.
  - destruct (is_empty cur) eqn:E; constructor; [split; assumption | constructor].
  - destruct (is_space c) eqn:Hc.
    + destruct (is_empty cur) eqn:E.
      * apply IH. reflexivity.
      * constructor; [split; assumption | apply IH; reflexivity].
    + apply IH. rewrite no_space_app, Hcur. simpl. now rewrite Hc.
Qed.

Lemma py_split_words (text : string) : Forall is_word (py_split text).
Proof. apply split_from_words. reflexivity. Qed.

Lemma lstrip_id (s : string) : starts_ok s -> lstrip s = s.
Proof. destruct s as [|c s]; simpl; [tauto|]. now intros ->. Qed.

Lemma rstrip_id (s : string) : ends_ok s -> rstrip s = s.
Proof.
  induction s as [|c s IH]; [reflexivity|].
  intros Hs. cbn [rstrip]. destruct s as [|c' s'].
  - simpl in *. now rewrite Hs.
  - rewrite (IH Hs). cbn [is_empty]. now rewrite andb_false_r.
Qed.

Lemma ends_ok_app (a b : string) :
  is_empty b = false -> ends_ok b -> ends_ok (a ++ b)%string.
Proof.
  intros Hb Hok. induction a as [|c a IH]; [exact Hok|].
  change (String c a ++ b)%string with (String c (a ++ b)%string).
  cbn [ends_ok]. destruct (a ++ b)%string eqn:E; [|exact IH].
  pose proof (is_empty_app a b) as Hab. rewrite E, Hb, andb_false_r in Hab.
  discriminate.
Qed.

Lemma word_ends_ok (w : string) : no_space w = true -> ends_ok w.
Proof.
  induction w as [|c w IH]; [easy|]. simpl.
  intros [Hc Hw]%andb_true_iff. destruct w; [now apply negb_true_iff | auto].
Qed.

Lemma word_starts_ok (w rest : string) : is_word w -> starts_ok (w ++ rest)%string.
Proof.
  intros [Hne Hns]. destruct w as [|c w]; [discriminate|].
  simpl in *. apply andb_true_iff in Hns as [Hc _]. now apply negb_true_iff.
Qed.

Lemma join_cons2 (sep x y : string) (l : list string) :
  join sep (x :: y :: l) = (x ++ sep ++ join sep (y :: l))%string.
Proof. reflexivity. Qed.

(** Joining words with single blanks gives a text that [strip] leaves
    alone. *)
Lemma join_words_shape (l : list string) :
  l <> [] -> Forall is_word l ->
  is_empty (join " " l) = false /\ starts_ok (join " " l) /\ ends_ok (join " " l).
Proof.
  induction l as [|w l IH]; [congruence|]. intros _ Hall.
  inversion Hall as [|? ? Hw Hl]; subst.
  destruct l as [|w' l].
  - simpl. destruct Hw as [Hne Hns]. repeat split; try assumption.
    + destruct w; [discriminate|]. simpl in *.
      apply andb_true_iff in Hns as [Hc _]. now apply negb_true_iff.
    + now apply word_ends_ok.
  - rewrite join_cons2. destruct (IH ltac:(congruence) Hl) as (He & _ & Hend).
    repeat split.
    + rewrite is_empty_app. destruct Hw as [-> _]. reflexivity.
    + now apply word_starts_ok.
    + apply ends_ok_app.
      * reflexivity.
      * change (" " ++ join " " (w' :: l))%string
          with (String " "%char (join " " (w' :: l))).
        cbn [ends_ok]. destruct (join " " (w' :: l)); [discriminate | exact Hend].
Qed.

Lemma strip_join_words (l : list string) :
  l <> [] -> Forall is_word l ->
  strip (join " " l) = join " " l /\ is_empty (join " " l) = false.
Proof.
  intros Hne Hall. destruct (join_words_shape l Hne Hall) as (He & Hs & Hend).
  split; [|exact He]. unfold strip. rewrite (lstrip_id _ Hs). now apply rstrip_id.
Qed.

Lemma lstrip_shape (s : string) : lstrip s = "" \/ starts_ok (lstrip s).
Proof.
  induction s as [|c s IH]; [now left|]. cbn.
  destruct (is_space c) eqn:Hc; [exact IH | now right].
Qed.

Lemma rstrip_starts (s : string) : starts_ok s -> starts_ok (rstrip s).
Proof.
  destruct s as [|c s]; [easy|]. intros Hc. cbn in Hc. cbn [rstrip].
  rewrite Hc. exact Hc.
Qed.

Lemma strip_shape (t : string) : is_empty (strip t) = false -> starts_ok (strip t).
Proof.
  unfold strip. destruct (lstrip_shape t) as [->|Hs]; [discriminate|].
  intros _. now apply rstrip_starts.
Qed.

Lemma split_from_nonempty (s : string) :
  forall cur, is_empty cur = false -> split_from cur s <> [].
Proof.
  induction s as [|c s IH]; intros cur Hcur; cbn.
  - now rewrite Hcur.
  - destruct (is_space c); [now rewrite Hcur|].
    apply IH. rewrite is_empty_app, Hcur. reflexivity.
Qed.

Lemma py_split_starts (s : string) : starts_ok s -> py_split s <> [].
Proof.
  destruct s as [|c s]; [easy|]. cbn. intros Hc. unfold py_split. cbn.
  rewrite Hc. now apply split_from_nonempty.
Qed.

Lemma len_nonneg {A} (l : list A) : 0 <= len l.
Proof. unfold len. lia. Qed.

Lemma len_app {A} (l k : list A) : len (l ++ k) = len l + len k.
Proof. unfold len. rewrite length_app. lia. Qed.

Lemma firstn_clip {A} (n : nat) (l : list A) :
  firstn (Nat.min n (List.length l)) l = firstn n l.
Proof.
  destruct (Nat.le_ge_cases n (List.length l)) as [Hle|Hge].
  - now rewrite Nat.min_l.
  - rewrite Nat.min_r by assumption. rewrite firstn_all.
    symmetry. now apply firstn_all2.
Qed.

(** A window that starts inside the list. *)
Lemma py_slice_window {A} (l : list A) (i size : Z) :
  0 <= i < len l -> 0 < size ->
  py_slice l i (i + size) = firstn (Z.to_nat size) (skipn (Z.to_nat i) l).
Proof.
  intros Hi Hsize. unfold py_slice, clamp_bound.
  destruct (Z.ltb_spec i 0); [lia|].
  destruct (Z.ltb_spec (i + size) 0); [lia|].
  rewrite (Z.min_l i) by lia.
  rewrite <- (firstn_clip (Z.to_nat size)).
  f_equal. rewrite length_skipn. unfold len in *. lia.
Qed.

Lemma window_nonempty {A} (l : list A) (i size : Z) :
  0 <= i < len l -> 0 < size ->
  firstn (Z.to_nat size) (skipn (Z.to_nat i) l) <> [].
Proof.
  intros Hi Hsize Hnil. apply (f_equal (@List.length A)) in Hnil.
  rewrite length_firstn, length_skipn in Hnil. unfold len in *. simpl in Hnil. lia.
Qed.

Lemma Forall_window {A} (P : A -> Prop) (l : list A) (n k : nat) :
  Forall P l -> Forall P (firstn n (skipn k l)).
Proof.
  intros Hall. now apply Forall_take, Forall_drop.
Qed.

(** The positions [range(0, n, step)] visits lie inside [0, n). *)
Lemma range_positions (n step : Z) (k : nat) :
  0 < step -> (k < Z.to_nat (range_len 0 n step))%nat ->
  0 <= 0 + Z.of_nat k * step < n.
Proof.
  intros Hstep Hk. unfold range_len in Hk.
  destruct (Z.ltb_spec 0 step); [|lia].
  destruct (Z.ltb_spec 0 n); [|simpl in Hk; lia].
  pose proof (Z.mul_div_le (n - 0 + step - 1) step Hstep) as Hdiv.
  assert (Z.of_nat k + 1 <= (n - 0 + step - 1) / step) by lia.
  nia.
Qed.

Lemma py_index_inside {A} (l : list A) (j : Z) :
  0 <= j < len l -> exists x, py_index l j = Ok x.
Proof.
  intros Hj. unfold py_index.
  destruct (Z.ltb_spec j 0); [lia|].
  destruct (Z.ltb_spec j 0); [lia|].
  destruct (Z.leb_spec (len l) j); [lia|]. cbn [orb].
  destruct (nth_error l (Z.to_nat j)) as [x|] eqn:E; [now exists x|].
  apply nth_error_None in E. unfold len in Hj. lia.
Qed.

(** ** Chunking *)

Lemma chunk_step_window (words : list string) (size i : Z) (chunks : list string) :
  Forall is_word words -> 0 < size -> 0 <= i < len words ->
  chunk_step words size chunks i = chunks ++ [window words size i].
Proof.
  intros Hw Hsize Hi. unfold chunk_step, window.
  rewrite py_slice_window by assumption.
  destruct (strip_join_words (firstn (Z.to_nat size) (skipn (Z.to_nat i) words)))
    as [Hstrip Hne].
  - now apply window_nonempty.
  - now apply Forall_window.
  - now rewrite Hstrip, Hne.
Qed.

Lemma chunk_loop_windows (words : list string) (size : Z) (idxs : list Z) :
  Forall is_word words -> 0 < size ->
  Forall (fun i => 0 <= i < len words) idxs ->
  forall chunks,
    fold_left (chunk_step words size) idxs chunks
    = chunks ++ map (window words size) idxs.
Proof.
  intros Hw Hsize Hidx. induction Hidx as [|i idxs Hi _ IH]; intros chunks; simpl.
  - now rewrite app_nil_r.
  - rewrite chunk_step_window by assumption. rewrite IH, <- app_assoc. reflexivity.
Qed.

Lemma window_starts_inside (n step : Z) :
  0 < step -> Forall (fun i => 0 <= i < n) (window_starts n step).
Proof.
  intros Hstep. unfold window_starts. apply List.Forall_forall. intros i Hi.
  apply in_map_iff in Hi as (k & <- & Hk). apply in_seq in Hk.
  apply range_positions; [assumption | lia].
Qed.

(** With a positive size and a smaller overlap the chunks are the windows
    of [size] words taken every [size - overlap] words, the last and
    shorter ones included. *)
Lemma chunk_text_windows (text : string) (size overlap : Z) :
  0 < size -> overlap < size ->
  chunk_text text size overlap
  = Ok (map (window (py_split text) size)
            (window_starts (len (py_split text)) (size - overlap))).
Proof.
  intros Hsize Hov. unfold chunk_text.
  destruct (is_empty text) eqn:He.
  - destruct text; [|discriminate]. unfold window_starts, range_len.
    change (len (py_split "")) with 0.
    destruct (0 <? size - overlap); reflexivity.
  - unfold py_range. destruct (Z.eqb_spec (size - overlap) 0); [lia|].
    cbn [mbind result_bind]. f_equal.
    fold (window_starts (len (py_split text)) (size - overlap)).
    assert (Hstep : 0 < size - overlap) by lia.
    apply (chunk_loop_windows _ _ _ (py_split_words text) Hsize
             (window_starts_inside _ _ Hstep) []).
Qed.

Lemma firstn_len {A} (l : list A) (n : Z) :
  len l <= n -> firstn (Z.to_nat n) l = l.
Proof. intros Hn. apply firstn_all2. unfold len in Hn. lia. Qed.

(** C3 (as the code has it): with [size = 500] and [overlap = 50] a text
    of exactly 500 words yields two chunks, the whole text and the window
    that starts at word 450; a text of 550 words yields two chunks, the
    second starting at word 450; a text of 1 to 450 words yields one chunk;
    in general the chunks are the windows of [size] words taken every
    [size - overlap] words, every one of them kept. *)
Theorem chunk_text_boundary (text : string) :
  (len (py_split text) = 500 ->
   chunk_text text 500 50
   = Ok [join " " (py_split text); join " " (skipn 450 (py_split text))])
  /\ (len (py_split text) = 550 ->
      chunk_text text 500 50
      = Ok [join " " (firstn 500 (py_split text)); join " " (skipn 450 (py_split text))])
  /\ (1 <= len (py_split text) <= 450 ->
      chunk_text text 500 50 = Ok [join " " (py_split text)])
  /\ (forall size overlap, 0 < size -> overlap < size ->
      chunk_text text size overlap
      = Ok (map (window (py_split text) size)
                (window_starts (len (py_split text)) (size - overlap)))).
Proof.
  repeat split.
  - intros Hn. rewrite chunk_text_windows by lia. rewrite Hn.
    change (window_starts 500 (500 - 50)) with [0; 450]. cbn [map]. unfold window.
    change (Z.to_nat 0) with 0%nat. change (skipn 0 (py_split text)) with (py_split text).
    rewrite (firstn_len (py_split text)) by lia.
    rewrite (firstn_len (skipn (Z.to_nat 450) (py_split text))); [reflexivity|].
    unfold len in *. rewrite length_skipn. lia.
  - intros Hn. rewrite chunk_text_windows by lia. rewrite Hn.
    change (window_starts 550 (500 - 50)) with [0; 450]. cbn [map]. unfold window.
    change (Z.to_nat 0) with 0%nat. change (skipn 0 (py_split text)) with (py_split text).
    rewrite (firstn_len (skipn (Z.to_nat 450) (py_split text))); [reflexivity|].
    unfold len in *. rewrite length_skipn. lia.
  - intros Hn. rewrite chunk_text_windows by lia.
    assert (Hs : window_starts (len (py_split text)) (500 - 50) = [0]).
    { unfold window_starts, range_len. change (0 <? 500 - 50) with true. cbn match.
      destruct (Z.ltb_spec 0 (len (py_split text))); [|lia].
      assert (Hq : (len (py_split text) - 0 + (500 - 50) - 1) / (500 - 50) = 1).
      { symmetry. apply (Z.div_unique _ _ 1 (len (py_split text) - 1)); lia. }
      rewrite Hq. reflexivity. }
    rewrite Hs. cbn [map]. unfold window. change (Z.to_nat 0) with 0%nat.
    change (skipn 0 (py_split text)) with (py_split text).
    rewrite (firstn_len (py_split text)) by lia. reflexivity.
  - intros size overlap. apply chunk_text_windows.
Qed.

(** C7 (as the code has it): [chunk_text] does not validate its
    parameters.  With [overlap = size] and a text that is not empty,
    [range] raises [ValueError] for its zero step; with [overlap > size]
    the loop does not run and the result is the empty list; an empty text
    returns the empty list whatever the parameters are. *)
Theorem chunk_text_overlap_not_below_size (text : string) (size overlap : Z) :
  (overlap = size -> is_empty text = false ->
   chunk_text text size overlap = Raise ValueError)
  /\ (size < overlap -> chunk_text text size overlap = Ok [])
  /\ (is_empty text = true -> chunk_text text size overlap = Ok []).
Proof.
  unfold chunk_text. repeat split.
  - intros -> ->. unfold py_range. now rewrite Z.sub_diag.
  - intros Hlt. destruct (is_empty text); [reflexivity|].
    unfold py_range, range_len.
    destruct (Z.eqb_spec (size - overlap) 0); [lia|].
    destruct (Z.ltb_spec 0 (size - overlap)); [lia|].
    destruct (Z.ltb_spec (len (py_split text)) 0); [pose proof (len_nonneg (py_split text)); lia|].
    reflexivity.
  - now intros ->.
Qed.

Lemma chunk_text_boundary_witness :
  len (py_split (words_text 500)) = 500
  /\ chunk_text (words_text 500) 500 50
     = Ok [join " " (py_split (words_text 500));
           join " " (skipn 450 (py_split (words_text 500)))].
Proof.
  split; [vm_compute; reflexivity|].
  apply (proj1 (chunk_text_boundary (words_text 500))). vm_compute. reflexivity.
Defined.

(** C3, the claim as stated fails: a text of exactly 500 words does not
    yield exactly one chunk. *)
Lemma chunk_text_500_words_not_one_chunk :
  len (py_split (words_text 500)) = 500
  /\ ~ (exists c, chunk_text (words_text 500) 500 50 = Ok [c]).
Proof.
  split; [vm_compute; reflexivity|].
  intros [c Hc]. vm_compute in Hc. discriminate Hc.
Qed.

Lemma chunk_text_overlap_not_below_size_witness :
  chunk_text "a b c" 2 2 = Raise ValueError /\ chunk_text "a b c" 1 2 = Ok [].
Proof.
  split.
  - apply (proj1 (chunk_text_overlap_not_below_size "a b c" 2 2)); reflexivity.
  - apply (proj1 (proj2 (chunk_text_overlap_not_below_size "a b c" 1 2))). lia.
Defined.

(** C7, the claim as stated fails: with [overlap = 2 >= size = 1] the call
    returns normally. *)
Lemma chunk_text_overlap_above_size_returns :
  1 <= 2 /\ chunk_text "a b c" 1 2 = Ok []
  /\ forall e, chunk_text "a b c" 1 2 <> Raise e.
Proof. split; [lia|]. split; [reflexivity|]. intros e. vm_compute. discriminate. Qed.

(** ** The vector index: adding *)

Section Add.
Context `{Engine}.

Lemma set_fm_same (s : ST) : set_fm (fun fm => fm) s = s.
Proof. now destruct s. Qed.

Lemma set_fm_set_fm (f g : FAISSManager Vec -> FAISSManager Vec) (s : ST) :
  set_fm g (set_fm f s) = set_fm (fun fm => g (f fm)) s.
Proof. reflexivity. Qed.

(** [add_document] always returns normally; its whole effect is
    [add_one]. *)
Lemma add_document_run (content : string) (meta : Meta) (s : ST) :
  add_document content meta s
  = (Ok tt, set_fm (fun fm => add_one fm (content, meta)) s).
Proof.
  unfold add_document, try_except_M, add_document_body, add_one, accepted.
  unfold mbind, M_bind, lift, index_add, metadata_append, documents_append, modify.
  unfold set_fm. destruct s as [folder fm reg d]. cbn.
  destruct (encode content) as [v|e]; cbn; [|reflexivity].
  destruct (dim (normalize_L2 v) =? index_d (index fm)); reflexivity.
Qed.

Lemma add_one_cases (fm : FAISSManager Vec) (content : string) (meta : Meta) :
  add_one fm (content, meta) = fm
  \/ exists v,
       add_one fm (content, meta)
       = mkFAISSManager (mkIndex (index_d (index fm)) (index_xb (index fm) ++ [v]))
                        (metadata fm ++ [meta]) (documents fm ++ [content]).
Proof.
  unfold add_one. cbn [fst snd].
  destruct (accepted _ content) as [v|]; [right; now exists v | now left].
Qed.

Lemma add_one_aligned (fm : FAISSManager Vec) (cm : string * Meta) :
  aligned fm -> aligned (add_one fm cm).
Proof.
  intros [Hi Hm]. destruct cm as [content meta].
  destruct (add_one_cases fm content meta) as [->|[v ->]]; [now split|].
  unfold aligned, ntotal in *. cbn. rewrite !len_app. unfold len in *. cbn. lia.
Qed.

Lemma add_documents_run (ops : list (string * Meta)) (s : ST) :
  add_documents ops s = (Ok tt, set_fm (fun fm => fold_left add_one ops fm) s).
Proof.
  unfold add_documents. revert s. induction ops as [|cm ops IH]; intros s.
  - cbn. now rewrite set_fm_same.
  - cbn [for_each]. unfold mbind at 1, M_bind at 1.
    rewrite add_document_run. rewrite IH. rewrite set_fm_set_fm.
    destruct cm. reflexivity.
Qed.

Lemma fold_add_one_aligned (ops : list (string * Meta)) (fm : FAISSManager Vec) :
  aligned fm -> aligned (fold_left add_one ops fm).
Proof.
  revert fm. induction ops as [|cm ops IH]; intros fm Hfm; [exact Hfm|].
  cbn. apply IH. now apply add_one_aligned.
Qed.

(** C1: from an aligned store, after every call of any sequence of
    [add_document] calls the three sequences have the same length; each
    call returns normally and either appends one vector, one metadata
    record and one text, or leaves the manager as it was. *)
Theorem add_document_keeps_alignment (ops : list (string * Meta)) (s : ST) :
  aligned (faiss_manager s) ->
  (forall n, exists s',
      add_documents (firstn n ops) s = (Ok tt, s')
      /\ aligned (faiss_manager s'))
  /\ (forall content meta, exists s',
        add_document content meta s = (Ok tt, s')
        /\ aligned (faiss_manager s')
        /\ (faiss_manager s' = faiss_manager s
            \/ exists v,
                 index_xb (index (faiss_manager s'))
                 = index_xb (index (faiss_manager s)) ++ [v]
                 /\ metadata (faiss_manager s') = metadata (faiss_manager s) ++ [meta]
                 /\ documents (faiss_manager s')
                    = documents (faiss_manager s) ++ [content])).
Proof.
  intros Hal. split.
  - intros n. eexists. split; [apply add_documents_run|].
    cbn. now apply fold_add_one_aligned.
  - intros content meta. eexists. split; [apply add_document_run|].
    cbn. split; [now apply add_one_aligned|].
    destruct (add_one_cases (faiss_manager s) content meta) as [->|[v ->]];
      [now left | right; now exists v].
Qed.

(** A failure of the encoder does not leave [add_document]. *)
Lemma add_document_encoder_failure (content : string) (meta : Meta) (s : ST) (e : exn) :
  encode content = Raise e -> add_document content meta s = (Ok tt, s).
Proof.
  intros He. rewrite add_document_run. unfold add_one, accepted. cbn [fst].
  rewrite He. apply f_equal, set_fm_same.
Qed.

End Add.

(** ** The vector index: searching *)

Section Search.
Context `{Engine}.

Lemma search_never_raises (fm : FAISSManager Vec) (query : string) (top_k : Z) (thr : Q) :
  exists hits, search fm query top_k thr = Ok hits.
Proof.
  unfold search, try_except.
  destruct (search_body fm query top_k thr) as [hits|e]; eauto.
Qed.

Lemma search_step_ok (fm : FAISSManager Vec) (thr : Q) (acc r : list Hit) (si : Q * Z) :
  search_step fm thr acc si = Ok r ->
  if keeps fm thr si then exists h, r = acc ++ [h] /\ hit_at fm h si else r = acc.
Proof.
  unfold search_step, keeps, hit_at. destruct si as [score idx]. cbn [fst snd].
  destruct (score_ge score thr && (idx <? len (metadata fm))).
  - unfold mbind, result_bind.
    destruct (py_index (documents fm) idx) as [c|]; [|discriminate].
    destruct (py_index (metadata fm) idx) as [m|]; [|discriminate].
    intros [= <-]. eexists. split; [reflexivity|]. cbn. auto.
  - now intros [= <-].
Qed.

Lemma search_loop_ok (fm : FAISSManager Vec) (thr : Q) (raw : list (Q * Z)) :
  forall acc r,
    for_fold_r raw (search_step fm thr) acc = Ok r ->
    exists new, r = acc ++ new
                /\ Forall2 (hit_at fm) new (List.filter (keeps fm thr) raw).
Proof.
  induction raw as [|si raw IH]; intros acc r Hr.
  - injection Hr as <-. exists []. rewrite app_nil_r. split; [reflexivity|constructor].
  - cbn [for_fold_r] in Hr. unfold mbind, result_bind in Hr.
    destruct (search_step fm thr acc si) as [acc'|] eqn:Hstep; [|discriminate].
    apply search_step_ok in Hstep. fold (@mbind result _) in Hr.
    destruct (IH _ _ Hr) as (new & -> & Hnew). cbn [List.filter].
    destruct (keeps fm thr si).
    + destruct Hstep as (h & -> & Hh). exists (h :: new).
      rewrite <- app_assoc. split; [reflexivity|]. now constructor.
    + subst acc'. now exists new.
Qed.






End Search.

(** ** Hybrid search *)

Section Topic.
Context `{Engine}.

Lemma metadata_step_ok (fm : FAISSManager Vec) (topic : string)
    (acc r : list Hit) (im : Z * Meta) :
  metadata_step fm topic acc im = Ok r ->
  r = acc
  \/ exists c, r = acc ++ [mkHit c (snd im) (95 # 100) (Some "metadata")].
Proof.
  unfold metadata_step. destruct im as [i meta]. unfold mbind, result_bind.
  destruct (title_lower meta) as [title|]; [|discriminate].
  destruct (if contains (lower topic) title then Ok true
            else any_tag topic (default (VList []) (meta !! "topics")))
    as [[|]|]; [| |discriminate].
  - destruct (py_index (documents fm) i) as [c|]; [|discriminate].
    intros [= <-]. right. now exists c.
  - intros [= <-]. now left.
Qed.

Lemma metadata_loop_ok (fm : FAISSManager Vec) (topic : string) (l : list (Z * Meta)) :
  forall acc r,
    for_fold_r l (metadata_step fm topic) acc = Ok r ->
    exists new,
      r = acc ++ new
      /\ Forall (fun h => hit_similarity h = 95 # 100
                          /\ hit_match_type h = Some "metadata") new.
Proof.
  induction l as [|im l IH]; intros acc r Hr.
  - injection Hr as <-. exists []. rewrite app_nil_r. split; [reflexivity|constructor].
  - cbn [for_fold_r] in Hr. unfold mbind, result_bind in Hr.
    destruct (metadata_step fm topic acc im) as [acc'|] eqn:Hstep; [|discriminate].
    fold (@mbind result _) in Hr. destruct (IH _ _ Hr) as (new & -> & Hnew).
    destruct (metadata_step_ok _ _ _ _ _ Hstep) as [->|[c ->]].
    + now exists new.
    + eexists (_ :: new). rewrite <- app_assoc. split; [reflexivity|].
      constructor; [split; reflexivity | exact Hnew].
Qed.

(** Every match of the metadata pass carries the fixed score and the tag
    [metadata]. *)
Lemma metadata_pass_hits (fm : FAISSManager Vec) (topic : string) (l : list Hit) :
  metadata_pass fm topic = Ok l ->
  Forall (fun h => hit_similarity h = 95 # 100
                   /\ hit_match_type h = Some "metadata") l.
Proof.
  intros Hl. apply metadata_loop_ok in Hl as (new & -> & Hnew). exact Hnew.
Qed.

Lemma py_set_mem_fresh (fid : string) :
  py_set_mem (VStr fid) ∅ = Ok false.
Proof. unfold py_set_mem. now rewrite bool_decide_eq_false_2 by set_solver. Qed.

Lemma py_set_mem_seen (fid : string) :
  py_set_mem (VStr fid) ({[ VStr fid ]} ∪ ∅) = Ok true.
Proof. unfold py_set_mem. now rewrite bool_decide_eq_true_2 by set_solver. Qed.

Lemma py_slice_to_single {A} (x : A) (top_k : Z) :
  1 <= top_k -> py_slice_to [x] top_k = [x].
Proof.
  intros Hk. unfold py_slice_to, py_slice, clamp_bound. change (len [x]) with 1.
  destruct (Z.ltb_spec top_k 0); [lia|]. rewrite Z.min_r by lia. reflexivity.
Qed.

(** The deduplication loop on two matches with the same string id keeps
    the first. *)
Lemma dedup_same_id (a b : Hit) (fid : string) :
  match_id a = VStr fid -> match_id b = VStr fid ->
  for_fold_r [a; b] dedup_step (∅, []) = Ok ({[ VStr fid ]} ∪ ∅, [a]).
Proof.
  intros Ha Hb. cbn [for_fold_r]. unfold dedup_step. cbv beta iota zeta.
  rewrite Ha, Hb, py_set_mem_fresh. cbn [mbind result_bind].
  rewrite py_set_mem_seen. reflexivity.
Qed.

(** C2 (as the code has it): when the metadata pass and the semantic pass
    each return one match and the two share a file-level id, the result
    of [search_by_topic] for [top_k >= 1] has exactly one entry: the
    first of the two in the stable descending sort.  That is the metadata
    match, tagged [metadata] with similarity 0.95, when the content
    match's similarity is at most 0.95, and the content match when it is
    above 0.95. *)
Theorem search_by_topic_dedup (fm : FAISSManager Vec) (topic : string) (top_k : Z)
    (m c : Hit) (fid : string) :
  metadata_pass fm topic = Ok [m] ->
  search fm topic top_k (6 # 10) = Ok [c] ->
  match_id m = VStr fid ->
  match_id c = VStr fid ->
  1 <= top_k ->
  hit_match_type m = Some "metadata"
  /\ hit_similarity m = 95 # 100
  /\ (Qle (hit_similarity c) (95 # 100) ->
      search_by_topic fm topic top_k = Ok (mkTopicResult [m] 1 true))
  /\ (Qlt (95 # 100) (hit_similarity c) ->
      search_by_topic fm topic top_k = Ok (mkTopicResult [tag_content c] 1 true)).
Proof.
  intros Hm Hc Hidm Hidc Hk.
  pose proof (metadata_pass_hits _ _ _ Hm) as Hmh.
  inversion Hmh as [|? ? [Hsim Htype] _]; subst.
  split; [exact Htype|]. split; [exact Hsim|].
  assert (Hidc' : match_id (tag_content c) = VStr fid) by exact Hidc.
  unfold search_by_topic, try_except, search_by_topic_body.
  rewrite Hm, Hc. cbn [mbind result_bind map app].
  unfold sorted_desc. cbn [fold_right insert_desc].
  change (hit_similarity (tag_content c)) with (hit_similarity c). rewrite Hsim.
  split; intros Hcmp.
  - apply Qle_bool_iff in Hcmp. rewrite Hcmp.
    rewrite (dedup_same_id _ _ fid Hidm Hidc'). cbn [mbind result_bind].
    now rewrite py_slice_to_single.
  - assert (Hb : Qle_bool (hit_similarity c) (95 # 100) = false).
    { destruct (Qle_bool (hit_similarity c) (95 # 100)) eqn:E; [|reflexivity].
      apply Qle_bool_iff in E. exfalso. exact (Qlt_not_le _ _ Hcmp E). }
    rewrite Hb. rewrite (dedup_same_id _ _ fid Hidc' Hidm). cbn [mbind result_bind].
    now rewrite py_slice_to_single.
Qed.

End Topic.

(** ** Hybrid search: deduplication in general *)

Section Dedup.
Context `{Engine}.

Lemma dedup_step_run (seen : gset pyval) (acc : list Hit) (m : Hit)
    (r : gset pyval * list Hit) :
  dedup_step (seen, acc) m = Ok r ->
  r = if bool_decide (match_id m ∈ seen) then (seen, acc)
      else ({[ match_id m ]} ∪ seen, acc ++ [m]).
Proof.
  unfold dedup_step. cbv beta iota zeta. unfold py_set_mem.
  destruct (match_id m) as [sid|z|lst]; cbn [mbind result_bind]; [| |discriminate].
  - destruct (bool_decide (VStr sid ∈ seen)); now intros [= <-].
  - destruct (bool_decide (VInt z ∈ seen)); now intros [= <-].
Qed.

Lemma dedup_loop_run (l : list Hit) :
  forall seen acc r,
    for_fold_r l dedup_step (seen, acc) = Ok r ->
    snd r = acc ++ first_occurrences seen l.
Proof.
  induction l as [|m l IH]; intros seen acc r Hr.
  - injection Hr as <-. cbn. now rewrite app_nil_r.
  - cbn [for_fold_r] in Hr. unfold mbind, result_bind in Hr.
    destruct (dedup_step (seen, acc) m) as [r1|] eqn:Hstep; [|discriminate].
    apply dedup_step_run in Hstep. cbn [first_occurrences].
    destruct (bool_decide (match_id m ∈ seen)); subst r1.
    + now apply IH.
    + rewrite (IH _ _ _ Hr), <- app_assoc. reflexivity.
Qed.

Lemma first_occurrences_In (l : list Hit) :
  forall seen e, In e (first_occurrences seen l) -> In e l /\ match_id e ∉ seen.
Proof.
  induction l as [|m l IH]; intros seen e He; [destruct He|].
  cbn [first_occurrences] in He.
  destruct (bool_decide (match_id m ∈ seen)) eqn:Hseen.
  - destruct (IH _ _ He) as [Hin Hns]. split; [now right | exact Hns].
  - apply bool_decide_eq_false in Hseen. destruct He as [<-|He].
    + split; [now left | exact Hseen].
    + destruct (IH _ _ He) as [Hin Hns]. split; [now right|].
      intros Hc. apply Hns, elem_of_union. now right.
Qed.

(** No id occurs twice among the matches that are kept. *)
Lemma first_occurrences_NoDup (l : list Hit) :
  forall seen, List.NoDup (map match_id (first_occurrences seen l)).
Proof.
  induction l as [|m l IH]; intros seen; [constructor|].
  cbn [first_occurrences]. destruct (bool_decide (match_id m ∈ seen)); [apply IH|].
  cbn [map]. constructor; [|apply IH].
  intros Hin. apply in_map_iff in Hin as (e & He & Hin).
  apply first_occurrences_In in Hin as [_ Hns]. set_solver.
Qed.

(** The first match that carries an id is kept. *)
Lemma first_occurrences_first (pre : list Hit) :
  forall seen m post,
    match_id m ∉ seen ->
    (forall p, In p pre -> match_id p <> match_id m) ->
    In m (first_occurrences seen (pre ++ m :: post)).
Proof.
  induction pre as [|p pre IH]; intros seen m post Hns Hpre; cbn [app first_occurrences].
  - rewrite bool_decide_eq_false_2 by exact Hns. now left.
  - destruct (bool_decide (match_id p ∈ seen)).
    + apply IH; [exact Hns | intros q Hq; apply Hpre; now right].
    + right. apply IH; [|intros q Hq; apply Hpre; now right].
      assert (Hne : match_id p <> match_id m) by (apply Hpre; now left).
      intros [Hc|Hc]%elem_of_union; [|exact (Hns Hc)].
      apply elem_of_singleton in Hc. congruence.
Qed.

Lemma insert_desc_In (x e : Hit) (l : list Hit) :
  In e (insert_desc x l) -> e = x \/ In e l.
Proof.
  induction l as [|y l IH]; cbn.
  - intros [<-|[]]. now left.
  - destruct (Qle_bool (hit_similarity y) (hit_similarity x)).
    + intros [<-|Hin]; [now left | now right].
    + intros [<-|Hin]; [right; now left|].
      destruct (IH Hin) as [->|Hl]; [now left | right; now right].
Qed.

Lemma sorted_desc_In (e : Hit) (l : list Hit) : In e (sorted_desc l) -> In e l.
Proof.
  induction l as [|x l IH]; [easy|]. unfold sorted_desc. cbn [fold_right].
  intros Hin. apply insert_desc_In in Hin as [->|Hin]; [now left | right; now apply IH].
Qed.

(** [insert_desc] walks past the matches that score higher and stops at the
    first one that does not. *)
Lemma insert_desc_after (x : Hit) (hi lo : list Hit) :
  Forall (fun y => Qlt (hit_similarity x) (hit_similarity y)) hi ->
  match lo with
  | [] => True
  | y :: _ => Qle (hit_similarity y) (hit_similarity x)
  end ->
  insert_desc x (hi ++ lo) = hi ++ x :: lo.
Proof.
  intros Hhi Hlo. induction Hhi as [|y hi Hy _ IH]; cbn [app insert_desc].
  - destruct lo as [|y lo]; [reflexivity|]. cbn [insert_desc].
    apply Qle_bool_iff in Hlo. now rewrite Hlo.
  - destruct (Qle_bool (hit_similarity y) (hit_similarity x)) eqn:E.
    + apply Qle_bool_iff in E. exfalso. exact (Qlt_not_le _ _ Hy E).
    + now rewrite IH.
Qed.

Lemma split_high (key : Q) (l : list Hit) :
  exists hi lo,
    l = hi ++ lo
    /\ Forall (fun y => Qlt key (hit_similarity y)) hi
    /\ match lo with
       | [] => True
       | y :: _ => Qle (hit_similarity y) key
       end.
Proof.
  induction l as [|y l (hi & lo & -> & Hhi & Hlo)].
  - exists [], []. repeat split; constructor.
  - destruct (Qlt_le_dec key (hit_similarity y)) as [Hlt|Hle].
    + exists (y :: hi), lo. repeat split; [now constructor | exact Hlo].
    + exists [], (y :: hi ++ lo). repeat split; [constructor | exact Hle].
Qed.

(** Sorting puts the metadata matches, in their order, behind the content
    matches that score above 0.95 and before all others. *)
Lemma sorted_desc_metadata_block (mm l : list Hit) :
  Forall (fun h => hit_similarity h = 95 # 100 /\ hit_match_type h = Some "metadata") mm ->
  exists hi lo,
    sorted_desc l = hi ++ lo
    /\ sorted_desc (mm ++ l) = hi ++ mm ++ lo
    /\ Forall (fun y => Qlt (95 # 100) (hit_similarity y)) hi.
Proof.
  intros Hmm. destruct (split_high (95 # 100) (sorted_desc l)) as (hi & lo & Hl & Hhi & Hlo).
  exists hi, lo. split; [exact Hl|]. split; [|exact Hhi].
  induction Hmm as [|m mm [Hsim _] Hrest IH]; [exact Hl|].
  change (sorted_desc ((m :: mm) ++ l)) with (insert_desc m (sorted_desc (mm ++ l))).
  rewrite IH. apply (insert_desc_after m hi (mm ++ lo)).
  - rewrite Hsim. exact Hhi.
  - rewrite Hsim. destruct Hrest as [|m' mm' [Hsim' _] _]; [exact Hlo|].
    cbn. rewrite Hsim'. apply Qle_refl.
Qed.

Lemma first_with_id (x : pyval) (l : list Hit) (m : Hit) :
  In m l -> match_id m = x ->
  exists pre m1 post,
    l = pre ++ m1 :: post /\ In m1 l /\ match_id m1 = x
    /\ forall p, In p pre -> match_id p <> x.
Proof.
  induction l as [|y l IH]; [easy|]. intros Hin Hid.
  destruct (decide (match_id y = x)) as [Hy|Hy].
  - exists [], y, l. repeat split; [now left | exact Hy | intros ? []].
  - destruct Hin as [->|Hin]; [congruence|].
    destruct (IH Hin Hid) as (pre & m1 & post & -> & Hm1 & Hid1 & Hpre).
    exists (y :: pre), m1, post. repeat split; [now right | exact Hid1|].
    intros p [<-|Hp]; [exact Hy | now apply Hpre].
Qed.

(** X18: whatever else the two passes find: when [search_by_topic] succeeds, no
    id occurs twice among the deduplicated matches, [matches] are their
    first [top_k] and [total_found] their number; and an id that a metadata
    match carries, and that no content match scoring above 0.95 carries, is
    represented by a metadata match with similarity 0.95. *)
Lemma search_by_topic_first_occurrence_wins (fm : FAISSManager Vec) (topic : string)
    (top_k : Z) (mm cm : list Hit) (r : TopicResult) :
  metadata_pass fm topic = Ok mm ->
  search fm topic top_k (6 # 10) = Ok cm ->
  search_by_topic_body fm topic top_k = Ok r ->
  exists unique_matches,
    matches r = py_slice_to unique_matches top_k
    /\ total_found r = len unique_matches
    /\ List.NoDup (map match_id unique_matches)
    /\ forall m,
         In m mm ->
         (forall c, In c cm -> match_id c = match_id m ->
                    Qle (hit_similarity c) (95 # 100)) ->
         exists e,
           In e unique_matches /\ match_id e = match_id m
           /\ hit_match_type e = Some "metadata"
           /\ hit_similarity e = 95 # 100.
Proof.
  intros Hmm Hcm Hbody. unfold search_by_topic_body in Hbody.
  rewrite Hmm, Hcm in Hbody. cbn [mbind result_bind] in Hbody.
  destruct (for_fold_r (sorted_desc (mm ++ map tag_content cm)) dedup_step (∅, []))
    as [[seen unique_matches]|e] eqn:Hloop; [|discriminate].
  cbn in Hbody. injection Hbody as <-.
  apply dedup_loop_run in Hloop. cbn in Hloop. subst unique_matches.
  eexists. split; [reflexivity|]. split; [reflexivity|].
  split; [apply first_occurrences_NoDup|].
  intros m Hm Hlow.
  pose proof (metadata_pass_hits _ _ _ Hmm) as Hmeta.
  destruct (sorted_desc_metadata_block mm (map tag_content cm) Hmeta)
    as (hi & lo & Hcs & Hs & Hhi).
  destruct (first_with_id (match_id m) mm m Hm eq_refl)
    as (pre & m1 & post & Hsplit & Hm1 & Hid1 & Hpre).
  exists m1.
  destruct (proj1 (List.Forall_forall _ _) Hmeta m1 Hm1) as [Hsim Htype].
  split; [|auto].
  rewrite Hs, Hsplit. rewrite <- app_assoc. cbn [app]. rewrite app_assoc.
  apply first_occurrences_first; [set_solver|].
  intros p Hp. rewrite Hid1. apply in_app_iff in Hp as [Hp|Hp]; [|now apply Hpre].
  intros Hidp.
  assert (Hin : In p (map tag_content cm)).
  { apply sorted_desc_In. rewrite Hcs. apply in_app_iff. now left. }
  apply in_map_iff in Hin as (c & <- & Hc).
  pose proof (proj1 (List.Forall_forall _ _) Hhi _ Hp) as Hgt.
  exact (Qlt_not_le _ _ Hgt (Hlow c Hc Hidp)).
Qed.

Lemma insert_desc_has (x e : Hit) (l : list Hit) :
  e = x \/ In e l -> In e (insert_desc x l).
Proof.
  induction l as [|y l IH]; cbn [insert_desc].
  - intros [->|[]]. now left.
  - destruct (Qle_bool (hit_similarity y) (hit_similarity x)).
    + intros [->|Hin]; [now left | now right].
    + intros [->|[->|Hin]]; [right; apply IH; now left | now left |].
      right. apply IH. now right.
Qed.

Lemma sorted_desc_has (e : Hit) (l : list Hit) : In e l -> In e (sorted_desc l).
Proof.
  induction l as [|x l IH]; [easy|]. unfold sorted_desc. cbn [fold_right].
  intros [->|Hin]; apply insert_desc_has; [now left | right; now apply IH].
Qed.

(** A sort by similarity leaves matches of one similarity as they are. *)
Lemma sorted_desc_metadata_only (mm : list Hit) :
  Forall (fun h => hit_similarity h = 95 # 100 /\ hit_match_type h = Some "metadata") mm ->
  sorted_desc mm = mm.
Proof.
  intros Hmm. destruct (sorted_desc_metadata_block mm [] Hmm) as (hi & lo & Hnil & Hs & _).
  change (sorted_desc []) with (@nil Hit) in Hnil. symmetry in Hnil.
  apply app_eq_nil in Hnil as [-> ->]. rewrite !app_nil_r in Hs. exact Hs.
Qed.

Lemma dedup_step_total (seen : gset pyval) (acc : list Hit) (m : Hit) :
  dedup_step (seen, acc) m
  = if is_list (match_id m) then Raise TypeError
    else Ok (if bool_decide (match_id m ∈ seen) then (seen, acc)
             else ({[ match_id m ]} ∪ seen, acc ++ [m])).
Proof.
  unfold dedup_step. cbv beta iota zeta. unfold py_set_mem.
  destruct (match_id m) as [sid|z|lst]; cbn [is_list mbind result_bind];
    [| |reflexivity];
    match goal with |- context [bool_decide ?P] => destruct (bool_decide P) end;
    reflexivity.
Qed.

(** The deduplication loop on matches whose ids can be hashed. *)
Lemma dedup_loop_ok (l : list Hit) :
  Forall (fun m => is_list (match_id m) = false) l ->
  forall seen acc,
    exists seen',
      for_fold_r l dedup_step (seen, acc) = Ok (seen', acc ++ first_occurrences seen l).
Proof.
  induction 1 as [|m l Hm _ IH]; intros seen acc.
  - exists seen. cbn. now rewrite app_nil_r.
  - cbn [for_fold_r first_occurrences]. rewrite dedup_step_total, Hm.
    cbn [mbind result_bind]. destruct (bool_decide (match_id m ∈ seen)).
    + apply IH.
    + destruct (IH ({[ match_id m ]} ∪ seen) (acc ++ [m])) as (seen' & ->).
      exists seen'. now rewrite <- app_assoc.
Qed.

(** An id that is a list stops the loop: a list cannot go into a set. *)
Lemma dedup_loop_raises (l : list Hit) :
  Exists (fun m => is_list (match_id m) = true) l ->
  forall seen acc, for_fold_r l dedup_step (seen, acc) = Raise TypeError.
Proof.
  induction l as [|m l IH]; intros Hex seen acc; [inversion Hex|].
  cbn [for_fold_r]. rewrite dedup_step_total.
  destruct (is_list (match_id m)) eqn:Hid; [reflexivity|]. cbn [mbind result_bind].
  assert (Hrest : Exists (fun m => is_list (match_id m) = true) l)
    by (inversion Hex as [? ? Hm|? ? Hr]; subst; [congruence | exact Hr]).
  destruct (bool_decide (match_id m ∈ seen)); now apply IH.
Qed.

(** C10 (as the code has it): [search_by_topic] returns a result
    dictionary for every manager, topic and [top_k], and [search] does not
    raise either.  The result is the empty one whenever the body of
    [search_by_topic] raises, which it does when the metadata pass raises
    and when the id of a match is a list.  A failure inside the semantic
    pass never reaches that handler: [search] catches it and returns no
    content match, and the result is then built from the metadata matches
    alone, the first match of every id, cut to [top_k], with
    [total_found] their number and [has_exact_match] set when there is
    one; it is not the empty result unless the metadata pass found
    nothing. *)
Theorem search_by_topic_never_raises (fm : FAISSManager Vec) (topic : string) (top_k : Z) :
  exists r,
    search_by_topic fm topic top_k = Ok r
    /\ (forall e, search_by_topic_body fm topic top_k = Raise e -> r = empty_result)
    /\ (forall e, metadata_pass fm topic = Raise e -> r = empty_result)
    /\ (forall mm cm,
          metadata_pass fm topic = Ok mm ->
          search fm topic top_k (6 # 10) = Ok cm ->
          Exists (fun m => is_list (match_id m) = true) (mm ++ cm) ->
          r = empty_result)
    /\ (forall mm e,
          metadata_pass fm topic = Ok mm ->
          search_body fm topic top_k (6 # 10) = Raise e ->
          Forall (fun m => is_list (match_id m) = false) mm ->
          r = mkTopicResult (py_slice_to (first_occurrences ∅ mm) top_k)
                            (len (first_occurrences ∅ mm))
                            (0 <? len mm))
    /\ (forall query k thr, exists hits, search fm query k thr = Ok hits).
Proof.
  assert (Hbody : forall r0, search_by_topic_body fm topic top_k = r0 ->
            (forall e, metadata_pass fm topic = Raise e -> exists e', r0 = Raise e')
            /\ (forall mm cm,
                  metadata_pass fm topic = Ok mm ->
                  search fm topic top_k (6 # 10) = Ok cm ->
                  Exists (fun m => is_list (match_id m) = true) (mm ++ cm) ->
                  exists e', r0 = Raise e')
            /\ (forall mm e,
                  metadata_pass fm topic = Ok mm ->
                  search_body fm topic top_k (6 # 10) = Raise e ->
                  Forall (fun m => is_list (match_id m) = false) mm ->
                  r0 = Ok (mkTopicResult (py_slice_to (first_occurrences ∅ mm) top_k)
                                         (len (first_occurrences ∅ mm))
                                         (0 <? len mm)))).
  { intros r0 <-. unfold search_by_topic_body. split; [|split].
    - intros e ->. now exists e.
    - intros mm cm -> -> Hex. cbn [mbind result_bind]. cbv zeta.
      rewrite dedup_loop_raises; [now exists TypeError|].
      apply List.Exists_exists in Hex as (m & Hin & Hm). apply List.Exists_exists.
      apply in_app_iff in Hin as [Hin|Hin].
      + exists m. split; [|exact Hm]. apply sorted_desc_has, in_app_iff. now left.
      + exists (tag_content m). split; [|exact Hm].
        apply sorted_desc_has, in_app_iff. right. now apply in_map.
    - intros mm e Hmm Hfail Hids. rewrite Hmm. cbn [mbind result_bind].
      unfold search, try_except. rewrite Hfail. cbn [mbind result_bind map]. cbv zeta.
      rewrite app_nil_r, (sorted_desc_metadata_only mm (metadata_pass_hits _ _ _ Hmm)).
      destruct (dedup_loop_ok mm Hids ∅ []) as (seen' & ->). reflexivity. }
  unfold search_by_topic, try_except.
  destruct (search_by_topic_body fm topic top_k) as [r|e] eqn:Hrun;
    destruct (Hbody _ eq_refl) as (Hmeta & Hlist & Hsem).
  - exists r. split; [reflexivity|]. split; [discriminate|].
    split; [intros e He; now destruct (Hmeta e He)|].
    split; [intros mm cm Hmm Hcm Hex; now destruct (Hlist mm cm Hmm Hcm Hex)|].
    split; [|intros; apply search_never_raises].
    intros mm e Hmm Hfail Hids. specialize (Hsem mm e Hmm Hfail Hids). congruence.
  - exists empty_result. split; [reflexivity|]. split; [reflexivity|].
    split; [reflexivity|]. split; [reflexivity|].
    split; [|intros; apply search_never_raises].
    intros mm e' Hmm Hfail Hids. specialize (Hsem mm e' Hmm Hfail Hids). discriminate.
Qed.

End Dedup.

(** ** Ingestion: one file *)

Section Process_file.
Context `{Engine} `{Files}.

Lemma find_documents_from (parts : list string) (i : Z) :
  find_documents parts i = -1 \/ i <= find_documents parts i.
Proof.
  revert i. induction parts as [|part parts IH]; intros i; cbn; [now left|].
  destruct (String.eqb part "documents"); [right; lia|].
  destruct (IH (i + 1)) as [->|Hle]; [now left | right; lia].
Qed.

Lemma extract_metadata_never_raises (file_path : string) :
  exists metadata, extract_metadata_from_path file_path = Ok metadata.
Proof.
  unfold extract_metadata_from_path.
  destruct (find_documents_from (path_parts file_path) 0) as [Hf|Hf].
  - rewrite Hf. cbn. eauto.
  - destruct (Z.eqb_spec (find_documents (path_parts file_path) 0) (-1)); [eauto|].
    set (idx := find_documents (path_parts file_path) 0) in *.
    set (parts := path_parts file_path).
    destruct (Z.ltb_spec (idx + 1) (len parts)) as [H1|H1].
    + destruct (py_index_inside parts (idx + 1)) as [x Hx]; [lia|].
      rewrite Hx. cbn [mbind result_bind].
      destruct (Z.ltb_spec (idx + 2) (len parts)) as [H2|H2]; [|cbn; eauto].
      destruct (py_index_inside parts (idx + 2)) as [y Hy]; [lia|].
      rewrite Hy. cbn. eauto.
    + cbn [mbind result_bind].
      destruct (Z.ltb_spec (idx + 2) (len parts)) as [H2|H2]; [lia|]. cbn. eauto.
Qed.

Lemma for_each_add_documents {A} (l : list A) (g : A -> string * Meta)
    (body : A -> M ST unit) :
  (forall x s, body x s = add_document (fst (g x)) (snd (g x)) s) ->
  forall s, for_each l body s
            = (Ok tt, set_fm (fun fm => fold_left add_one (map g l) fm) s).
Proof.
  intros Hbody. induction l as [|x l IH]; intros s.
  - cbn. now rewrite set_fm_same.
  - cbn [for_each map fold_left]. unfold mbind at 1, M_bind at 1.
    rewrite Hbody, add_document_run, IH, set_fm_set_fm.
    destruct (g x). reflexivity.
Qed.

(** What [process_file] does once text has been extracted. *)
Lemma process_text_run (file_path text : string) (s : ST) :
  is_empty text = false ->
  exists metadata,
    extract_metadata_from_path file_path = Ok metadata
    /\ process_text file_path text s
       = (Ok true,
          set_processed_files
            (fun reg => <[file_path := get_file_hash file_path]> reg)
            (set_fm (fun fm =>
                       fold_left add_one
                         (chunk_entries metadata
                            (map (window (py_split text) 500)
                                 (window_starts (len (py_split text)) (500 - 50))))
                         fm) s)).
Proof.
  intros Hne. destruct (extract_metadata_never_raises file_path) as [metadata Hmeta].
  exists metadata. split; [exact Hmeta|].
  unfold process_text. rewrite Hne, Hmeta.
  rewrite (chunk_text_windows text 500 50) by lia.
  unfold mbind, M_bind, lift, mret, M_ret, modify.
  set (chunks := map (window (py_split text) 500) _).
  rewrite (for_each_add_documents (enumerate chunks)
             (fun ic => (snd ic,
                         <["total_chunks" := VInt (len chunks)]>
                           (<["chunk_id" := VInt (fst ic)]> metadata)))).
  - reflexivity.
  - intros [i chunk] s0. reflexivity.
Qed.

Lemma process_file_unwrapped (file_path : string) (s : ST) :
  process_file file_path s
  = match extracted_text file_path with
    | Some text => process_text file_path text s
    | None => (Ok false, s)
    end.
Proof.
  unfold process_file, try_except_M, extracted_text.
  destruct (endswith (lower file_path) ".pdf").
  - destruct (is_empty (extract_text_from_pdf file_path)) eqn:E.
    + unfold process_text. now rewrite E.
    + destruct (process_text_run file_path _ s E) as (m & _ & ->). reflexivity.
  - destruct (endswith (lower file_path) ".docx"); [|reflexivity].
    destruct (is_empty (extract_text_from_docx file_path)) eqn:E.
    + unfold process_text. now rewrite E.
    + destruct (process_text_run file_path _ s E) as (m & _ & ->). reflexivity.
Qed.

(** A file of an unsupported type or without text: [False], nothing
    changes. *)
Lemma process_file_false (file_path : string) (s : ST) :
  extractable file_path = false -> process_file file_path s = (Ok false, s).
Proof.
  intros Hx. rewrite process_file_unwrapped. unfold extractable in Hx.
  destruct (extracted_text file_path) as [text|]; [|reflexivity].
  apply negb_false_iff in Hx. unfold process_text. now rewrite Hx.
Qed.

(** A file with text: [True], every chunk went through [add_document]
    and the registry holds the file's fingerprint. *)
Lemma process_file_true (file_path : string) (s : ST) :
  extractable file_path = true ->
  exists text metadata,
    extracted_text file_path = Some text
    /\ extract_metadata_from_path file_path = Ok metadata
    /\ process_file file_path s
       = (Ok true,
          set_processed_files
            (fun reg => <[file_path := get_file_hash file_path]> reg)
            (set_fm (fun fm =>
                       fold_left add_one
                         (chunk_entries metadata
                            (map (window (py_split text) 500)
                                 (window_starts (len (py_split text)) (500 - 50))))
                         fm) s)).
Proof.
  intros Hx. rewrite process_file_unwrapped. unfold extractable in Hx.
  destruct (extracted_text file_path) as [text|]; [|discriminate].
  apply negb_true_iff in Hx.
  destruct (process_text_run file_path text s Hx) as (m & Hm & Hrun).
  exists text, m. auto.
Qed.

End Process_file.

(** ** Ingestion: scanning *)

Section Scan.
Context `{Engine} `{Files}.

Lemma needs_processing_iff (reg : pydict) (file_path file_hash : string) :
  needs_processing reg file_path file_hash = true
  <-> reg !! file_path = None
      \/ exists h, reg !! file_path = Some h /\ h <> file_hash.
Proof.
  unfold needs_processing. destruct (reg !! file_path) as [h|].
  - rewrite negb_true_iff. split.
    + intros Hne. right. exists h. split; [reflexivity|].
      intros ->. now rewrite String.eqb_refl in Hne.
    + intros [|[h' [[= <-] Hne]]]; [discriminate|].
      now apply String.eqb_neq.
  - split; [now left | reflexivity].
Qed.

Lemma settled_insert (reg : pydict) (p q : string) :
  settled reg q -> settled (<[p := get_file_hash p]> reg) q.
Proof.
  intros [Hx|Hq]; [now left|]. right.
  destruct (decide (p = q)) as [->|Hne].
  - apply pydict_lookup_insert_eq.
  - now rewrite pydict_lookup_insert_ne.
Qed.

(** One file of the walk: the scan goes on, the folder and the disk are
    as before, settled files stay settled, and the file itself is settled
    afterwards. *)
Lemma scan_file_run (root : string) (c : Z) (file : string) (s : ST) :
  exists c' s',
    scan_file root c file s = (Ok c', s')
    /\ documents_folder s' = documents_folder s
    /\ disk s' = disk s
    /\ (forall q, settled (processed_files s) q -> settled (processed_files s') q)
    /\ (supported file = true -> settled (processed_files s') (path_join root file)).
Proof.
  unfold scan_file. fold (supported file).
  destruct (supported file); [|exists c, s; repeat split; auto; discriminate].
  unfold mbind, M_bind, get.
  set (p := path_join root file).
  destruct (needs_processing (processed_files s) p (get_file_hash p)) eqn:Hneed.
  - destruct (extractable p) eqn:Hx.
    + destruct (process_file_true p s Hx) as (text & meta & _ & _ & ->).
      eexists _, _. split; [reflexivity|]. cbn. repeat split.
      * intros q Hq. now apply settled_insert.
      * intros _. right. apply pydict_lookup_insert_eq.
    + rewrite (process_file_false p s Hx). exists c, s. repeat split; auto.
      intros _. now left.
  - exists c, s. repeat split; auto. intros _. right.
    unfold needs_processing in Hneed.
    destruct (processed_files s !! p) as [h|]; [|discriminate].
    apply negb_false_iff, String.eqb_eq in Hneed. now subst h.
Qed.

(** A settled file is passed over: same count, same store. *)
Lemma scan_file_settled (root : string) (c : Z) (file : string) (s : ST) :
  (supported file = true -> settled (processed_files s) (path_join root file)) ->
  scan_file root c file s = (Ok c, s).
Proof.
  intros Hset. unfold scan_file. fold (supported file).
  destruct (supported file); [|reflexivity].
  unfold mbind, M_bind, get.
  set (p := path_join root file) in *.
  destruct (needs_processing (processed_files s) p (get_file_hash p)) eqn:Hneed;
    [|reflexivity].
  destruct (Hset eq_refl) as [Hx|Hreg].
  - now rewrite (process_file_false p s Hx).
  - unfold needs_processing in Hneed. rewrite Hreg, String.eqb_refl in Hneed.
    discriminate.
Qed.

(** The scan hands a supported file to [process_file] exactly when
    [needs_processing] holds for it. *)
Lemma scan_file_decides (root : string) (c : Z) (file : string) (s : ST) :
  supported file = true ->
  scan_file root c file s
  = if needs_processing (processed_files s) (path_join root file)
                        (get_file_hash (path_join root file))
    then match process_file (path_join root file) s with
         | (Ok true, s') => (Ok (c + 1), s')
         | (Ok false, s') => (Ok c, s')
         | (Raise e, s') => (Raise e, s')
         end
    else (Ok c, s).
Proof.
  intros Hsup. unfold scan_file. fold (supported file). rewrite Hsup.
  unfold mbind, M_bind, get.
  destruct (needs_processing _ _ _); [|reflexivity].
  destruct (process_file (path_join root file) s) as [[[|]|e] s']; reflexivity.
Qed.

Lemma files_loop_run (root : string) (files : list string) :
  forall c s, exists c' s',
    for_fold files (scan_file root) c s = (Ok c', s')
    /\ documents_folder s' = documents_folder s
    /\ disk s' = disk s
    /\ (forall q, settled (processed_files s) q -> settled (processed_files s') q)
    /\ (forall file, In file files -> supported file = true ->
        settled (processed_files s') (path_join root file)).
Proof.
  induction files as [|file files IH]; intros c s.
  - exists c, s. repeat split; auto. intros ? [].
  - destruct (scan_file_run root c file s) as (c1 & s1 & Hrun & Hf1 & Hd1 & Hk1 & Hn1).
    destruct (IH c1 s1) as (c2 & s2 & Hloop & Hf2 & Hd2 & Hk2 & Hn2).
    exists c2, s2. cbn [for_fold]. unfold mbind at 1, M_bind at 1. rewrite Hrun.
    split; [exact Hloop|]. repeat split; try congruence.
    + intros q Hq. auto.
    + intros f [<-|Hin] Hsup; auto.
Qed.

Lemma files_loop_settled (root : string) (files : list string) (c : Z) (s : ST) :
  (forall file, In file files -> supported file = true ->
   settled (processed_files s) (path_join root file)) ->
  for_fold files (scan_file root) c s = (Ok c, s).
Proof.
  induction files as [|file files IH]; intros Hset; [reflexivity|].
  cbn [for_fold]. unfold mbind at 1, M_bind at 1.
  rewrite scan_file_settled by (intros; apply Hset; [now left | assumption]).
  apply IH. intros f Hin. apply Hset. now right.
Qed.

Lemma walk_loop_run (walk : list (string * list string)) :
  forall c s, exists c' s',
    for_fold walk walk_body c s = (Ok c', s')
    /\ documents_folder s' = documents_folder s
    /\ disk s' = disk s
    /\ (forall q, settled (processed_files s) q -> settled (processed_files s') q)
    /\ all_settled (processed_files s') walk.
Proof.
  induction walk as [|[root files] walk IH]; intros c s.
  - exists c, s. repeat split; auto. intros ? ? [].
  - destruct (files_loop_run root files c s) as (c1 & s1 & Hrun & Hf1 & Hd1 & Hk1 & Hn1).
    destruct (IH c1 s1) as (c2 & s2 & Hloop & Hf2 & Hd2 & Hk2 & Hn2).
    exists c2, s2. cbn [for_fold]. unfold mbind at 1, M_bind at 1.
    cbn [walk_body]. rewrite Hrun.
    split; [exact Hloop|]. repeat split; try congruence.
    + intros q Hq. auto.
    + intros r fs [[= <- <-]|Hin] file Hfile Hsup.
      * apply Hk2. now apply Hn1.
      * now apply (Hn2 r fs Hin).
Qed.

Lemma walk_loop_settled (walk : list (string * list string)) (c : Z) (s : ST) :
  all_settled (processed_files s) walk ->
  for_fold walk walk_body c s = (Ok c, s).
Proof.
  induction walk as [|[root files] walk IH]; intros Hset; [reflexivity|].
  cbn [for_fold]. unfold mbind at 1, M_bind at 1. cbn [walk_body].
  rewrite files_loop_settled by (intros; eapply Hset; [now left | eassumption..]).
  apply IH. intros r fs Hin. apply (Hset r fs). now right.
Qed.

Lemma scan_unfold (s : ST) :
  scan_and_process_documents s
  = match for_fold (os_walk (documents_folder s)) walk_body 0 s with
    | (Ok c, s') =>
        if 0 <? c then
          match (save_processed_files;; save_database) s' with
          | (Ok _, s'') => (Ok c, s'')
          | (Raise e, s'') => (Raise e, s'')
          end
        else (Ok c, s')
    | (Raise e, s') => (Raise e, s')
    end.
Proof.
  unfold scan_and_process_documents, mbind, M_bind, get, mret, M_ret.
  destruct (for_fold (os_walk (documents_folder s)) walk_body 0 s) as [[c|e] s'];
    [|reflexivity].
  destruct (0 <? c); reflexivity.
Qed.

Lemma saves_run (s : ST) :
  exists d, (save_processed_files;; save_database) s
            = (Ok tt, mkStore (documents_folder s) (faiss_manager s)
                              (processed_files s) d).
Proof.
  destruct s as [folder fm reg d]. eexists.
  unfold save_processed_files, save_database, try_except_M, mbind, M_bind, get, modify.
  cbn. reflexivity.
Qed.

(** C4: a scan always completes with a count, and a second scan of the
    same folder right after it returns 0 and leaves the store (index,
    registry and disk) as the first scan left it; the test that decides
    whether a file is processed holds exactly when the file is absent
    from the registry or registered with another fingerprint, and the scan
    hands a supported file to [process_file] exactly when that test
    holds. *)
Theorem scan_twice_processes_nothing (s : ST) :
  (exists count s1,
      scan_and_process_documents s = (Ok count, s1)
      /\ scan_and_process_documents s1 = (Ok 0, s1))
  /\ (forall reg file_path file_hash,
        needs_processing reg file_path file_hash = true
        <-> reg !! file_path = None
            \/ exists h, reg !! file_path = Some h /\ h <> file_hash)
  /\ (forall root c file s0,
        supported file = true ->
        scan_file root c file s0
        = if needs_processing (processed_files s0) (path_join root file)
                              (get_file_hash (path_join root file))
          then match process_file (path_join root file) s0 with
               | (Ok true, s') => (Ok (c + 1), s')
               | (Ok false, s') => (Ok c, s')
               | (Raise e, s') => (Raise e, s')
               end
          else (Ok c, s0)).
Proof.
  split; [|split; [apply needs_processing_iff | apply scan_file_decides]].
  destruct (walk_loop_run (os_walk (documents_folder s)) 0 s)
    as (c & s' & Hloop & Hfolder & _ & _ & Hall).
  assert (Hsecond : forall s1,
             documents_folder s1 = documents_folder s ->
             processed_files s1 = processed_files s' ->
             scan_and_process_documents s1 = (Ok 0, s1)).
  { intros s1 Hf Hr. rewrite scan_unfold, Hf.
    rewrite walk_loop_settled by (now rewrite Hr). reflexivity. }
  rewrite scan_unfold, Hloop. destruct (0 <? c).
  - destruct (saves_run s') as [d ->]. eexists _, _. split; [reflexivity|].
    apply Hsecond; [exact Hfolder | reflexivity].
  - exists c, s'. split; [reflexivity|]. now apply Hsecond.
Qed.

End Scan.

(** ** Ingestion: what [process_file] reports *)

Section Process_file_result.
Context `{Engine} `{Files}.

Lemma extract_text_from_pdf_stripped (file_path : string) :
  exists t, extract_text_from_pdf file_path = strip t.
Proof.
  unfold extract_text_from_pdf, try_except_M, mbind, M_bind, mret, M_ret.
  destruct (pdf_first_method file_path "") as [[[]|e] t1]; [now exists t1|].
  destruct (pdf_alternative_method file_path t1) as [[[]|e'] t2];
    [now exists t2 | now exists ""].
Qed.

Lemma extract_text_from_docx_stripped (file_path : string) :
  exists t, extract_text_from_docx file_path = strip t.
Proof.
  unfold extract_text_from_docx, try_except, mbind, result_bind.
  destruct (docx_paragraphs file_path) as [ps|e]; [eauto | now exists ""].
Qed.

Lemma extracted_text_words (file_path text : string) :
  extracted_text file_path = Some text -> is_empty text = false ->
  1 <= len (py_split text).
Proof.
  unfold extracted_text. intros Hx Hne.
  assert (Hs : exists t, text = strip t).
  { destruct (endswith (lower file_path) ".pdf").
    - injection Hx as <-. apply extract_text_from_pdf_stripped.
    - destruct (endswith (lower file_path) ".docx"); [|discriminate].
      injection Hx as <-. apply extract_text_from_docx_stripped. }
  destruct Hs as [t ->]. apply strip_shape, py_split_starts in Hne.
  unfold len. destruct (py_split (strip t)); [congruence | cbn; lia].
Qed.

Lemma window_starts_nonempty (n : Z) : 1 <= n -> window_starts n (500 - 50) <> [].
Proof.
  intros Hn. unfold window_starts, range_len. change (0 <? 500 - 50) with true.
  cbn match. destruct (Z.ltb_spec 0 n); [|lia].
  assert (1 <= (n - 0 + (500 - 50) - 1) / (500 - 50)).
  { apply Z.div_le_lower_bound; lia. }
  destruct (Z.to_nat ((n - 0 + (500 - 50) - 1) / (500 - 50))) eqn:E; [lia|].
  cbn. discriminate.
Qed.

Lemma add_one_dim (fm : FAISSManager Vec) (cm : string * Meta) :
  index_d (index (add_one fm cm)) = index_d (index fm).
Proof. unfold add_one. now destruct (accepted _ _). Qed.

(** A run of [add_document] calls appends exactly the stored entries. *)
Lemma fold_add_one_run (entries : list (string * Meta)) :
  forall fm,
    fold_left add_one entries fm
    = mkFAISSManager
        (mkIndex (index_d (index fm))
                 (index_xb (index fm) ++ stored_vectors (index_d (index fm)) entries))
        (metadata fm ++ map snd (stored (index_d (index fm)) entries))
        (documents fm ++ map fst (stored (index_d (index fm)) entries)).
Proof.
  induction entries as [|cm entries IH]; intros fm.
  - destruct fm as [[d xb] ms ds]. cbn. now rewrite !app_nil_r.
  - cbn [fold_left]. rewrite IH, add_one_dim.
    unfold add_one, stored, stored_vectors. cbn [List.filter omap list_omap].
    destruct (accepted (index_d (index fm)) (fst cm)) as [v|]; cbn.
    + now rewrite <- !app_assoc.
    + reflexivity.
Qed.

(** [process_file] never raises. *)
Lemma process_file_never_raises (file_path : string) (s : ST) :
  exists b s', process_file file_path s = (Ok b, s').
Proof.
  destruct (extractable file_path) eqn:Hx.
  - destruct (process_file_true file_path s Hx) as (text & meta & _ & _ & ->). eauto.
  - rewrite (process_file_false file_path s Hx). eauto.
Qed.

(** C8 (as the code has it): [process_file] returns [False] exactly when
    the type is unsupported or no text was extracted, and then the store
    is unchanged.  It returns [True] whenever text was extracted: the
    text gave at least one chunk, every chunk went through
    [add_document], the entries appended to the three sequences are those
    of the chunks that the encoder and the index accepted (there may be
    none), and the registry holds the file's fingerprint. *)
Theorem process_file_result (file_path : string) (s : ST) :
  exists b s',
    process_file file_path s = (Ok b, s')
    /\ (b = false <-> extractable file_path = false)
    /\ (b = false -> s' = s)
    /\ (b = true ->
        exists text skeleton,
          extracted_text file_path = Some text
          /\ extract_metadata_from_path file_path = Ok skeleton
          /\ let chunks := map (window (py_split text) 500)
                               (window_starts (len (py_split text)) (500 - 50)) in
             let entries := chunk_entries skeleton chunks in
             let d := index_d (index (faiss_manager s)) in
             chunk_text text 500 50 = Ok chunks
             /\ chunks <> []
             /\ index_xb (index (faiss_manager s'))
                = index_xb (index (faiss_manager s)) ++ stored_vectors d entries
             /\ metadata (faiss_manager s')
                = metadata (faiss_manager s) ++ map snd (stored d entries)
             /\ documents (faiss_manager s')
                = documents (faiss_manager s) ++ map fst (stored d entries)
             /\ processed_files s'
                = <[file_path := get_file_hash file_path]> (processed_files s)).
Proof.
  destruct (extractable file_path) eqn:Hx.
  - destruct (process_file_true file_path s Hx) as (text & meta & Ht & Hm & Hrun).
    eexists true, _. split; [exact Hrun|].
    split; [split; discriminate|]. split; [discriminate|]. intros _.
    exists text, meta. split; [exact Ht|]. split; [exact Hm|].
    assert (Hne : is_empty text = false).
    { unfold extractable in Hx. rewrite Ht in Hx. now apply negb_true_iff. }
    cbv zeta. split; [apply chunk_text_windows; lia|]. split.
    + pose proof (window_starts_nonempty _ (extracted_text_words _ _ Ht Hne)) as Hw.
      destruct (window_starts (len (py_split text)) (500 - 50)); [congruence|].
      cbn. discriminate.
    + cbn. rewrite fold_add_one_run. cbn. auto.
  - exists false, s. split; [now apply process_file_false|].
    split; [tauto|]. split; [reflexivity | discriminate].
Qed.

(** C5 (as the code has it): when the encoder fails, [add_document]
    catches the failure and returns normally with the store as it was,
    so nothing is added and nothing reaches the caller; [process_file]
    itself never raises. *)
Theorem embedding_failure_is_swallowed (content : string) (meta : Meta) (s : ST)
    (e : exn) :
  encode content = Raise e ->
  add_document content meta s = (Ok tt, s)
  /\ (forall file_path s0, exists b s1, process_file file_path s0 = (Ok b, s1)).
Proof.
  intros He. split; [now apply (add_document_encoder_failure _ _ _ e)|].
  apply process_file_never_raises.
Qed.

End Process_file_result.

(** ** Clearing *)

Section Clear.
Context `{Engine} `{Files}.

Lemma clear_database_run (s : ST) :
  clear_database s
  = (Ok tt,
     mkStore (documents_folder s)
             (mkFAISSManager (IndexFlatIP embedding_dim) [] [])
             (processed_files s)
             (mkDisk None None None (processed_files_txt (disk s)))).
Proof.
  destruct s as [folder fm reg [ix ms ds pf]].
  destruct ix, ms, ds; reflexivity.
Qed.

(** C9 (as the code has it): [FAISSManager.clear_database] replaces the
    index, the metadata and the documents by empty ones and removes the
    three files of the manager; the registry, in memory and on disk, is
    not touched.  The [clear_database] command of the upload tool then
    empties the registry and rewrites its file as an empty table, after
    which every file needs processing again. *)
Theorem clear_database_scope (s : ST) :
  clear_database s
  = (Ok tt,
     mkStore (documents_folder s)
             (mkFAISSManager (IndexFlatIP embedding_dim) [] [])
             (processed_files s)
             (mkDisk None None None (processed_files_txt (disk s))))
  /\ upload_clear_database s
     = (Ok tt,
        mkStore (documents_folder s)
                (mkFAISSManager (IndexFlatIP embedding_dim) [] [])
                ∅
                (mkDisk None None None (Some "")))
  /\ (forall file_path file_hash,
        needs_processing (processed_files (snd (upload_clear_database s)))
                         file_path file_hash = true).
Proof.
  assert (Hup : upload_clear_database s
                = (Ok tt,
                   mkStore (documents_folder s)
                           (mkFAISSManager (IndexFlatIP embedding_dim) [] [])
                           ∅
                           (mkDisk None None None (Some "")))).
  { unfold upload_clear_database, try_except_M, mbind, M_bind.
    rewrite clear_database_run. reflexivity. }
  split; [apply clear_database_run|]. split; [exact Hup|].
  intros file_path file_hash. rewrite Hup. reflexivity.
Qed.

End Clear.

(** ** The theorems at concrete inputs *)

(** What the first scan of the demo folder leaves in the store. *)
Example demo_store_contents :
  documents (faiss_manager demo_store) = ["recursion"]
  /\ metadata (faiss_manager demo_store) = [demo_meta]
  /\ processed_files demo_store = {[ demo_path := "9e107d9d372bb6826bd81d3542a419d6" ]}.
Proof. repeat split; vm_compute; reflexivity. Qed.

Lemma add_document_keeps_alignment_witness :
  aligned (faiss_manager (@new_store (demo_engine (7 # 10))))
  /\ exists s',
       @add_documents (demo_engine (7 # 10)) [("sorting", ∅); ("recursion", ∅)] new_store
       = (Ok tt, s')
       /\ aligned (faiss_manager s').
Proof.
  assert (Hal : aligned (faiss_manager (@new_store (demo_engine (7 # 10)))))
    by (split; reflexivity).
  split; [exact Hal|].
  exact (proj1 (@add_document_keeps_alignment (demo_engine (7 # 10))
                  [("sorting", ∅); ("recursion", ∅)] new_store Hal) 2%nat).
Defined.

Lemma embedding_failure_is_swallowed_witness :
  @add_document failing_engine "recursion" ∅ new_store = (Ok tt, new_store).
Proof.
  exact (proj1 (@embedding_failure_is_swallowed failing_engine demo_files
                  "recursion" ∅ new_store
                  (LibraryError "encoder unavailable") eq_refl)).
Defined.

(** C5, the claim as stated fails: the encoder fails, and neither
    [add_document] nor [process_file] raises; [process_file] even answers
    [True]. *)
Lemma embedding_failure_does_not_propagate :
  @encode failing_engine "recursion" = Raise (LibraryError "encoder unavailable")
  /\ (forall e, fst (@add_document failing_engine "recursion" ∅ new_store) <> Raise e)
  /\ fst (@process_file failing_engine demo_files demo_path new_store) = Ok true.
Proof.
  split; [reflexivity|]. split; [intros e; vm_compute; discriminate|].
  vm_compute. reflexivity.
Qed.

(** C8, the claim as stated fails: [process_file] answers [True] although
    no chunk was added. *)
Lemma process_file_true_without_entries :
  fst (@process_file failing_engine demo_files demo_path new_store) = Ok true
  /\ faiss_manager (snd (@process_file failing_engine demo_files demo_path new_store))
     = faiss_manager (@new_store failing_engine).
Proof. split; vm_compute; reflexivity. Qed.

Lemma search_by_topic_dedup_witness :
  @search_by_topic (demo_engine (7 # 10)) (faiss_manager demo_store) "Recursion" 3
  = Ok (mkTopicResult [demo_metadata_match] 1 true).
Proof.
  refine (proj1 (proj2 (proj2
            (@search_by_topic_dedup (demo_engine (7 # 10))
               (faiss_manager demo_store) "Recursion" 3
               demo_metadata_match (demo_content_match (7 # 10)) "9e107d9d"
               _ _ _ _ _))) _).
  - vm_compute. reflexivity.
  - vm_compute. reflexivity.
  - vm_compute. reflexivity.
  - vm_compute. reflexivity.
  - lia.
  - vm_compute. discriminate.
Defined.

(** C2, the claim as stated fails: for the topic [recursion] the metadata
    pass and the semantic pass each find the only chunk of the demo PDF,
    whose text is the topic itself, so the content match scores 1; the
    single entry of the result is the content match. *)
Lemma search_by_topic_keeps_content_match :
  @metadata_pass (demo_engine (7 # 10)) (faiss_manager demo_store) "recursion"
  = Ok [demo_metadata_match]
  /\ @search (demo_engine (7 # 10)) (faiss_manager demo_store) "recursion" 3 (6 # 10)
     = Ok [demo_content_match 1]
  /\ match_id demo_metadata_match = match_id (demo_content_match 1)
  /\ @search_by_topic (demo_engine (7 # 10)) (faiss_manager demo_store) "recursion" 3
     = Ok (mkTopicResult [mkHit "recursion" demo_meta 1 (Some "content")] 1 true).
Proof. repeat split; vm_compute; reflexivity. Qed.



(** The answer of the search above: the document equal to the query first,
    then the other one; the padding pair is dropped. *)
Example search_two_documents :
  @search (demo_engine (7 # 10)) two_documents_manager "recursion" 3 (6 # 10)
  = Ok [mkHit "recursion" ∅ 1 None; mkHit "sorting" ∅ (7 # 10) None].
Proof. vm_compute. reflexivity. Qed.

Lemma search_by_topic_never_raises_witness :
  @search_by_topic_body (demo_engine (7 # 10)) untyped_title_manager "recursion" 3
  = Raise AttributeError
  /\ @search_by_topic (demo_engine (7 # 10)) untyped_title_manager "recursion" 3
     = Ok empty_result.
Proof.
  assert (Hbody : @search_by_topic_body (demo_engine (7 # 10)) untyped_title_manager
                    "recursion" 3 = Raise AttributeError) by (vm_compute; reflexivity).
  split; [exact Hbody|].
  destruct (@search_by_topic_never_raises (demo_engine (7 # 10)) untyped_title_manager
              "recursion" 3) as (r & Hr & Hfail & _).
  rewrite Hr. f_equal. exact (Hfail AttributeError Hbody).
Defined.

(** C10, the claim as stated fails: with an encoder that is down the
    semantic pass fails inside, and the result for the demo store still has
    the metadata match; with [top_k = 0], which FAISS refuses, it has no
    match but counts one and reports an exact match. *)
Lemma search_by_topic_not_empty_after_failure :
  @search_body failing_engine (faiss_manager demo_store) "recursion" 3 (6 # 10)
  = Raise (LibraryError "encoder unavailable")
  /\ @search_by_topic failing_engine (faiss_manager demo_store) "recursion" 3
     = Ok (mkTopicResult [demo_metadata_match] 1 true)
  /\ @search_body (demo_engine (7 # 10)) (faiss_manager demo_store) "recursion" 0 (6 # 10)
     = Raise AssertionError
  /\ @search_by_topic (demo_engine (7 # 10)) (faiss_manager demo_store) "recursion" 0
     = Ok (mkTopicResult [] 1 true).
Proof. repeat split; vm_compute; reflexivity. Qed.

(** C9, the claim as stated fails: after a scan that ingested the demo PDF
    and [clear_database], the registry file is still on disk, the registry
    still lists the PDF, and a rescan processes nothing: the index stays
    empty.  The same holds for a new [DocumentProcessor] started on that
    directory. *)
Lemma clear_database_keeps_registry :
  documents (faiss_manager demo_store) = ["recursion"]
  /\ processed_files_txt (disk cleared_demo_store)
     = Some (registry_line (demo_path, "9e107d9d372bb6826bd81d3542a419d6"))
  /\ processed_files cleared_demo_store
     = {[ demo_path := "9e107d9d372bb6826bd81d3542a419d6" ]}
  /\ @scan_and_process_documents (demo_engine (7 # 10)) demo_files cleared_demo_store
     = (Ok 0, cleared_demo_store)
  /\ documents (faiss_manager cleared_demo_store) = []
  /\ @scan_and_process_documents (demo_engine (7 # 10)) demo_files reopened_cleared_store
     = (Ok 0, reopened_cleared_store)
  /\ documents (faiss_manager reopened_cleared_store) = [].
Proof. repeat split; vm_compute; reflexivity. Qed.

(** A new [DocumentProcessor] on an empty directory, and one on the
    directory the first scan wrote. *)
Example open_store_examples :
  @open_store (demo_engine (7 # 10)) "documents" (mkDisk None None None None) = new_store
  /\ @open_store (demo_engine (7 # 10)) "documents" (disk demo_store) = demo_store.
Proof. split; vm_compute; reflexivity. Qed.

(** The first scan of the demo folder ingests the PDF, the second scan
    finds nothing to do. *)
Example scan_demo_twice :
  fst (@scan_and_process_documents (demo_engine (7 # 10)) demo_files new_store) = Ok 1
  /\ @scan_and_process_documents (demo_engine (7 # 10)) demo_files demo_store
     = (Ok 0, demo_store).
Proof. split; vm_compute; reflexivity. Qed.

(** After the upload tool's [clear_database] a rescan of the demo folder
    ingests the PDF again. *)
Example upload_clear_then_rescan :
  fst (@scan_and_process_documents (demo_engine (7 # 10)) demo_files
         (snd (@upload_clear_database (demo_engine (7 # 10)) demo_store)))
  = Ok 1
  /\ documents (faiss_manager
       (snd (@scan_and_process_documents (demo_engine (7 # 10)) demo_files
               (snd (@upload_clear_database (demo_engine (7 # 10)) demo_store)))))
     = ["recursion"].
Proof. split; vm_compute; reflexivity. Qed.

(** A path with a bar in it is registered under that path, comes back
    from the registry file under the part before the bar, and so is
    ingested once more by the first scan after a restart. *)
Example scan_bar_path_after_restart :
  processed_files bar_store
  = {[ "documents/a|b.pdf" := "9e107d9d372bb6826bd81d3542a419d6" ]}
  /\ processed_files reopened_bar_store
     = {[ "documents/a" := "b.pdf|9e107d9d372bb6826bd81d3542a419d6" ]}
  /\ faiss_manager reopened_bar_store = faiss_manager bar_store
  /\ fst (@scan_and_process_documents (demo_engine (7 # 10)) bar_files bar_store) = Ok 0
  /\ fst (@scan_and_process_documents (demo_engine (7 # 10)) bar_files reopened_bar_store)
     = Ok 1
  /\ documents (faiss_manager
       (snd (@scan_and_process_documents (demo_engine (7 # 10)) bar_files
               reopened_bar_store)))
     = ["recursion"; "recursion"].
Proof. repeat split; vm_compute; reflexivity. Qed.

(** * Further properties *)

(** ** Metadata derived from the path *)

Section Path_metadata.
Context `{Engine} `{Files}.

Lemma find_documents_found (pre rest : list string) (i : Z) :
  ~ In "documents" pre ->
  find_documents (pre ++ "documents" :: rest) i = i + len pre.
Proof.
  revert i. induction pre as [|p pre IH]; intros i Hpre; cbn.
  - unfold len. cbn. lia.
  - destruct (String.eqb_spec p "documents") as [->|_]; [exfalso; apply Hpre; now left|].
    rewrite IH by (intros Hin; apply Hpre; now right).
    unfold len. cbn [List.length]. lia.
Qed.

Lemma find_documents_absent (parts : list string) (i : Z) :
  ~ In "documents" parts -> find_documents parts i = -1.
Proof.
  revert i. induction parts as [|p parts IH]; intros i Hp; cbn; [reflexivity|].
  destruct (String.eqb_spec p "documents") as [->|_]; [exfalso; apply Hp; now left|].
  apply IH. intros Hin. apply Hp. now right.
Qed.

Lemma py_index_app_r {A} (pre rest : list A) (k : nat) (x : A) :
  nth_error rest k = Some x -> py_index (pre ++ rest) (len pre + Z.of_nat k) = Ok x.
Proof.
  intros Hk. unfold py_index.
  assert (Hlt : (k < List.length rest)%nat) by (apply nth_error_Some; congruence).
  pose proof (len_nonneg pre) as Hpre.
  destruct (Z.ltb_spec (len pre + Z.of_nat k) 0); [lia|].
  destruct (Z.ltb_spec (len pre + Z.of_nat k) 0); [lia|].
  rewrite len_app. destruct (Z.leb_spec (len pre + len rest) (len pre + Z.of_nat k));
    [unfold len in *; lia|]. cbn [orb].
  replace (Z.to_nat (len pre + Z.of_nat k)) with (List.length pre + k)%nat
    by (unfold len; lia).
  rewrite nth_error_app2 by lia.
  replace (List.length pre + k - List.length pre)%nat with k by lia.
  now rewrite Hk.
Qed.

(** [parts[documents_idx + 1:-1]]: what follows [documents], without the
    last component. *)
Lemma py_slice_after_documents (pre rest : list string) :
  py_slice (pre ++ "documents" :: rest) (len pre + 1) (-1) = removelast rest.
Proof.
  unfold py_slice, clamp_bound. rewrite len_app.
  change (len ("documents" :: rest)) with (Z.of_nat (S (List.length rest))).
  pose proof (len_nonneg pre) as Hpre.
  destruct (Z.ltb_spec (len pre + 1) 0); [lia|].
  change (-1 <? 0) with true. cbn match.
  rewrite Z.min_l by lia. rewrite Z.max_l by lia.
  replace (Z.to_nat (len pre + 1)) with (List.length pre + 1)%nat by (unfold len; lia).
  replace (pre ++ "documents" :: rest) with ((pre ++ ["documents"]) ++ rest)
    by (now rewrite <- app_assoc).
  rewrite skipn_app.
  rewrite skipn_all2 by (rewrite length_app; cbn; lia).
  rewrite length_app. cbn [List.length app].
  replace (List.length pre + 1 - (List.length pre + 1))%nat with 0%nat by lia.
  cbn [skipn].
  replace (Z.to_nat (-1 + (len pre + Z.of_nat (S (List.length rest))) - (len pre + 1)))
    with (Nat.pred (List.length rest)) by lia.
  symmetry. apply removelast_firstn_len.
Qed.

(** X1: [extract_metadata_from_path] never raises, and the record it
    returns has the first eight characters of the MD5 digest of the path as
    [id], the path as [file_path] and the stem as [title].  When [documents]
    is a component of the path, [course] and [chapter] are the first and the
    second component after its first occurrence, with underscores turned
    into blanks (the file name itself when the file lies that high), and
    [topics] are all components after it but the last; otherwise [course]
    and [chapter] are [General] and there are no topics. *)
Theorem extract_metadata_from_path_fields (file_path : string) :
  exists m,
    extract_metadata_from_path file_path = Ok m
    /\ m !! "id" = Some (VStr (substring 0 8 (md5_hexdigest file_path)))
    /\ m !! "file_path" = Some (VStr file_path)
    /\ m !! "title" = Some (VStr (path_stem file_path))
    /\ (forall pre rest,
          path_parts file_path = pre ++ "documents" :: rest ->
          ~ In "documents" pre ->
          m !! "course"
          = Some (VStr match rest with
                       | c :: _ => underscores_to_spaces c
                       | [] => "General"
                       end)
          /\ m !! "chapter"
             = Some (VStr match rest with
                          | _ :: c :: _ => underscores_to_spaces c
                          | _ => "General"
                          end)
          /\ m !! "topics" = Some (VList (map underscores_to_spaces (removelast rest))))
    /\ (~ In "documents" (path_parts file_path) ->
        m !! "course" = Some (VStr "General")
        /\ m !! "chapter" = Some (VStr "General")
        /\ m !! "topics" = Some (VList [])).
Proof.
  unfold extract_metadata_from_path.
  destruct (in_dec String.string_dec "documents" (path_parts file_path)) as [Hin|Hnot].
  - apply in_split in Hin as (pre0 & rest0 & Hparts).
    assert (Hsplit : exists pre rest,
               path_parts file_path = pre ++ "documents" :: rest
               /\ ~ In "documents" pre).
    { clear -Hparts. revert Hparts. generalize (path_parts file_path) as parts.
      induction pre0 as [|p pre0 IH]; intros parts ->.
      - exists [], rest0. split; [reflexivity | intros []].
      - destruct (String.string_dec p "documents") as [->|Hne].
        + exists [], (pre0 ++ "documents" :: rest0). split; [reflexivity | intros []].
        + destruct (IH _ eq_refl) as (pre & rest & Heq & Hpre).
          exists (p :: pre), rest. split; [cbn; now rewrite Heq|].
          intros [Hp|Hp]; [congruence | contradiction]. }
    destruct Hsplit as (pre & rest & Hsplit & Hpre). rewrite Hsplit.
    rewrite (find_documents_found pre rest 0 Hpre). rewrite Z.add_0_l.
    pose proof (len_nonneg pre) as Hlen.
    destruct (Z.eqb_spec (len pre) (-1)); [lia|].
    rewrite py_slice_after_documents, len_app.
    change (len ("documents" :: rest)) with (Z.of_nat (S (List.length rest))).
    assert (Hunique : forall pre' rest',
               pre ++ "documents" :: rest = pre' ++ "documents" :: rest' ->
               ~ In "documents" pre' -> rest' = rest).
    { intros pre' rest' Heq Hpre'.
      assert (Hp : pre = pre').
      { clear -Heq Hpre Hpre'. revert pre' Heq Hpre'.
        induction pre as [|p pre IH]; intros [|p' pre'] Heq Hpre'; [reflexivity | | |].
        - cbn in Heq. injection Heq as <- _. exfalso. apply Hpre'. now left.
        - cbn in Heq. injection Heq as -> _. exfalso. apply Hpre. now left.
        - cbn in Heq. injection Heq as <- Heq. f_equal.
          apply IH; [intros Hi; apply Hpre; now right | exact Heq |
                     intros Hi; apply Hpre'; now right]. }
      subst pre'. apply app_inv_head in Heq. now injection Heq. }
    assert (Hdone : forall m0 : Meta,
               m0 !! "id" = Some (VStr (substring 0 8 (md5_hexdigest file_path))) ->
               m0 !! "file_path" = Some (VStr file_path) ->
               m0 !! "title" = Some (VStr (path_stem file_path)) ->
               m0 !! "course"
               = Some (VStr match rest with
                            | c :: _ => underscores_to_spaces c
                            | [] => "General"
                            end) ->
               m0 !! "chapter"
               = Some (VStr match rest with
                            | _ :: c :: _ => underscores_to_spaces c
                            | _ => "General"
                            end) ->
               m0 !! "topics" = Some (VList (map underscores_to_spaces (removelast rest))) ->
               m0 !! "id" = Some (VStr (substring 0 8 (md5_hexdigest file_path)))
               /\ m0 !! "file_path" = Some (VStr file_path)
               /\ m0 !! "title" = Some (VStr (path_stem file_path))
               /\ (forall pre' rest',
                     pre ++ "documents" :: rest = pre' ++ "documents" :: rest' ->
                     ~ In "documents" pre' ->
                     m0 !! "course"
                     = Some (VStr match rest' with
                                  | c :: _ => underscores_to_spaces c
                                  | [] => "General"
                                  end)
                     /\ m0 !! "chapter"
                        = Some (VStr match rest' with
                                     | _ :: c :: _ => underscores_to_spaces c
                                     | _ => "General"
                                     end)
                     /\ m0 !! "topics"
                        = Some (VList (map underscores_to_spaces (removelast rest'))))
               /\ (~ In "documents" (pre ++ "documents" :: rest) ->
                   m0 !! "course" = Some (VStr "General")
                   /\ m0 !! "chapter" = Some (VStr "General")
                   /\ m0 !! "topics" = Some (VList []))).
    { intros m0 Hid Hfp Hti Hco Hch Hto.
      split; [exact Hid|]. split; [exact Hfp|]. split; [exact Hti|]. split.
      - intros pre' rest' Heq Hpre'. rewrite (Hunique _ _ Heq Hpre'). auto.
      - intros Hno. exfalso. apply Hno, in_or_app. right. now left. }
    destruct rest as [|c1 [|c2 rest2]]; cbn [List.length].
    + (* the path ends with [documents] *)
      destruct (Z.ltb_spec (len pre + 1) (len pre + Z.of_nat 1)); [lia|].
      destruct (Z.ltb_spec (len pre + 2) (len pre + Z.of_nat 1)); [lia|].
      cbn [mbind result_bind]. eexists. split; [reflexivity|].
      apply Hdone; now simplify_map_eq.
    + destruct (Z.ltb_spec (len pre + 1) (len pre + Z.of_nat 2)); [|lia].
      pose proof (py_index_app_r pre ["documents"; c1] 1 c1 eq_refl) as Hc1.
      change (Z.of_nat 1) with 1 in Hc1. rewrite Hc1.
      cbn [mbind result_bind].
      destruct (Z.ltb_spec (len pre + 2) (len pre + Z.of_nat 2)); [lia|].
      cbn [mbind result_bind]. eexists. split; [reflexivity|].
      apply Hdone; now simplify_map_eq.
    + destruct (Z.ltb_spec (len pre + 1) (len pre + Z.of_nat (S (S (S (List.length rest2))))));
        [|lia].
      pose proof (py_index_app_r pre ("documents" :: c1 :: c2 :: rest2) 1 c1 eq_refl)
        as Hc1.
      change (Z.of_nat 1) with 1 in Hc1. rewrite Hc1.
      cbn [mbind result_bind].
      destruct (Z.ltb_spec (len pre + 2) (len pre + Z.of_nat (S (S (S (List.length rest2))))));
        [|lia].
      pose proof (py_index_app_r pre ("documents" :: c1 :: c2 :: rest2) 2 c2 eq_refl)
        as Hc2.
      change (Z.of_nat 2) with 2 in Hc2. rewrite Hc2.
      cbn [mbind result_bind]. eexists. split; [reflexivity|].
      apply Hdone; now simplify_map_eq.
  - rewrite (find_documents_absent _ 0 Hnot). cbn. eexists. split; [reflexivity|].
    split; [now simplify_map_eq|]. split; [now simplify_map_eq|].
    split; [now simplify_map_eq|]. split.
    + intros pre rest Heq _. exfalso. apply Hnot. rewrite Heq. apply in_or_app.
      right. now left.
    + intros _. repeat split; now simplify_map_eq.
Qed.

End Path_metadata.

(** ** Chunks, word by word *)

Lemma string_app_assoc (a b c : string) : ((a ++ b) ++ c)%string = (a ++ (b ++ c))%string.
Proof.
  induction a as [|x a IH]; [reflexivity|].
  change (String x ((a ++ b) ++ c)%string = String x (a ++ (b ++ c))%string).
  now rewrite IH.
Qed.

Lemma string_app_empty_r (a : string) : (a ++ "")%string = a.
Proof.
  induction a as [|x a IH]; [reflexivity|].
  change (String x (a ++ "")%string = String x a). now rewrite IH.
Qed.

(** Reading a run of characters that are not white space extends the
    current word. *)
Lemma split_from_run (w : string) :
  forall cur rest,
    no_space w = true ->
    split_from cur (w ++ rest)%string = split_from (cur ++ w)%string rest.
Proof.
  induction w as [|c w IH]; intros cur rest Hw.
  - cbn. now rewrite string_app_empty_r.
  - cbn in Hw. apply andb_true_iff in Hw as [Hc Hw]. apply negb_true_iff in Hc.
    change (String c w ++ rest)%string with (String c (w ++ rest)%string).
    cbn [split_from]. rewrite Hc. rewrite IH by exact Hw.
    rewrite string_app_assoc. reflexivity.
Qed.

(** Splitting a text made of words joined by single blanks gives the
    words back. *)
Lemma py_split_join (ws : list string) :
  Forall is_word ws -> py_split (join " " ws) = ws.
Proof.
  unfold py_split. induction 1 as [|w ws [Hne Hns] Hws IH]; [reflexivity|].
  destruct ws as [|w' ws].
  - change (join " " [w]) with w. rewrite <- (string_app_empty_r w) at 1.
    rewrite split_from_run by exact Hns. change ("" ++ w)%string with w.
    cbn [split_from]. now rewrite Hne.
  - rewrite join_cons2. rewrite split_from_run by exact Hns.
    change ("" ++ w)%string with w.
    change (" " ++ join " " (w' :: ws))%string with (String " "%char (join " " (w' :: ws))).
    cbn [split_from]. change (is_space " ") with true. cbv iota.
    rewrite Hne. now rewrite IH.
Qed.

Lemma window_words (words : list string) (size i : Z) :
  Forall is_word words ->
  py_split (window words size i) = firstn (Z.to_nat size) (skipn (Z.to_nat i) words).
Proof. intros Hw. unfold window. apply py_split_join. now apply Forall_window. Qed.

Lemma window_starts_length (n step : Z) :
  len (window_starts n step) = Z.max 0 (range_len 0 n step).
Proof. unfold window_starts, len. rewrite length_map, length_seq. lia. Qed.

Lemma nth_error_seq_from (m a k : nat) :
  nth_error (seq a m) k = if (k <? m)%nat then Some (a + k)%nat else None.
Proof.
  revert a k. induction m as [|m IH]; intros a k.
  - now destruct k.
  - destruct k as [|k]; cbn [seq nth_error].
    + now rewrite Nat.add_0_r.
    + rewrite IH. change (S k <? S m)%nat with (k <? m)%nat.
      destruct (k <? m)%nat; [|reflexivity]. f_equal. lia.
Qed.

(** The chunks by their position in the result. *)
Lemma chunks_by_position (text : string) (size overlap : Z) (chunks : list string) :
  0 < size -> overlap < size ->
  chunk_text text size overlap = Ok chunks ->
  forall k,
    nth_error chunks k
    = if (k <? Z.to_nat (range_len 0 (len (py_split text)) (size - overlap)))%nat
      then Some (window (py_split text) size (Z.of_nat k * (size - overlap)))
      else None.
Proof.
  intros Hsize Hov Hrun k. rewrite chunk_text_windows in Hrun by assumption.
  injection Hrun as <-. unfold window_starts.
  rewrite !nth_error_map, nth_error_seq_from.
  destruct (k <? _)%nat; reflexivity.
Qed.

Lemma window_run (text : string) (size i : Z) :
  0 < size -> 0 <= i < len (py_split text) ->
  py_split (window (py_split text) size i) = word_run (py_split text) size i
  /\ 1 <= len (word_run (py_split text) size i) <= size
  /\ strip (window (py_split text) size i) = window (py_split text) size i.
Proof.
  intros Hsize Hi. pose proof (py_split_words text) as Hw.
  split; [now apply window_words|]. unfold word_run.
  assert (Hne : firstn (Z.to_nat size) (skipn (Z.to_nat i) (py_split text)) <> [])
    by (now apply window_nonempty).
  split; [|apply strip_join_words; [exact Hne | now apply Forall_window]].
  unfold len in *. rewrite length_firstn, length_skipn. lia.
Qed.

(** X2: for a positive size and a smaller overlap, the chunk at position
    [k] of the result of [chunk_text] is the run of the words
    [k * step, ..., k * step + size - 1] of the text that exist, where
    [step = size - overlap]: at least one and at most [size] consecutive
    words, in their order, joined by single blanks, without white space at
    the ends; and a text of [n > 0] words gives [ceil(n / step)] chunks. *)
Theorem chunk_text_chunks_are_word_runs (text : string) (size overlap : Z)
    (chunks : list string) :
  0 < size -> overlap < size ->
  chunk_text text size overlap = Ok chunks ->
  (forall k chunk,
      nth_error chunks k = Some chunk ->
      0 <= Z.of_nat k * (size - overlap) < len (py_split text)
      /\ py_split chunk
         = word_run (py_split text) size (Z.of_nat k * (size - overlap))
      /\ 1 <= len (py_split chunk) <= size
      /\ chunk = join " " (py_split chunk)
      /\ strip chunk = chunk)
  /\ len chunks
     = if len (py_split text) =? 0 then 0
       else (len (py_split text) + (size - overlap) - 1) / (size - overlap).
Proof.
  intros Hsize Hov Hrun. split.
  - intros k chunk Hk. rewrite (chunks_by_position _ _ _ _ Hsize Hov Hrun) in Hk.
    destruct (Nat.ltb_spec k
                (Z.to_nat (range_len 0 (len (py_split text)) (size - overlap))))
      as [Hlt|]; [|discriminate].
    injection Hk as <-.
    assert (Hpos : 0 <= Z.of_nat k * (size - overlap) < len (py_split text)).
    { assert (Hstep : 0 < size - overlap) by lia.
      pose proof (range_positions (len (py_split text)) (size - overlap) k Hstep Hlt).
      lia. }
    destruct (window_run text size _ Hsize Hpos) as (Hwords & Hlen & Hstrip).
    split; [exact Hpos|]. split; [exact Hwords|]. rewrite Hwords.
    split; [exact Hlen|]. split; [reflexivity | exact Hstrip].
  - rewrite chunk_text_windows in Hrun by assumption. injection Hrun as <-.
    unfold len at 1. rewrite length_map. fold (len (window_starts (len (py_split text))
                                                    (size - overlap))).
    rewrite window_starts_length. unfold range_len.
    destruct (Z.ltb_spec 0 (size - overlap)); [|lia].
    pose proof (len_nonneg (py_split text)) as Hn.
    destruct (Z.eqb_spec (len (py_split text)) 0) as [->|Hnz]; [reflexivity|].
    destruct (Z.ltb_spec 0 (len (py_split text))); [|lia].
    rewrite Z.sub_0_r. apply Z.max_r. apply Z.div_pos; lia.
Qed.

(** X3: with [0 <= overlap < size] no word is lost: the word at position
    [j] of the text is the word at position [j mod step] of the chunk at
    position [j / step] of the result, the chunk whose words are the run
    that starts at word [(j / step) * step], where
    [step = size - overlap]. *)
Theorem chunk_text_covers_every_word (text : string) (size overlap : Z)
    (chunks : list string) (j : nat) (w : string) :
  0 <= overlap < size ->
  chunk_text text size overlap = Ok chunks ->
  nth_error (py_split text) j = Some w ->
  exists chunk,
    nth_error chunks (Z.to_nat (Z.of_nat j / (size - overlap))) = Some chunk
    /\ py_split chunk
       = word_run (py_split text) size
                  (Z.of_nat j / (size - overlap) * (size - overlap))
    /\ nth_error (py_split chunk) (Z.to_nat (Z.of_nat j mod (size - overlap))) = Some w.
Proof.
  intros Hov Hrun Hj.
  assert (Hsize : 0 < size) by lia. assert (Hless : overlap < size) by lia.
  pose proof (chunks_by_position _ _ _ _ Hsize Hless Hrun) as Hchunks.
  set (step := size - overlap) in *. assert (Hstep : 0 < step) by (subst step; lia).
  assert (Hnz : step <> 0) by lia.
  set (k := Z.of_nat j / step).
  assert (Hk : 0 <= k) by (apply Z.div_pos; lia).
  pose proof (Z.mul_div_le (Z.of_nat j) step Hstep) as Hle.
  pose proof (Z.mod_pos_bound (Z.of_nat j) step Hstep) as Hmod.
  pose proof (Z.div_mod (Z.of_nat j) step Hnz) as Hdm.
  fold k in Hdm, Hle.
  assert (Hjn : (j < List.length (py_split text))%nat) by (apply nth_error_Some; congruence).
  assert (Hpos : 0 <= k * step < len (py_split text)) by (unfold len; lia).
  exists (window (py_split text) size (k * step)).
  destruct (window_run text size _ Hsize Hpos) as (Hwords & _ & _).
  split; [|split; [exact Hwords|]].
  - rewrite Hchunks. rewrite Z2Nat.id by exact Hk.
    destruct (Nat.ltb_spec (Z.to_nat k) (Z.to_nat (range_len 0 (len (py_split text)) step)))
      as [|Hge]; [reflexivity|]. exfalso.
    unfold range_len in Hge. destruct (Z.ltb_spec 0 step); [|lia].
    destruct (Z.ltb_spec 0 (len (py_split text))); [|unfold len in *; lia].
    assert (k < (len (py_split text) - 0 + step - 1) / step).
    { replace (len (py_split text) - 0 + step - 1)
        with (len (py_split text) - 1 + 1 * step) by lia.
      rewrite Z.div_add by lia.
      assert (k <= (len (py_split text) - 1) / step).
      { subst k. apply Z.div_le_mono; [lia|]. unfold len. lia. }
      lia. }
    lia.
  - rewrite Hwords. unfold word_run. rewrite nth_error_firstn.
    destruct (Nat.ltb_spec (Z.to_nat (Z.of_nat j mod step)) (Z.to_nat size)); [|lia].
    rewrite nth_error_skipn.
    replace (Z.to_nat (k * step) + Z.to_nat (Z.of_nat j mod step))%nat with j by lia.
    exact Hj.
Qed.

(** ** Text extraction *)

Section Extraction.
Context `{Engine} `{Files}.

Lemma concat_empty_cons (x : string) (l : list string) :
  String.concat "" (x :: l) = (x ++ String.concat "" l)%string.
Proof.
  destruct l as [|y l]; [|reflexivity].
  change (String.concat "" [x]) with x. change (String.concat "" []) with "".
  now rewrite string_app_empty_r.
Qed.

Lemma page_lines_cons (t : string) (l : list string) :
  page_lines (t :: l) = (t ++ newline ++ page_lines l)%string.
Proof.
  unfold page_lines. cbn [map]. rewrite concat_empty_cons. apply string_app_assoc.
Qed.

Lemma page_lines_app (a b : list string) :
  page_lines (a ++ b) = (page_lines a ++ page_lines b)%string.
Proof.
  induction a as [|t a IH]; [reflexivity|].
  cbn [app]. rewrite !page_lines_cons, IH. now rewrite !string_app_assoc.
Qed.

(** A page loop reads on while the pages answer and stops at the first
    page that raises. *)
Lemma page_loop_run {P} (body : result P -> M string unit) (keep : P -> list string) :
  (forall p text, body (Ok p) text = (Ok tt, (text ++ page_lines (keep p))%string)) ->
  (forall e text, body (Raise e) text = (Raise e, text)) ->
  forall pre tail text,
    for_each (map Ok pre ++ tail) body text
    = match tail with
      | [] => (Ok tt, (text ++ page_lines (flat_map keep pre))%string)
      | Ok _ :: _ => for_each tail body (text ++ page_lines (flat_map keep pre))%string
      | Raise e :: _ => (Raise e, (text ++ page_lines (flat_map keep pre))%string)
      end.
Proof.
  intros Hok Hraise pre tail. induction pre as [|p pre IH]; intros text.
  - cbn [map app flat_map]. change (page_lines []) with "". rewrite string_app_empty_r.
    destruct tail as [|[p|e] tail]; [reflexivity | reflexivity|].
    cbn [for_each]. unfold mbind, M_bind. now rewrite Hraise.
  - cbn [map app for_each flat_map]. unfold mbind at 1, M_bind at 1.
    rewrite Hok, IH. rewrite page_lines_app, !string_app_assoc. reflexivity.
Qed.

Lemma pdf_first_method_run (file_path : string) (pre : list string)
    (tail : list (result string)) (text : string) :
  pypdf2_pages file_path = Ok (map Ok pre ++ tail) ->
  pdf_first_method file_path text
  = match tail with
    | [] => (Ok tt, (text ++ page_lines pre)%string)
    | Ok _ :: _ =>
        for_each tail
          (fun page : result string =>
             page_text ← lift page;
             modify (fun text => (text ++ page_text ++ newline)%string))
          (text ++ page_lines pre)%string
    | Raise e :: _ => (Raise e, (text ++ page_lines pre)%string)
    end.
Proof.
  intros Hp. unfold pdf_first_method. unfold mbind at 1, M_bind at 1, lift at 1.
  rewrite Hp.
  rewrite (page_loop_run _ (fun t => [t])).
  - replace (flat_map (fun t => [t]) pre) with pre; [reflexivity|].
    clear. induction pre as [|t pre IH]; [reflexivity | cbn; now rewrite <- IH].
  - intros p text0. unfold mbind, M_bind, lift, modify.
    change (page_lines [p]) with (p ++ newline)%string. reflexivity.
  - intros e text0. reflexivity.
Qed.

Lemma pdf_alternative_method_run (file_path : string) (pages : list (option string))
    (tail : list (result (option string))) (text : string) :
  pdfplumber_pages file_path = Ok (map Ok pages ++ tail) ->
  match tail with
  | [] =>
      pdf_alternative_method file_path text
      = (Ok tt, (text ++ page_lines (usable_pages pages))%string)
  | Ok _ :: _ => True
  | Raise e :: _ =>
      pdf_alternative_method file_path text
      = (Raise e, (text ++ page_lines (usable_pages pages))%string)
  end.
Proof.
  intros Hp.
  assert (Hrun : pdf_alternative_method file_path text
                 = for_each (map Ok pages ++ tail)
                     (fun page : result (option string) =>
                        page_text ← lift page;
                        match page_text with
                        | Some t => if is_empty t then mret tt
                                    else modify (fun text => (text ++ t ++ newline)%string)
                        | None => mret tt
                        end) text).
  { unfold pdf_alternative_method. unfold mbind at 1, M_bind at 1, lift at 1.
    now rewrite Hp. }
  rewrite Hrun.
  rewrite (page_loop_run _ (fun o : option string =>
                              match o with
                              | Some t => if is_empty t then [] else [t]
                              | None => []
                              end)).
  - destruct tail as [|[o|e] tail]; [reflexivity | exact I | reflexivity].
  - intros [t|] text0; unfold mbind, M_bind, lift.
    + destruct (is_empty t).
      * change (page_lines []) with "". now rewrite string_app_empty_r.
      * unfold modify. change (page_lines [t]) with (t ++ newline)%string. reflexivity.
    + change (page_lines []) with "". now rewrite string_app_empty_r.
  - intros e text0. reflexivity.
Qed.

(** The first reader failing after the pages [pre] leaves their text and
    raises. *)
Lemma pdf_first_method_fails (file_path : string) (pre : list string) :
  fails_after (pypdf2_pages file_path) pre ->
  exists e, pdf_first_method file_path "" = (Raise e, page_lines pre).
Proof.
  intros [[-> [e Hp]]|(e & rest & Hp)].
  - exists e. unfold pdf_first_method. unfold mbind at 1, M_bind at 1, lift at 1.
    now rewrite Hp.
  - exists e. now rewrite (pdf_first_method_run _ _ _ _ Hp).
Qed.

Lemma pdf_alternative_method_fails (file_path : string) (read : list (option string))
    (text : string) :
  fails_after (pdfplumber_pages file_path) read ->
  exists e text', pdf_alternative_method file_path text = (Raise e, text').
Proof.
  intros [[-> [e Hp]]|(e & rest & Hp)].
  - exists e, text. unfold pdf_alternative_method.
    unfold mbind at 1, M_bind at 1, lift at 1. now rewrite Hp.
  - exists e. eexists. exact (pdf_alternative_method_run _ _ _ text Hp).
Qed.

(** X4: [extract_text_from_pdf] returns the stripped page texts of PyPDF2
    when it reads every page.  When PyPDF2 fails, be it on opening or on a
    page, the text of the pages read so far is kept and the texts of the
    pdfplumber pages are appended to it, so that the pages PyPDF2 had read
    occur twice; when pdfplumber fails as well, be it on opening or on a
    page, the result is the empty string. *)
Theorem extract_text_from_pdf_cases (file_path : string) :
  (forall texts,
      pypdf2_pages file_path = Ok (map Ok texts) ->
      extract_text_from_pdf file_path = strip (page_lines texts))
  /\ (forall pre pages,
        fails_after (pypdf2_pages file_path) pre ->
        pdfplumber_pages file_path = Ok (map Ok pages) ->
        extract_text_from_pdf file_path
        = strip (page_lines pre ++ page_lines (usable_pages pages))%string)
  /\ (forall pre read,
        fails_after (pypdf2_pages file_path) pre ->
        fails_after (pdfplumber_pages file_path) read ->
        extract_text_from_pdf file_path = "").
Proof.
  unfold extract_text_from_pdf, try_except_M. split; [|split].
  - intros texts Hp. rewrite <- (app_nil_r (map Ok texts)) in Hp.
    unfold mbind at 1, M_bind at 1. rewrite (pdf_first_method_run _ _ _ _ Hp).
    reflexivity.
  - intros pre pages Hfirst Ha. destruct (pdf_first_method_fails _ _ Hfirst) as [e Hrun].
    unfold mbind at 1, M_bind at 1. rewrite Hrun.
    rewrite <- (app_nil_r (map Ok pages)) in Ha.
    unfold mbind at 1, M_bind at 1.
    rewrite (pdf_alternative_method_run _ _ _ (page_lines pre) Ha). reflexivity.
  - intros pre read Hfirst Hsecond.
    destruct (pdf_first_method_fails _ _ Hfirst) as [e Hrun].
    destruct (pdf_alternative_method_fails _ _ (page_lines pre) Hsecond)
      as (e' & text' & Halt).
    unfold mbind at 1, M_bind at 1. rewrite Hrun.
    unfold mbind at 1, M_bind at 1. rewrite Halt. reflexivity.
Qed.

End Extraction.

(** ** The registry file *)

Lemma no_char_app (c : ascii) (a b : string) :
  no_char c (a ++ b)%string = no_char c a && no_char c b.
Proof.
  induction a as [|x a IH]; [reflexivity|].
  change (String x a ++ b)%string with (String x (a ++ b)%string).
  cbn [no_char]. now rewrite IH, andb_assoc.
Qed.

Lemma universal_newlines_clean (s : string) :
  no_char (ascii_of_N 13) s = true -> universal_newlines s = s.
Proof.
  induction s as [|c s IH]; [reflexivity|].
  cbn [no_char]. intros Hs. apply andb_true_iff in Hs as [Hc Hs].
  apply negb_true_iff in Hc. cbn [universal_newlines]. rewrite Hc. now rewrite IH.
Qed.

Lemma lines_from_line (body : string) :
  forall cur rest,
    no_char (ascii_of_N 10) body = true ->
    lines_from cur (body ++ newline ++ rest)%string
    = (cur ++ body ++ newline)%string :: lines_from EmptyString rest.
Proof.
  induction body as [|c body IH]; intros cur rest Hb.
  - reflexivity.
  - cbn [no_char] in Hb. apply andb_true_iff in Hb as [Hc Hb].
    apply negb_true_iff in Hc.
    change (String c body ++ newline ++ rest)%string
      with (String c (body ++ newline ++ rest)%string).
    cbn [lines_from]. rewrite Hc, (IH _ _ Hb). f_equal.
    now rewrite string_app_assoc.
Qed.

Lemma registry_text_cons (item : string * string) (items : list (string * string)) :
  registry_text (item :: items) = (registry_line item ++ registry_text items)%string.
Proof. unfold registry_text. cbn [map]. apply concat_empty_cons. Qed.

Lemma registry_line_split (item : string * string) :
  registry_line item = ((fst item ++ "|" ++ snd item) ++ newline)%string.
Proof. unfold registry_line. now rewrite !string_app_assoc. Qed.

Lemma registry_line_clean (c : ascii) (item : string * string) :
  no_char c (fst item) = true -> no_char c (snd item) = true ->
  no_char c "|" = true ->
  no_char c (fst item ++ "|" ++ snd item)%string = true.
Proof. intros Hp Hh Hb. now rewrite !no_char_app, Hp, Hh, Hb. Qed.

Lemma registry_text_no_return (items : list (string * string)) :
  Forall survives items -> no_char (ascii_of_N 13) (registry_text items) = true.
Proof.
  induction 1 as [|item items (_ & _ & Hp & _ & _ & Hh & _) _ IH]; [reflexivity|].
  rewrite registry_text_cons, registry_line_split, !no_char_app, IH, Hp, Hh.
  reflexivity.
Qed.

Lemma file_lines_registry (items : list (string * string)) :
  Forall survives items -> file_lines (registry_text items) = map registry_line items.
Proof.
  intros Hs. unfold file_lines.
  rewrite universal_newlines_clean by now apply registry_text_no_return.
  induction Hs as [|item items (_ & Hp & _ & _ & Hh & _ & _) _ IH]; [reflexivity|].
  rewrite registry_text_cons, registry_line_split, string_app_assoc.
  rewrite (lines_from_line _ "" (registry_text items)
             (registry_line_clean _ item Hp Hh eq_refl)).
  cbn [map]. rewrite IH. f_equal. now rewrite registry_line_split.
Qed.

Lemma contains_bar (p rest : string) : contains "|" (p ++ String "|" rest)%string = true.
Proof.
  induction p as [|c p IH]; [destruct rest; reflexivity|].
  change (String c p ++ String "|" rest)%string with (String c (p ++ String "|" rest)%string).
  cbn [contains]. rewrite IH. apply orb_true_r.
Qed.

Lemma split_once_bar (p h : string) :
  no_char "|" p = true -> split_once "|" (p ++ String "|" h)%string = Some (p, h).
Proof.
  induction p as [|c p IH]; [reflexivity|].
  cbn [no_char]. intros Hp. apply andb_true_iff in Hp as [Hc Hp].
  apply negb_true_iff in Hc.
  change (String c p ++ String "|" h)%string with (String c (p ++ String "|" h)%string).
  cbn [split_once]. now rewrite Hc, IH.
Qed.

Lemma rstrip_space_tail (a b : string) :
  all_space b = true -> rstrip (a ++ b)%string = rstrip a.
Proof.
  intros Hb. induction a as [|c a IH].
  - change ("" ++ b)%string with b. induction b as [|x b IHb]; [reflexivity|].
    cbn [all_space] in Hb. apply andb_true_iff in Hb as [Hx Hb].
    cbn [rstrip]. rewrite (IHb Hb), Hx. reflexivity.
  - change (String c a ++ b)%string with (String c (a ++ b)%string).
    cbn [rstrip]. now rewrite IH.
Qed.

Lemma strip_registry_line (item : string * string) :
  left_clean (fst item) -> ends_ok (snd item) ->
  strip (registry_line item) = (fst item ++ String "|" (snd item))%string.
Proof.
  destruct item as [p h]. cbn [fst snd]. intros Hp Hh.
  rewrite registry_line_split. cbn [fst snd]. unfold strip.
  change (p ++ "|" ++ h)%string with (p ++ String "|" h)%string.
  rewrite lstrip_id.
  - rewrite rstrip_space_tail by reflexivity. apply rstrip_id.
    apply ends_ok_app; [reflexivity|]. cbn [ends_ok]. now destruct h.
  - destruct p as [|c p]; [reflexivity | exact Hp].
Qed.

Lemma read_registry_line_clean (item : string * string) (reg : pydict) :
  survives item ->
  read_registry_line (registry_line item) reg = (Ok tt, <[fst item := snd item]> reg).
Proof.
  intros (Hbar & _ & _ & Hl & _ & _ & Hr). unfold read_registry_line.
  rewrite (strip_registry_line item Hl Hr), (split_once_bar _ _ Hbar).
  replace (contains "|" (registry_line item)) with true; [reflexivity|].
  symmetry. unfold registry_line.
  change ("|" ++ snd item ++ newline)%string with (String "|" (snd item ++ newline)%string).
  apply contains_bar.
Qed.

Lemma read_registry_lines (items : list (string * string)) :
  Forall survives items ->
  forall reg,
    for_each (map registry_line items) read_registry_line reg
    = (Ok tt, fold_left (fun m item => <[fst item := snd item]> m) items reg).
Proof.
  induction 1 as [|item items Hi _ IH]; intros reg; [reflexivity|].
  cbn [map for_each fold_left]. unfold mbind at 1, M_bind at 1.
  rewrite (read_registry_line_clean item reg Hi). apply IH.
Qed.

Lemma read_registry_text (items : list (string * string)) :
  Forall survives items ->
  read_registry (Some (registry_text items))
  = fold_left (fun m item => <[fst item := snd item]> m) items ∅.
Proof.
  intros Hs. unfold read_registry, try_except_M.
  now rewrite (file_lines_registry items Hs), (read_registry_lines items Hs).
Qed.

Lemma dict_get_app (k : string) (l l' : list (string * string)) :
  dict_get k (l ++ l') = match dict_get k l with
                         | Some v => Some v
                         | None => dict_get k l'
                         end.
Proof.
  induction l as [|[k' v'] l IH]; [reflexivity|].
  cbn [app dict_get]. now destruct (String.eqb k' k).
Qed.

Lemma dict_set_fresh (k v : string) (l : list (string * string)) :
  dict_get k l = None -> dict_set k v l = l ++ [(k, v)].
Proof.
  induction l as [|[k' v'] l IH]; [reflexivity|].
  cbn [dict_get dict_set app]. destruct (String.eqb k' k); [discriminate|].
  intros Hl. now rewrite IH.
Qed.

(** Entering items with distinct paths that are not yet there appends
    them. *)
Lemma fold_insert_fresh (new : list (string * string)) :
  forall old,
    List.NoDup (map fst new) ->
    Forall (fun item => dict_get (fst item) old = None) new ->
    fold_left (fun m item => <[fst item := snd item]> m) new (mkDict old)
    = mkDict (old ++ new).
Proof.
  induction new as [|[k v] new IH]; intros old Hnd Hfresh.
  - cbn [fold_left]. now rewrite app_nil_r.
  - cbn [fold_left fst snd]. inversion Hnd as [|? ? Hk Hrest]; subst.
    inversion Hfresh as [|? ? Hkf Hfr]; subst. cbn [fst] in Hkf.
    unfold insert at 2, pydict_insert. cbn [dict_items].
    rewrite (dict_set_fresh k v old Hkf), IH.
    + now rewrite <- app_assoc.
    + exact Hrest.
    + apply List.Forall_forall. intros [k' v'] Hin. cbn [fst].
      rewrite dict_get_app.
      pose proof (proj1 (List.Forall_forall _ _) Hfr (k', v') Hin) as Hold.
      cbn [fst] in Hold. rewrite Hold. cbn [dict_get]. destruct (String.eqb_spec k k') as [->|]; [|reflexivity].
      exfalso. apply Hk. apply in_map_iff. now exists (k', v').
Qed.

Lemma fold_insert_items (reg : pydict) :
  List.NoDup (map fst (dict_items reg)) ->
  fold_left (fun m item => <[fst item := snd item]> m) (dict_items reg) ∅ = reg.
Proof.
  intros Hnd. destruct reg as [l]. cbn [dict_items] in *.
  apply (fold_insert_fresh l [] Hnd). apply List.Forall_forall. reflexivity.
Qed.

(** X14: the registry survives a restart.  Let the dictionary
    [processed_files], in which no path occurs twice, be written by
    [save_processed_files], and let every path be free of bars and line
    ends and without white space in front and every hash be free of line
    ends and without white space at its end (an MD5 digest is, and so is
    the empty hash of an unreadable file).  Then [load_processed_files]
    reads the same dictionary back from the text written, with its items in
    the same order. *)
Theorem registry_round_trip (processed_files : pydict) :
  List.NoDup (map fst (dict_items processed_files)) ->
  Forall survives (dict_items processed_files) ->
  read_registry (Some (registry_text (dict_items processed_files))) = processed_files.
Proof.
  intros Hnd Hs. rewrite (read_registry_text _ Hs). now apply fold_insert_items.
Qed.

(** X15: a path with a bar in it does not survive.  The line written for
    the path [a|b] with hash [h] is read back as the path [a] with the hash
    [b|h]: the line is split at its first bar. *)
Theorem registry_bar_in_path (a b h : string) :
  survives (a, (b ++ "|" ++ h)%string) ->
  read_registry (Some (registry_text [((a ++ "|" ++ b)%string, h)]))
  = {[ a := (b ++ "|" ++ h)%string ]}.
Proof.
  intros Hs.
  replace (registry_text [((a ++ "|" ++ b)%string, h)])
    with (registry_text [(a, (b ++ "|" ++ h)%string)]).
  - rewrite (read_registry_text _ (List.Forall_cons _ _ _ Hs (List.Forall_nil _))).
    reflexivity.
  - unfold registry_text, registry_line. cbn [map fst snd].
    now rewrite !string_app_assoc.
Qed.

(** ** Ingestion: what a scan keeps and what it writes *)

Section Ingestion_invariants.
Context `{Engine} `{Files}.

Lemma all_space_app (a b : string) :
  all_space (a ++ b)%string = all_space a && all_space b.
Proof.
  induction a as [|c a IH]; [reflexivity|].
  change (String c a ++ b)%string with (String c (a ++ b)%string).
  cbn [all_space]. rewrite IH. now rewrite andb_assoc.
Qed.

Lemma strip_all_space (s : string) : all_space s = true -> strip s = "".
Proof.
  intros Hs. unfold strip. replace (lstrip s) with ""; [reflexivity|].
  induction s as [|c s IH]; [reflexivity|].
  cbn in Hs. apply andb_true_iff in Hs as [Hc Hs]. cbn. rewrite Hc. now apply IH.
Qed.

Lemma page_lines_all_space (texts : list string) :
  Forall (fun t => all_space t = true) texts -> all_space (page_lines texts) = true.
Proof.
  induction 1 as [|t texts Ht _ IH]; [reflexivity|].
  rewrite page_lines_cons, !all_space_app, Ht, IH. reflexivity.
Qed.

Lemma extract_text_from_pdf_all_pages (file_path : string) (texts : list string) :
  pypdf2_pages file_path = Ok (map Ok texts) ->
  extract_text_from_pdf file_path = strip (page_lines texts).
Proof.
  intros Hp. rewrite <- (app_nil_r (map Ok texts)) in Hp.
  unfold extract_text_from_pdf, try_except_M. unfold mbind at 1, M_bind at 1.
  rewrite (pdf_first_method_run _ _ _ _ Hp). reflexivity.
Qed.

(** X5: a PDF whose pages hold nothing but white space is treated as a
    file without text: [process_file] answers [False], adds nothing and
    does not record the file in the registry. *)
Theorem whitespace_only_pdf_is_skipped (file_path : string) (texts : list string) (s : ST) :
  endswith (lower file_path) ".pdf" = true ->
  pypdf2_pages file_path = Ok (map Ok texts) ->
  Forall (fun t => all_space t = true) texts ->
  process_file file_path s = (Ok false, s).
Proof.
  intros Hext Hp Hws. apply process_file_false.
  unfold extractable, extracted_text. rewrite Hext.
  rewrite (extract_text_from_pdf_all_pages _ _ Hp).
  now rewrite strip_all_space by (now apply page_lines_all_space).
Qed.

Lemma extends_refl (fm : FAISSManager Vec) : extends fm fm.
Proof.
  split; [reflexivity|]. exists [], [], []. rewrite !app_nil_r. repeat split.
Qed.

Lemma extends_trans (a b c : FAISSManager Vec) : extends a b -> extends b c -> extends a c.
Proof.
  intros [Hd1 (v1 & m1 & d1 & Hx1 & Hm1 & Hdoc1 & Hl1 & Hl1')]
         [Hd2 (v2 & m2 & d2 & Hx2 & Hm2 & Hdoc2 & Hl2 & Hl2')].
  split; [congruence|]. exists (v1 ++ v2), (m1 ++ m2), (d1 ++ d2).
  rewrite Hx2, Hx1, Hm2, Hm1, Hdoc2, Hdoc1, <- !app_assoc, !len_app.
  repeat split; lia.
Qed.

Lemma extends_aligned (fm fm' : FAISSManager Vec) :
  extends fm fm' -> aligned fm -> aligned fm'.
Proof.
  intros [_ (vs & ms & ds & Hx & Hm & Hd & Hl & Hl')] [Ha Hb].
  unfold aligned, ntotal in *. rewrite Hx, Hm, Hd, !len_app. lia.
Qed.

Lemma stored_lengths (d : Z) (entries : list (string * Meta)) :
  len (stored_vectors d entries) = len (stored d entries).
Proof.
  unfold len. f_equal. unfold stored_vectors, stored.
  induction entries as [|cm entries IH]; [reflexivity|].
  cbn [omap list_omap List.filter].
  destruct (accepted d (fst cm)); cbn; now rewrite IH.
Qed.

Lemma fold_add_one_extends (entries : list (string * Meta)) (fm : FAISSManager Vec) :
  extends fm (fold_left add_one entries fm).
Proof.
  rewrite fold_add_one_run. split; [reflexivity|].
  eexists _, _, _. cbn. repeat split.
  - rewrite stored_lengths. unfold len. now rewrite length_map.
  - unfold len. now rewrite !length_map.
Qed.

(** What one call of [process_file] can do to the store. *)
Lemma process_file_effect (file_path : string) (s : ST) :
  exists b s',
    process_file file_path s = (Ok b, s')
    /\ documents_folder s' = documents_folder s
    /\ disk s' = disk s
    /\ extends (faiss_manager s) (faiss_manager s')
    /\ (b = false -> s' = s)
    /\ (forall p, is_Some (processed_files s !! p) -> is_Some (processed_files s' !! p)).
Proof.
  destruct (extractable file_path) eqn:Hx.
  - destruct (process_file_true file_path s Hx) as (text & meta & _ & _ & Hrun).
    eexists true, _. split; [exact Hrun|]. cbn.
    split; [reflexivity|]. split; [reflexivity|].
    split; [apply fold_add_one_extends|]. split; [discriminate|].
    intros p Hp. destruct (decide (file_path = p)) as [->|Hne].
    + rewrite pydict_lookup_insert_eq. eauto.
    + now rewrite pydict_lookup_insert_ne.
  - exists false, s. split; [now apply process_file_false|].
    split; [reflexivity|]. split; [reflexivity|]. split; [apply extends_refl|].
    split; auto.
Qed.

Lemma scan_file_effect (root : string) (c : Z) (file : string) (s : ST) :
  exists c' s',
    scan_file root c file s = (Ok c', s')
    /\ documents_folder s' = documents_folder s
    /\ disk s' = disk s
    /\ extends (faiss_manager s) (faiss_manager s')
    /\ ((c' = c /\ s' = s) \/ c' = c + 1)
    /\ (forall p, is_Some (processed_files s !! p) -> is_Some (processed_files s' !! p)).
Proof.
  unfold scan_file.
  assert (Hskip : exists c' s',
             (Ok c, s) = (Ok c', s')
             /\ documents_folder s' = documents_folder s
             /\ disk s' = disk s
             /\ extends (faiss_manager s) (faiss_manager s')
             /\ ((c' = c /\ s' = s) \/ c' = c + 1)
             /\ (forall p, is_Some (processed_files s !! p) ->
                           is_Some (processed_files s' !! p))).
  { exists c, s. split; [reflexivity|]. split; [reflexivity|]. split; [reflexivity|].
    split; [apply extends_refl|]. split; auto. }
  destruct (endswith (lower file) ".pdf" || endswith (lower file) ".docx");
    [|exact Hskip].
  unfold mbind, M_bind, get.
  destruct (needs_processing _ _ _); [|exact Hskip].
  destruct (process_file_effect (path_join root file) s)
    as (b & s' & -> & Hf & Hd & He & Hb & Hreg).
  destruct b.
  - exists (c + 1), s'. split; [reflexivity|]. auto 10.
  - rewrite (Hb eq_refl). exact Hskip.
Qed.

Lemma files_loop_effect (root : string) (files : list string) :
  forall c s, exists c' s',
    for_fold files (scan_file root) c s = (Ok c', s')
    /\ documents_folder s' = documents_folder s
    /\ disk s' = disk s
    /\ extends (faiss_manager s) (faiss_manager s')
    /\ c <= c' /\ (c' = c -> s' = s)
    /\ (forall p, is_Some (processed_files s !! p) -> is_Some (processed_files s' !! p)).
Proof.
  induction files as [|file files IH]; intros c s.
  - exists c, s. split; [reflexivity|]. split; [reflexivity|]. split; [reflexivity|].
    split; [apply extends_refl|]. split; [lia|]. split; auto.
  - destruct (scan_file_effect root c file s)
      as (c1 & s1 & Hrun & Hf1 & Hd1 & He1 & Hc1 & Hr1).
    destruct (IH c1 s1) as (c2 & s2 & Hloop & Hf2 & Hd2 & He2 & Hle & Hsame & Hr2).
    exists c2, s2. cbn [for_fold]. unfold mbind at 1, M_bind at 1. rewrite Hrun.
    split; [exact Hloop|]. split; [congruence|]. split; [congruence|].
    split; [eapply extends_trans; eassumption|].
    split; [destruct Hc1 as [[-> _] | ->]; lia|].
    split; [|auto].
    intros Heq. destruct Hc1 as [[-> ->] | ->]; [auto | lia].
Qed.

Lemma walk_loop_effect (walk : list (string * list string)) :
  forall c s, exists c' s',
    for_fold walk walk_body c s = (Ok c', s')
    /\ documents_folder s' = documents_folder s
    /\ disk s' = disk s
    /\ extends (faiss_manager s) (faiss_manager s')
    /\ c <= c' /\ (c' = c -> s' = s)
    /\ (forall p, is_Some (processed_files s !! p) -> is_Some (processed_files s' !! p)).
Proof.
  induction walk as [|[root files] walk IH]; intros c s.
  - exists c, s. split; [reflexivity|]. split; [reflexivity|]. split; [reflexivity|].
    split; [apply extends_refl|]. split; [lia|]. split; auto.
  - destruct (files_loop_effect root files c s)
      as (c1 & s1 & Hrun & Hf1 & Hd1 & He1 & Hle1 & Hsame1 & Hr1).
    destruct (IH c1 s1) as (c2 & s2 & Hloop & Hf2 & Hd2 & He2 & Hle2 & Hsame2 & Hr2).
    exists c2, s2. cbn [for_fold]. unfold mbind at 1, M_bind at 1. cbn [walk_body].
    rewrite Hrun.
    split; [exact Hloop|]. split; [congruence|]. split; [congruence|].
    split; [eapply extends_trans; eassumption|].
    split; [lia|]. split; [|auto].
    intros Heq. assert (c1 = c) by lia. subst c1.
    rewrite (Hsame2 Heq). now apply Hsame1.
Qed.

Lemma saves_exact (s : ST) :
  (save_processed_files;; save_database) s
  = (Ok tt,
     mkStore (documents_folder s) (faiss_manager s) (processed_files s) (saved_disk s)).
Proof. destruct s as [folder fm reg d]. reflexivity. Qed.

(** A new [DocumentProcessor] on a directory that was saved: the manager is
    the one saved, the registry is what the registry file reads as. *)
Lemma open_store_saved (s : ST) :
  open_store (documents_folder s) (saved_disk s)
  = mkStore (documents_folder s) (faiss_manager s)
            (read_registry (Some (registry_text (dict_items (processed_files s)))))
            (saved_disk s).
Proof. destruct s as [folder [ix ms ds] reg d]. reflexivity. Qed.

Lemma open_store_restores (s : ST) :
  disk s = saved_disk s ->
  faiss_manager (open_store (documents_folder s) (disk s)) = faiss_manager s
  /\ processed_files (open_store (documents_folder s) (disk s))
     = read_registry (Some (registry_text (dict_items (processed_files s))))
  /\ (restorable (processed_files s) -> open_store (documents_folder s) (disk s) = s).
Proof.
  intros Hd. rewrite Hd at 1 2 3. rewrite open_store_saved.
  split; [reflexivity|]. split; [reflexivity|].
  intros [Hnd Hs]. rewrite (read_registry_text _ Hs), (fold_insert_items _ Hnd).
  destruct s as [folder fm reg d]. cbn in Hd |- *. now rewrite <- Hd.
Qed.

(** X6: a scan only appends.  The vectors, metadata records and texts that
    were in the index before the scan are still there afterwards, in the
    same places, followed by equally many new vectors, records and texts;
    an aligned index stays aligned; no path leaves the registry; and the
    documents folder is the same. *)
Theorem scan_only_appends (s : ST) :
  exists count s1,
    scan_and_process_documents s = (Ok count, s1)
    /\ extends (faiss_manager s) (faiss_manager s1)
    /\ (aligned (faiss_manager s) -> aligned (faiss_manager s1))
    /\ (forall p, is_Some (processed_files s !! p) -> is_Some (processed_files s1 !! p))
    /\ documents_folder s1 = documents_folder s.
Proof.
  destruct (walk_loop_effect (os_walk (documents_folder s)) 0 s)
    as (c & s' & Hloop & Hf & Hd & He & Hle & Hsame & Hreg).
  rewrite scan_unfold, Hloop. destruct (0 <? c).
  - rewrite saves_exact. eexists _, _. split; [reflexivity|]. cbn.
    split; [exact He|]. split; [now apply extends_aligned|]. auto.
  - exists c, s'. split; [reflexivity|].
    split; [exact He|]. split; [now apply extends_aligned|]. auto.
Qed.


(** X8: [process_file] does not look at the registry: processing a file
    with text a second time appends the same texts, records and vectors
    once more behind the first ones and leaves the registry as the first
    call left it. *)
Theorem process_file_twice_duplicates (file_path : string) (s : ST) :
  extractable file_path = true ->
  exists s1 s2 vs ms ds,
    process_file file_path s = (Ok true, s1)
    /\ process_file file_path s1 = (Ok true, s2)
    /\ index_xb (index (faiss_manager s1)) = index_xb (index (faiss_manager s)) ++ vs
    /\ metadata (faiss_manager s1) = metadata (faiss_manager s) ++ ms
    /\ documents (faiss_manager s1) = documents (faiss_manager s) ++ ds
    /\ index_xb (index (faiss_manager s2))
       = index_xb (index (faiss_manager s)) ++ vs ++ vs
    /\ metadata (faiss_manager s2) = metadata (faiss_manager s) ++ ms ++ ms
    /\ documents (faiss_manager s2) = documents (faiss_manager s) ++ ds ++ ds
    /\ processed_files s2 = processed_files s1.
Proof.
  intros Hx.
  destruct (process_file_true file_path s Hx) as (text & meta & Ht & Hm & Hrun).
  match type of Hrun with _ = (_, ?x) => set (s1 := x) in * end.
  destruct (process_file_true file_path s1 Hx) as (text' & meta' & Ht' & Hm' & Hrun').
  rewrite Ht in Ht'. injection Ht' as <-. rewrite Hm in Hm'. injection Hm' as <-.
  match type of Hrun' with _ = (_, ?x) => set (s2 := x) in * end.
  set (entries := chunk_entries meta
                    (map (window (py_split text) 500)
                         (window_starts (len (py_split text)) (500 - 50)))) in *.
  set (d := index_d (index (faiss_manager s))).
  assert (H1 : faiss_manager s1
               = mkFAISSManager
                   (mkIndex d (index_xb (index (faiss_manager s))
                               ++ stored_vectors d entries))
                   (metadata (faiss_manager s) ++ map snd (stored d entries))
                   (documents (faiss_manager s) ++ map fst (stored d entries))).
  { change (faiss_manager s1) with (fold_left add_one entries (faiss_manager s)).
    apply fold_add_one_run. }
  assert (H2 : faiss_manager s2
               = mkFAISSManager
                   (mkIndex d ((index_xb (index (faiss_manager s))
                                ++ stored_vectors d entries) ++ stored_vectors d entries))
                   ((metadata (faiss_manager s) ++ map snd (stored d entries))
                    ++ map snd (stored d entries))
                   ((documents (faiss_manager s) ++ map fst (stored d entries))
                    ++ map fst (stored d entries))).
  { change (faiss_manager s2) with (fold_left add_one entries (faiss_manager s1)).
    rewrite fold_add_one_run, H1. reflexivity. }
  exists s1, s2, (stored_vectors d entries), (map snd (stored d entries)),
         (map fst (stored d entries)).
  split; [exact Hrun|]. split; [exact Hrun'|].
  rewrite H1, H2. cbn [index index_xb metadata documents]. rewrite <- !app_assoc.
  do 6 (split; [reflexivity|]).
  change (processed_files s2)
    with (<[file_path := get_file_hash file_path]>
            (<[file_path := get_file_hash file_path]> (processed_files s))).
  change (processed_files s1)
    with (<[file_path := get_file_hash file_path]> (processed_files s)).
  apply pydict_insert_insert.
Qed.

End Ingestion_invariants.

(** ** The metadata of the chunks of a file *)

Section Chunk_metadata.
Context `{Engine} `{Files}.

Lemma extract_metadata_identity (file_path : string) (m : Meta) :
  extract_metadata_from_path file_path = Ok m ->
  m !! "id" = Some (VStr (substring 0 8 (md5_hexdigest file_path)))
  /\ m !! "file_path" = Some (VStr file_path).
Proof.
  unfold extract_metadata_from_path.
  destruct (find_documents (path_parts file_path) 0 =? -1).
  - intros [= <-]. split; now simplify_map_eq.
  - destruct (find_documents (path_parts file_path) 0 + 1 <? len (path_parts file_path)).
    + destruct (py_index (path_parts file_path) (find_documents (path_parts file_path) 0 + 1))
        as [c1|]; [|discriminate]. cbn [mbind result_bind].
      destruct (find_documents (path_parts file_path) 0 + 2 <? len (path_parts file_path)).
      * destruct (py_index (path_parts file_path)
                    (find_documents (path_parts file_path) 0 + 2)) as [c2|]; [|discriminate].
        cbn [mbind result_bind]. intros [= <-]. split; now simplify_map_eq.
      * cbn [mbind result_bind]. intros [= <-]. split; now simplify_map_eq.
    + cbn [mbind result_bind].
      destruct (find_documents (path_parts file_path) 0 + 2 <? len (path_parts file_path)).
      * destruct (py_index (path_parts file_path)
                    (find_documents (path_parts file_path) 0 + 2)) as [c2|]; [|discriminate].
        cbn [mbind result_bind]. intros [= <-]. split; now simplify_map_eq.
      * cbn [mbind result_bind]. intros [= <-]. split; now simplify_map_eq.
Qed.

Lemma seq_positions (n a : nat) :
  StronglySorted Z.lt (map Z.of_nat (seq a n))
  /\ Forall (fun i => Z.of_nat a <= i < Z.of_nat a + Z.of_nat n) (map Z.of_nat (seq a n)).
Proof.
  revert a. induction n as [|n IH]; intros a; cbn [seq map].
  - split; constructor.
  - destruct (IH (S a)) as [Hs Hb]. split.
    + constructor; [exact Hs|]. eapply List.Forall_impl; [|exact Hb]. cbn. intros i Hi. lia.
    + constructor; [lia|]. eapply List.Forall_impl; [|exact Hb]. cbn. intros i Hi. lia.
Qed.

(** The records of the stored chunks, for any numbering of the chunks. *)
Lemma stored_numbered (d total : Z) (skeleton : Meta) (ics : list (Z * string)) :
  map snd (stored d (map (fun ic => (snd ic,
                                     <["total_chunks" := VInt total]>
                                       (<["chunk_id" := VInt (fst ic)]> skeleton))) ics))
  = map (fun i => <["total_chunks" := VInt total]> (<["chunk_id" := VInt i]> skeleton))
        (map fst (List.filter (fun ic => bool_decide (is_Some (accepted d (snd ic)))) ics)).
Proof.
  induction ics as [|[i c] ics IH]; [reflexivity|].
  unfold stored in *. cbn [map List.filter fst snd].
  destruct (bool_decide (is_Some (accepted d c))); cbn [map fst snd]; now rewrite IH.
Qed.

Lemma kept_positions (keep : Z * string -> bool) (ics : list (Z * string)) :
  StronglySorted Z.lt (map fst ics) ->
  StronglySorted Z.lt (map fst (List.filter keep ics))
  /\ Forall (fun i => In i (map fst ics)) (map fst (List.filter keep ics)).
Proof.
  induction ics as [|[i c] ics IH]; intros Hs.
  - split; constructor.
  - cbn [map fst] in Hs. apply StronglySorted_inv in Hs as [Hs Hi].
    destruct (IH Hs) as (Hsorted & Hin). cbn [List.filter].
    assert (Hin' : Forall (fun j => In j (map fst ((i, c) :: ics)))
                          (map fst (List.filter keep ics))).
    { eapply List.Forall_impl; [|exact Hin]. cbn. auto. }
    destruct (keep (i, c)); [|split; assumption]. cbn [map fst]. split.
    + constructor; [exact Hsorted|].
      apply List.Forall_forall. intros j Hj.
      pose proof (proj1 (List.Forall_forall _ _) Hin j Hj) as Hj'.
      exact (proj1 (List.Forall_forall _ _) Hi j Hj').
    + constructor; [now left | exact Hin'].
Qed.

Lemma enumerate_positions {A} (l : list A) :
  map fst (enumerate l) = map Z.of_nat (seq 0 (List.length l)).
Proof.
  unfold enumerate. generalize 0%nat as a.
  induction l as [|x l IH]; intros a; [reflexivity|].
  cbn [List.length seq map combine fst]. now rewrite IH.
Qed.

(** X9: when [process_file] answers [True] for a file, the text extracted
    from the file has been cut into chunks by [chunk_text] with size 500
    and overlap 50, and the metadata records appended are those of the
    chunks that [add_document] stored, in the order of the chunks.  Each
    record carries the file's path, the file's id (the first eight
    characters of the MD5 digest of the path, so the chunks of one file
    share their id), the position of its chunk among the chunks of the file
    as [chunk_id], and as [total_chunks] the number of all chunks of the
    file, those that were not stored included. *)
Theorem process_file_chunk_metadata (file_path : string) (s s' : ST) :
  process_file file_path s = (Ok true, s') ->
  exists text chunks new,
    extracted_text file_path = Some text
    /\ chunk_text text 500 50 = Ok chunks
    /\ metadata (faiss_manager s') = metadata (faiss_manager s) ++ new
    /\ Forall2 (fun m i =>
                  m !! "chunk_id" = Some (VInt i)
                  /\ m !! "total_chunks" = Some (VInt (len chunks))
                  /\ m !! "id" = Some (VStr (substring 0 8 (md5_hexdigest file_path)))
                  /\ m !! "file_path" = Some (VStr file_path))
               new (stored_positions (index_d (index (faiss_manager s))) chunks)
    /\ StronglySorted Z.lt (stored_positions (index_d (index (faiss_manager s))) chunks)
    /\ Forall (fun i => 0 <= i < len chunks)
              (stored_positions (index_d (index (faiss_manager s))) chunks).
Proof.
  intros Hrun. destruct (extractable file_path) eqn:Hx.
  2:{ rewrite (process_file_false _ _ Hx) in Hrun. discriminate. }
  destruct (process_file_true file_path s Hx) as (text & meta & Htext & Hm & Hrun').
  rewrite Hrun' in Hrun. injection Hrun as <-.
  set (chunks := map (window (py_split text) 500)
                     (window_starts (len (py_split text)) (500 - 50))).
  assert (Hchunks : chunk_text text 500 50 = Ok chunks)
    by (apply chunk_text_windows; lia).
  change (metadata (faiss_manager _))
    with (metadata (fold_left add_one (chunk_entries meta chunks) (faiss_manager s))) at 1.
  rewrite fold_add_one_run. cbn [metadata].
  destruct (seq_positions (List.length chunks) 0) as [Hsorted Hbound].
  destruct (kept_positions
              (fun ic => bool_decide (is_Some (accepted (index_d (index (faiss_manager s)))
                                                        (snd ic))))
              (enumerate chunks)) as [Hs Hin].
  { now rewrite enumerate_positions. }
  exists text, chunks,
    (map snd (stored (index_d (index (faiss_manager s))) (chunk_entries meta chunks))).
  split; [exact Htext|]. split; [exact Hchunks|]. split; [reflexivity|].
  destruct (extract_metadata_identity _ _ Hm) as [Hid Hfp].
  split; [|split; [exact Hs|]].
  - unfold chunk_entries. rewrite stored_numbered. fold (stored_positions
      (index_d (index (faiss_manager s))) chunks). clear -Hid Hfp.
    induction (stored_positions (index_d (index (faiss_manager s))) chunks)
      as [|i ids IH]; cbn [map]; constructor; [|exact IH].
    repeat split; now simplify_map_eq.
  - eapply List.Forall_impl; [|exact Hin]. cbn. intros i Hi.
    rewrite enumerate_positions in Hi.
    pose proof (proj1 (List.Forall_forall _ _) Hbound i Hi) as Hb. cbv beta in Hb.
    unfold len. lia.
Qed.

End Chunk_metadata.

(** ** The result of the hybrid search *)

Section Topic_result.
Context `{Engine}.

Lemma search_above_threshold (fm : FAISSManager Vec) (query : string) (top_k : Z)
    (thr : Q) (hits : list Hit) :
  search fm query top_k thr = Ok hits ->
  Forall (fun h => score_ge (hit_similarity h) thr = true /\ hit_match_type h = None) hits.
Proof.
  unfold search, try_except, search_body.
  destruct (ntotal (index fm) =? 0); [intros [= <-]; constructor|].
  unfold mbind, result_bind.
  destruct (encode query) as [q|]; [|intros [= <-]; constructor].
  destruct (index_search (index fm) (normalize_L2 q) top_k) as [raw|];
    [|intros [= <-]; constructor].
  destruct (for_fold_r raw (search_step fm thr) []) as [hits'|] eqn:Hloop;
    [|intros [= <-]; constructor].
  intros [= <-]. apply search_loop_ok in Hloop as (new & Hnew & HF).
  cbn in Hnew. subst new.
  assert (Hk : Forall (fun si => keeps fm thr si = true) (List.filter (keeps fm thr) raw)).
  { apply List.Forall_forall. intros si Hsi. now apply filter_In in Hsi. }
  revert Hk. induction HF as [|h si hits pairs Hh _ IH]; intros Hk; [constructor|].
  inversion Hk as [|? ? Hsi Hrest]; subst. constructor; [|now apply IH].
  destruct Hh as (_ & _ & Hs & Ht). split; [|exact Ht]. rewrite Hs.
  unfold keeps in Hsi. now apply andb_true_iff in Hsi as [Hle _].
Qed.

(** At the threshold 0.6 of [search_by_topic] the test in float32 lets
    nothing below 0.6 pass: the float32 nearest to 0.6 is above 0.6. *)
Lemma score_ge_content_threshold (score : Q) :
  score_ge score (6 # 10) = true -> Qle (6 # 10) score.
Proof.
  unfold score_ge. set (t := float32 (6 # 10)). vm_compute in t. subst t.
  intros Hle. apply Qle_bool_iff in Hle. eapply Qle_trans; [|exact Hle].
  unfold Qle. cbn. lia.
Qed.

Lemma by_similarity_trans (a b c : Hit) :
  by_similarity a b -> by_similarity b c -> by_similarity a c.
Proof. unfold by_similarity. intros Hab Hbc. eapply Qle_trans; eassumption. Qed.

Lemma insert_desc_sorted (x : Hit) (l : list Hit) :
  StronglySorted by_similarity l -> StronglySorted by_similarity (insert_desc x l).
Proof.
  induction 1 as [|y l Hl IH Hy]; cbn [insert_desc].
  - constructor; constructor.
  - destruct (Qle_bool (hit_similarity y) (hit_similarity x)) eqn:E.
    + apply Qle_bool_iff in E. constructor; [now constructor|].
      constructor; [exact E|].
      eapply List.Forall_impl; [|exact Hy]. intros z Hz.
      exact (by_similarity_trans x y z E Hz).
    + assert (Hxy : by_similarity y x).
      { unfold by_similarity. destruct (Qlt_le_dec (hit_similarity x) (hit_similarity y))
          as [Hlt|Hle]; [now apply Qlt_le_weak|].
        apply Qle_bool_iff in Hle. congruence. }
      constructor; [exact IH|].
      apply List.Forall_forall. intros z Hz. apply insert_desc_In in Hz as [->|Hz];
        [exact Hxy | exact (proj1 (List.Forall_forall _ _) Hy z Hz)].
Qed.

Lemma sorted_desc_sorted (l : list Hit) : StronglySorted by_similarity (sorted_desc l).
Proof.
  unfold sorted_desc. induction l as [|x l IH]; [constructor|].
  cbn [fold_right]. now apply insert_desc_sorted.
Qed.

Lemma first_occurrences_sorted (l : list Hit) :
  StronglySorted by_similarity l ->
  forall seen, StronglySorted by_similarity (first_occurrences seen l).
Proof.
  induction 1 as [|y l Hl IH Hy]; intros seen; cbn [first_occurrences]; [constructor|].
  destruct (bool_decide (match_id y ∈ seen)); [apply IH|].
  constructor; [apply IH|]. apply List.Forall_forall. intros z Hz.
  apply first_occurrences_In in Hz as [Hz _].
  exact (proj1 (List.Forall_forall _ _) Hy z Hz).
Qed.

Lemma py_slice_to_firstn {A} (l : list A) (k : Z) :
  py_slice_to l k = firstn (Z.to_nat (prefix_length (len l) k)) l.
Proof.
  unfold py_slice_to, py_slice, prefix_length. change (clamp_bound (len l) 0) with (Z.min 0 (len l)).
  pose proof (len_nonneg l). rewrite (Z.min_l 0) by lia. unfold clamp_bound.
  rewrite Z.sub_0_r. reflexivity.
Qed.

Lemma py_slice_to_length {A} (l : list A) (k : Z) :
  len (py_slice_to l k) = prefix_length (len l) k.
Proof.
  rewrite py_slice_to_firstn. unfold len at 1. rewrite length_firstn.
  unfold prefix_length. pose proof (len_nonneg l). unfold len in *.
  destruct (Z.ltb_spec k 0); lia.
Qed.

Lemma firstn_sorted {A} (R : A -> A -> Prop) (n : nat) (l : list A) :
  StronglySorted R l -> StronglySorted R (firstn n l).
Proof.
  intros Hs. revert n. induction Hs as [|x l Hl IH Hx]; intros [|n]; cbn [firstn];
    try constructor.
  - apply IH.
  - now apply Forall_take.
Qed.

Lemma firstn_NoDup_map {A B} (f : A -> B) (n : nat) (l : list A) :
  List.NoDup (map f l) -> List.NoDup (map f (firstn n l)).
Proof.
  intros Hn. rewrite <- (firstn_skipn n l), map_app in Hn.
  now apply NoDup_app_remove_r in Hn.
Qed.

(** The matches of a successful hybrid search. *)
Lemma search_by_topic_body_shape (fm : FAISSManager Vec) (topic : string) (top_k : Z)
    (r : TopicResult) :
  search_by_topic_body fm topic top_k = Ok r ->
  exists mm unique_matches,
    metadata_pass fm topic = Ok mm
    /\ has_exact_match r = (0 <? len mm)
    /\ matches r = py_slice_to unique_matches top_k
    /\ total_found r = len unique_matches
    /\ List.NoDup (map match_id unique_matches)
    /\ StronglySorted by_similarity unique_matches
    /\ Forall tagged unique_matches
    /\ unique_matches = unique_matches_of fm topic top_k.
Proof.
  intros Hbody. unfold unique_matches_of. rewrite Hbody. revert Hbody.
  unfold search_by_topic_body. unfold mbind at 1, result_bind at 1.
  destruct (metadata_pass fm topic) as [mm|] eqn:Hmm; [|discriminate].
  unfold mbind at 1, result_bind at 1.
  destruct (search fm topic top_k (6 # 10)) as [cm|] eqn:Hcm; [|discriminate].
  cbv zeta. unfold mbind at 1, result_bind at 1.
  destruct (for_fold_r (sorted_desc (mm ++ map tag_content cm)) dedup_step (∅, []))
    as [[seen unique_matches]|] eqn:Hloop; [|discriminate].
  intros [= <-]. apply dedup_loop_run in Hloop. cbn in Hloop. subst unique_matches.
  exists mm, (first_occurrences ∅ (sorted_desc (mm ++ map tag_content cm))).
  split; [reflexivity|]. split; [reflexivity|]. split; [reflexivity|].
  split; [reflexivity|]. split; [apply first_occurrences_NoDup|].
  split; [apply first_occurrences_sorted, sorted_desc_sorted|].
  split; [|reflexivity].
  apply List.Forall_forall. intros h Hh.
  apply first_occurrences_In in Hh as [Hh _]. apply sorted_desc_In in Hh.
  apply in_app_iff in Hh as [Hh|Hh].
  - left. destruct (proj1 (List.Forall_forall _ _) (metadata_pass_hits _ _ _ Hmm) h Hh).
    auto.
  - right. apply in_map_iff in Hh as (c & <- & Hc).
    destruct (proj1 (List.Forall_forall _ _) (search_above_threshold _ _ _ _ _ Hcm) c Hc)
      as [Hpass _].
    split; [reflexivity | now apply score_ge_content_threshold].
Qed.

Lemma firstn_clamped {A} (l : list A) (k : nat) :
  firstn (Nat.min k (List.length l)) l = firstn k l.
Proof. now rewrite <- firstn_firstn, firstn_all. Qed.

(** X10: whatever the index holds, [search_by_topic] returns a result
    whose [total_found] is the number of the deduplicated matches of the
    call; among these no two carry the same id, they are in descending
    order of similarity, and each is either tagged [metadata] with
    similarity 0.95 or tagged [content] with a similarity of at least 0.6.
    For [top_k >= 0] the [matches] are the first [top_k] of them; a
    negative [top_k] is not refused: the [matches] are then all of them
    but the last [-top_k].  [has_exact_match] is set only when the
    metadata pass found a match. *)
Theorem search_by_topic_result_shape (fm : FAISSManager Vec) (topic : string) (top_k : Z) :
  exists r,
    search_by_topic fm topic top_k = Ok r
    /\ total_found r = len (unique_matches_of fm topic top_k)
    /\ (0 <= top_k ->
        matches r = firstn (Z.to_nat top_k) (unique_matches_of fm topic top_k))
    /\ (top_k < 0 ->
        matches r = firstn (List.length (unique_matches_of fm topic top_k)
                            - Z.to_nat (- top_k))
                           (unique_matches_of fm topic top_k))
    /\ List.NoDup (map match_id (unique_matches_of fm topic top_k))
    /\ StronglySorted by_similarity (unique_matches_of fm topic top_k)
    /\ Forall tagged (unique_matches_of fm topic top_k)
    /\ (has_exact_match r = true -> exists m mm, metadata_pass fm topic = Ok (m :: mm)).
Proof.
  unfold search_by_topic, try_except.
  destruct (search_by_topic_body fm topic top_k) as [r|e] eqn:Hbody.
  - exists r. split; [reflexivity|].
    apply search_by_topic_body_shape in Hbody
      as (mm & u & Hmm & Hex & Hm & Ht & Hnd & Hs & Htag & <-).
    rewrite Hm, Ht, py_slice_to_firstn. unfold prefix_length.
    pose proof (len_nonneg u) as Hu. unfold len in *.
    split; [reflexivity|]. split; [|split].
    + intros Hk. destruct (Z.ltb_spec top_k 0); [lia|].
      rewrite <- (firstn_clamped u (Z.to_nat top_k)). f_equal. lia.
    + intros Hk. destruct (Z.ltb_spec top_k 0); [|lia]. f_equal. lia.
    + split; [exact Hnd|]. split; [exact Hs|]. split; [exact Htag|].
      rewrite Hex. intros Hpos. destruct mm as [|m mm]; [discriminate|]. eauto.
  - exists empty_result. split; [reflexivity|].
    unfold unique_matches_of. rewrite Hbody.
    unfold empty_result. cbn [matches total_found has_exact_match List.length].
    split; [reflexivity|]. split; [intros _; now rewrite firstn_nil|].
    split; [intros _; now rewrite firstn_nil|].
    split; [constructor|]. split; [constructor|]. split; [constructor | discriminate].
Qed.

Lemma py_index_resolves {A} (l : list A) (i : Z) :
  if resolves l i then exists x, py_index l i = Ok x
  else py_index l i = Raise IndexError.
Proof.
  unfold resolves, py_index. pose proof (len_nonneg l) as Hl.
  destruct (Z.leb_spec (- len l) i); destruct (Z.ltb_spec i (len l)); cbn [andb].
  - destruct (Z.ltb_spec i 0).
    + destruct (Z.ltb_spec (i + len l) 0); [lia|].
      destruct (Z.leb_spec (len l) (i + len l)); [lia|]. cbn [orb].
      destruct (nth_error l (Z.to_nat (i + len l))) eqn:E; [eauto|].
      apply nth_error_None in E. unfold len in *. lia.
    + destruct (Z.ltb_spec i 0); [lia|].
      destruct (Z.leb_spec (len l) i); [lia|]. cbn [orb].
      destruct (nth_error l (Z.to_nat i)) eqn:E; [eauto|].
      apply nth_error_None in E. unfold len in *. lia.
  - destruct (Z.ltb_spec i 0); [lia|].
    destruct (Z.ltb_spec i 0); [lia|].
    destruct (Z.leb_spec (len l) i); [|lia]. reflexivity.
  - destruct (Z.ltb_spec i 0); [|lia].
    destruct (Z.ltb_spec (i + len l) 0); [|lia]. reflexivity.
  - lia.
Qed.

Lemma search_step_cases (fm : FAISSManager Vec) (thr : Q) (acc : list Hit) (si : Q * Z) :
  if keeps fm thr si then
    if resolves (documents fm) (snd si) && resolves (metadata fm) (snd si)
    then exists h, search_step fm thr acc si = Ok (acc ++ [h]) /\ hit_at fm h si
    else search_step fm thr acc si = Raise IndexError
  else search_step fm thr acc si = Ok acc.
Proof.
  destruct si as [score idx]. unfold keeps, search_step. cbn [fst snd].
  destruct (score_ge score thr && (idx <? len (metadata fm))); [|reflexivity].
  pose proof (py_index_resolves (documents fm) idx) as Hd.
  pose proof (py_index_resolves (metadata fm) idx) as Hm.
  destruct (resolves (documents fm) idx); cbn [andb].
  - destruct Hd as [c Hc]. rewrite Hc. cbn [mbind result_bind].
    destruct (resolves (metadata fm) idx).
    + destruct Hm as [m Hm]. rewrite Hm. cbn [mbind result_bind].
      exists (mkHit c m score None). split; [reflexivity|].
      unfold hit_at. cbn [fst snd hit_content hit_metadata hit_similarity hit_match_type].
      rewrite Hc, Hm. repeat split.
    + rewrite Hm. reflexivity.
  - rewrite Hd. reflexivity.
Qed.

Lemma search_loop_all_or_nothing (fm : FAISSManager Vec) (thr : Q) (raw : list (Q * Z)) :
  forall acc,
    if forallb (fun si => resolves (documents fm) (snd si)
                          && resolves (metadata fm) (snd si))
               (List.filter (keeps fm thr) raw)
    then exists new,
           for_fold_r raw (search_step fm thr) acc = Ok (acc ++ new)
           /\ Forall2 (hit_at fm) new (List.filter (keeps fm thr) raw)
    else for_fold_r raw (search_step fm thr) acc = Raise IndexError.
Proof.
  induction raw as [|si raw IH]; intros acc.
  - cbn. exists []. rewrite app_nil_r. split; [reflexivity | constructor].
  - cbn [List.filter for_fold_r].
    pose proof (search_step_cases fm thr acc si) as Hstep.
    destruct (keeps fm thr si).
    + cbn [forallb].
      destruct (resolves (documents fm) (snd si) && resolves (metadata fm) (snd si)).
      * destruct Hstep as (h & Hrun & Hh). rewrite Hrun. cbn [mbind result_bind andb].
        specialize (IH (acc ++ [h])).
        destruct (forallb _ _).
        -- destruct IH as (new & Hrest & HF). exists (h :: new).
           rewrite Hrest, <- app_assoc. split; [reflexivity|]. now constructor.
        -- exact IH.
      * rewrite Hstep. reflexivity.
    + rewrite Hstep. cbn [mbind result_bind]. apply IH.
Qed.

(** X11: [search] gives all or nothing.  When every pair of the FAISS
    answer that passes the threshold and the position test points at an
    existing text and an existing metadata record, the result has one entry
    for each such pair, in the order of the answer; when one of them does
    not, as can happen when the texts or the records loaded from disk are
    fewer than the vectors, the whole result is empty.  With no metadata
    records at all the result is always empty. *)
Theorem search_all_or_nothing (fm : FAISSManager Vec) (query : string) (top_k : Z)
    (thr : Q) (q : Vec) (raw : list (Q * Z)) :
  ntotal (index fm) <> 0 ->
  encode query = Ok q ->
  index_search (index fm) (normalize_L2 q) top_k = Ok raw ->
  (Forall (fun si => resolves (documents fm) (snd si) = true
                     /\ resolves (metadata fm) (snd si) = true)
          (List.filter (keeps fm thr) raw) ->
   exists hits,
     search fm query top_k thr = Ok hits
     /\ Forall2 (hit_at fm) hits (List.filter (keeps fm thr) raw))
  /\ (~ Forall (fun si => resolves (documents fm) (snd si) = true
                          /\ resolves (metadata fm) (snd si) = true)
               (List.filter (keeps fm thr) raw) ->
      search fm query top_k thr = Ok [])
  /\ (metadata fm = [] -> search fm query top_k thr = Ok []).
Proof.
  intros Hn Hq Hraw.
  assert (Hsearch : search fm query top_k thr
                    = try_except (for_fold_r raw (search_step fm thr) []) (fun _ => Ok [])).
  { unfold search, search_body. destruct (Z.eqb_spec (ntotal (index fm)) 0); [contradiction|].
    rewrite Hq. cbn [mbind result_bind]. now rewrite Hraw. }
  rewrite Hsearch. clear Hsearch.
  pose proof (search_loop_all_or_nothing fm thr raw []) as Hloop.
  assert (Hiff : forallb (fun si => resolves (documents fm) (snd si)
                                    && resolves (metadata fm) (snd si))
                         (List.filter (keeps fm thr) raw) = true
                 <-> Forall (fun si => resolves (documents fm) (snd si) = true
                                       /\ resolves (metadata fm) (snd si) = true)
                            (List.filter (keeps fm thr) raw)).
  { rewrite forallb_forall, List.Forall_forall. split; intros Hall si Hsi.
    - now apply andb_true_iff, Hall.
    - now apply andb_true_iff, Hall. }
  destruct (forallb _ _) eqn:Hall.
  - destruct Hloop as (new & Hrun & HF). cbn in Hrun. split; [|split].
    + intros _. exists new. now rewrite Hrun.
    + intros Hnot. exfalso. apply Hnot, Hiff. reflexivity.
    + intros Hmeta. rewrite Hrun. cbn. f_equal.
      destruct HF as [|h si hits pairs Hh _]; [reflexivity|]. exfalso.
      destruct Hh as (_ & Hm & _). rewrite Hmeta in Hm.
      pose proof (py_index_resolves (@nil Meta) (snd si)) as Hr.
      unfold resolves in Hr. change (len (@nil Meta)) with 0 in Hr.
      destruct (Z.leb_spec (- 0) (snd si)); destruct (Z.ltb_spec (snd si) 0);
        cbn [andb] in Hr; try lia; congruence.
  - rewrite Hloop. split; [|split]; [|reflexivity|reflexivity].
    intros Hf. apply Hiff in Hf. discriminate.
Qed.

End Topic_result.

(** ** The metadata pass as a selection *)

Section Metadata_selection.
Context `{Engine}.

Lemma metadata_step_selects (fm : FAISSManager Vec) (topic : string) (acc : list Hit)
    (i : Z) (m : Meta) (d : string) :
  title_is_text m -> topics_iterable m ->
  py_index (documents fm) i = Ok d ->
  metadata_step fm topic acc (i, m)
  = Ok (if names_topic topic m then acc ++ [metadata_hit (d, m)] else acc).
Proof.
  intros Ht Hi Hd.
  unfold metadata_step, title_lower, names_topic, title_is_text, topics_iterable in *.
  destruct (m !! "title") as [[t|n|l]|]; try contradiction.
  - cbn [mbind result_bind].
    destruct (contains (lower topic) (lower t)); cbn [orb mbind result_bind].
    + now rewrite Hd.
    + destruct (m !! "topics") as [[ts|n|l]|]; try contradiction;
        cbn [default from_option id any_tag mbind result_bind existsb];
        try match goal with |- context [if ?b then _ else _] => destruct b end;
        first [reflexivity | now rewrite Hd].
  - cbn [mbind result_bind].
    destruct (contains (lower topic) (lower "")); cbn [orb mbind result_bind].
    + now rewrite Hd.
    + destruct (m !! "topics") as [[ts|n|l]|]; try contradiction;
        cbn [default from_option id any_tag mbind result_bind existsb];
        try match goal with |- context [if ?b then _ else _] => destruct b end;
        first [reflexivity | now rewrite Hd].
Qed.

Lemma metadata_loop_selects (fm : FAISSManager Vec) (topic : string) :
  forall (ms : list Meta) (a : nat) (ds : list string) (acc : list Hit),
    Forall title_is_text ms -> Forall topics_iterable ms ->
    (forall k d, nth_error ds k = Some d ->
                 py_index (documents fm) (Z.of_nat (a + k)) = Ok d) ->
    (List.length ms <= List.length ds)%nat ->
    for_fold_r (combine (map Z.of_nat (seq a (List.length ms))) ms)
               (metadata_step fm topic) acc
    = Ok (acc ++ map metadata_hit
                     (List.filter (fun cm => names_topic topic (snd cm)) (combine ds ms))).
Proof.
  induction ms as [|m ms IH]; intros a ds acc Ht Hi Hd Hlen.
  - destruct ds; cbn; now rewrite app_nil_r.
  - destruct ds as [|d ds]; [cbn in Hlen; lia|].
    inversion Ht as [|? ? Htm Htms]; inversion Hi as [|? ? Him Hims]; subst.
    cbn [List.length seq map combine for_fold_r List.filter snd].
    rewrite (metadata_step_selects fm topic acc _ m d Htm Him).
    2:{ specialize (Hd 0%nat d eq_refl). now rewrite Nat.add_0_r in Hd. }
    cbn [mbind result_bind].
    assert (Hd' : forall k d', nth_error ds k = Some d' ->
                               py_index (documents fm) (Z.of_nat (S a + k)) = Ok d').
    { intros k d' Hk. specialize (Hd (S k) d' Hk).
      now rewrite Nat.add_succ_r in Hd. }
    assert (Hlen' : (List.length ms <= List.length ds)%nat) by (cbn in Hlen; lia).
    destruct (names_topic topic m).
    + rewrite (IH (S a) ds _ Htms Hims Hd' Hlen').
      cbn [map]. now rewrite <- app_assoc.
    + apply (IH (S a) ds _ Htms Hims Hd' Hlen').
Qed.

Lemma contains_empty (hay : string) : contains "" hay = true.
Proof. destruct hay; reflexivity. Qed.

Lemma filter_all {A} (f : A -> bool) (l : list A) :
  (forall x, f x = true) -> List.filter f l = l.
Proof.
  intros Hf. induction l as [|x l IH]; [reflexivity|].
  cbn [List.filter]. now rewrite Hf, IH.
Qed.

(** X12: on a store whose records have a text (or no) title and iterable
    topics and whose texts are at least as many as its records, the
    metadata pass of [search_by_topic] succeeds and selects, in the order of
    the store, exactly the records whose lower-cased title or one of whose
    lower-cased topics contains the lower-cased topic, each paired with the
    text at the same position and scored 0.95.  The empty topic selects
    every record. *)
Theorem metadata_pass_selects (fm : FAISSManager Vec) (topic : string) :
  Forall title_is_text (metadata fm) ->
  Forall topics_iterable (metadata fm) ->
  len (metadata fm) <= len (documents fm) ->
  metadata_pass fm topic
  = Ok (map metadata_hit
            (List.filter (fun cm => names_topic topic (snd cm))
                         (combine (documents fm) (metadata fm))))
  /\ (topic = "" ->
      metadata_pass fm topic
      = Ok (map metadata_hit (combine (documents fm) (metadata fm)))).
Proof.
  intros Ht Hi Hlen.
  assert (Hrun : metadata_pass fm topic
                 = Ok (map metadata_hit
                           (List.filter (fun cm => names_topic topic (snd cm))
                                        (combine (documents fm) (metadata fm))))).
  { unfold metadata_pass, enumerate.
    rewrite (metadata_loop_selects fm topic (metadata fm) 0 (documents fm) [] Ht Hi);
      [reflexivity | | unfold len in Hlen; lia].
    intros k d Hk. exact (py_index_app_r [] (documents fm) k d Hk). }
  split; [exact Hrun|]. intros ->. rewrite Hrun. f_equal. f_equal.
  apply filter_all. intros [d m]. unfold names_topic.
  change (lower "") with "". now rewrite contains_empty.
Qed.

End Metadata_selection.

(** ** The best match *)

Section Best_match.
Context `{Engine}.

Lemma search_by_topic_sorted_prefix (fm : FAISSManager Vec) (topic : string) (top_k : Z) :
  exists r,
    search_by_topic fm topic top_k = Ok r
    /\ StronglySorted by_similarity (matches r)
    /\ (top_k = 0 -> matches r = []).
Proof.
  unfold search_by_topic, try_except.
  destruct (search_by_topic_body fm topic top_k) as [r|e] eqn:Hbody.
  - exists r. split; [reflexivity|].
    apply search_by_topic_body_shape in Hbody
      as (mm & u & _ & _ & Hm & _ & _ & Hs & _).
    rewrite Hm, py_slice_to_firstn. split; [now apply firstn_sorted|].
    intros ->. unfold prefix_length. cbn [Z.ltb Z.compare].
    pose proof (len_nonneg u). now rewrite Z.min_l by lia.
  - exists empty_result. split; [reflexivity|]. unfold empty_result. cbn [matches].
    split; [constructor | reflexivity].
Qed.

(** X13: [search_documents] never raises.  It returns the text of a match
    of [search_by_topic] that no other returned match outscores, and [None]
    exactly when [search_by_topic] returns no match; with [top_k = 0] it
    always returns [None]. *)
Theorem search_documents_best (s : ST) (query : string) (top_k : Z) :
  exists o r,
    search_documents s query top_k = Ok o
    /\ search_by_topic (faiss_manager s) query top_k = Ok r
    /\ (forall c, o = Some c ->
          exists best,
            In best (matches r) /\ hit_content best = c
            /\ Forall (by_similarity best) (matches r))
    /\ (o = None <-> matches r = [])
    /\ (top_k = 0 -> o = None).
Proof.
  destruct (search_by_topic_sorted_prefix (faiss_manager s) query top_k)
    as (r & Hr & Hs & Hz).
  unfold search_documents. rewrite Hr. cbn [mbind result_bind].
  destruct (matches r) as [|best rest] eqn:Hm.
  - exists None, r. rewrite Hm. split; [reflexivity|]. split; [reflexivity|].
    split; [discriminate|]. split; [tauto|]. reflexivity.
  - exists (Some (hit_content best)), r. rewrite Hm.
    split; [reflexivity|]. split; [reflexivity|]. split; [|split].
    + intros c [= <-]. exists best. split; [apply in_eq|]. split; [reflexivity|].
      inversion Hs as [|? ? _ Hall]; subst.
      constructor; [apply Qle_refl | exact Hall].
    + split; discriminate.
    + intros Hk. specialize (Hz Hk). discriminate.
Qed.

End Best_match.

(** ** The summary and the single upload *)

Section Callers_properties.
Context `{Engine} `{Files}.

Lemma records_of_nonneg (c : pyval) (ms : list Meta) : 0 <= records_of c ms.
Proof. apply len_nonneg. Qed.

Lemma records_of_cons (c : pyval) (m : Meta) (ms : list Meta) :
  records_of c (m :: ms)
  = (if bool_decide (course_of m = c) then 1 else 0) + records_of c ms.
Proof.
  unfold records_of. cbn [List.filter]. destruct (bool_decide (course_of m = c)).
  - unfold len. cbn [List.length]. lia.
  - lia.
Qed.

Lemma count_course_step (acc : gmap pyval Z) (m : Meta) :
  count_course acc m
  = if is_list (course_of m) then Raise TypeError
    else Ok (<[course_of m := default 0 (acc !! course_of m) + 1]> acc).
Proof.
  unfold count_course, course_of.
  destruct (default (VStr "Unknown") (m !! "course")); reflexivity.
Qed.

Lemma count_course_loop (ms : list Meta) :
  Forall (fun m => is_list (course_of m) = false) ms ->
  forall acc,
    exists courses,
      for_fold_r ms count_course acc = Ok courses
      /\ forall c, courses !! c
                   = if records_of c ms =? 0 then acc !! c
                     else Some (default 0 (acc !! c) + records_of c ms).
Proof.
  induction 1 as [|m ms Hm _ IH]; intros acc.
  - exists acc. split; [reflexivity|]. intros c. reflexivity.
  - cbn [for_fold_r]. rewrite count_course_step, Hm. cbn [mbind result_bind].
    destruct (IH (<[course_of m := default 0 (acc !! course_of m) + 1]> acc))
      as (courses & Hrun & Hc).
    exists courses. split; [exact Hrun|]. intros c. rewrite Hc, records_of_cons.
    pose proof (records_of_nonneg c ms) as Hn.
    destruct (bool_decide_reflect (course_of m = c)) as [->|Hne].
    + rewrite lookup_insert_eq. cbn [default from_option id].
      destruct (Z.eqb_spec (records_of c ms) 0) as [->|_];
        destruct (Z.eqb_spec (1 + records_of c ms) 0); try lia; f_equal; lia.
    + rewrite lookup_insert_ne by exact Hne. reflexivity.
Qed.

Lemma count_course_raises (ms : list Meta) :
  Exists (fun m => is_list (course_of m) = true) ms ->
  forall acc, for_fold_r ms count_course acc = Raise TypeError.
Proof.
  induction ms as [|m ms IH]; intros Hex acc; [inversion Hex|].
  cbn [for_fold_r]. rewrite count_course_step.
  destruct (is_list (course_of m)) eqn:E; [reflexivity|]. cbn [mbind result_bind].
  apply IH. inversion Hex as [? ? Hm|? ? Hrest]; subst; [congruence | exact Hrest].
Qed.

(** X16: the summary counts the records course by course.  When no record
    has a list as its course, [get_database_summary] returns, and its
    [courses] table holds for every course the number of metadata records
    (chunks, not files) of that course, a record without a course counting
    for [Unknown], and no entry for a course without records; the totals
    are the number of vectors, of records and of registered files.  A
    record whose course is a list makes the call fail with [TypeError]. *)
Theorem get_database_summary_counts (index_file_kb : string) (s : ST) :
  (Forall (fun m => is_list (course_of m) = false) (metadata (faiss_manager s)) ->
   exists summary,
     get_database_summary index_file_kb s = Ok summary
     /\ total_documents summary = ntotal (index (faiss_manager s))
     /\ total_metadata summary = len (metadata (faiss_manager s))
     /\ summary_processed_files summary = Z.of_nat (size (processed_files s))
     /\ forall c,
          courses summary !! c
          = if records_of c (metadata (faiss_manager s)) =? 0 then None
            else Some (records_of c (metadata (faiss_manager s))))
  /\ (Exists (fun m => is_list (course_of m) = true) (metadata (faiss_manager s)) ->
      get_database_summary index_file_kb s = Raise TypeError).
Proof.
  unfold get_database_summary, get_database_stats. split.
  - intros Hall. destruct (count_course_loop _ Hall ∅) as (cs & Hrun & Hc).
    rewrite Hrun. cbn [mbind result_bind]. eexists. split; [reflexivity|].
    cbn [total_documents total_metadata summary_processed_files courses].
    split; [reflexivity|]. split; [reflexivity|]. split; [reflexivity|].
    intros c. rewrite Hc, lookup_empty. cbn [default from_option id].
    destruct (records_of c (metadata (faiss_manager s)) =? 0); reflexivity.
  - intros Hex. now rewrite (count_course_raises _ Hex).
Qed.

Lemma extractable_supported (file_path : string) :
  extractable file_path = true ->
  is_empty file_path = false
  /\ endswith (lower file_path) ".pdf" || endswith (lower file_path) ".docx" = true.
Proof.
  unfold extractable, extracted_text. intros Hx. split.
  - destruct file_path; [discriminate | reflexivity].
  - destruct (endswith (lower file_path) ".pdf"); [reflexivity|].
    destruct (endswith (lower file_path) ".docx"); [reflexivity | discriminate].
Qed.

(** X17: [add_single_document] never raises.  When the path typed (white
    space at both ends removed) names an existing file from which text can
    be extracted, the index is extended, the file's fingerprint is entered
    in the registry, whether or not the file was registered before, and the
    index, the metadata, the texts and the lines of the registry are
    written: a processor started on that disk has the same index, metadata
    and texts, and is in the same state when every registered path and
    hash survives its line.  In every other case (nothing typed, no such
    file, an unsupported type, no text) the store and the disk are left as
    they were. *)
Theorem add_single_document_effect (typed : string) (file_exists : string -> bool)
    (s : ST) :
  exists s',
    add_single_document typed file_exists s = (Ok tt, s')
    /\ if file_exists (strip typed) && extractable (strip typed)
       then extends (faiss_manager s) (faiss_manager s')
            /\ processed_files s'
               = <[strip typed := get_file_hash (strip typed)]> (processed_files s)
            /\ documents_folder s' = documents_folder s
            /\ disk s' = saved_disk s'
            /\ faiss_manager (open_store (documents_folder s') (disk s'))
               = faiss_manager s'
            /\ (restorable (processed_files s') ->
                open_store (documents_folder s') (disk s') = s')
       else s' = s.
Proof.
  unfold add_single_document. cbv zeta.
  destruct (is_empty (strip typed)) eqn:He.
  { exists s. split; [reflexivity|].
    destruct (extractable (strip typed)) eqn:Hx; [|now rewrite andb_false_r].
    apply extractable_supported in Hx as [Hne _]. congruence. }
  destruct (file_exists (strip typed)); cbn [negb andb];
    [|exists s; split; reflexivity].
  destruct (extractable (strip typed)) eqn:Hx.
  - destruct (extractable_supported _ Hx) as [_ Hsup]. rewrite Hsup. cbn [negb].
    destruct (process_file_true (strip typed) s Hx) as (text & meta & _ & _ & Hrun).
    unfold try_except_M. unfold mbind at 1, M_bind at 1. rewrite Hrun.
    rewrite saves_exact.
    match goal with |- context [(Ok tt, ?st)] => set (s' := st) end.
    exists s'. split; [reflexivity|].
    destruct (open_store_restores s' eq_refl) as (Hfm & _ & Hall).
    split; [apply fold_add_one_extends|]. split; [reflexivity|]. split; [reflexivity|].
    split; [reflexivity|]. split; assumption.
  - destruct (negb _); [exists s; split; reflexivity|].
    unfold try_except_M. unfold mbind at 1, M_bind at 1.
    rewrite (process_file_false _ s Hx). exists s. split; reflexivity.
Qed.

End Callers_properties.

(** ** A database directory without its metadata file *)

Section Lost_metadata.
Context `{Engine}.

Lemma search_empty_metadata (fm : FAISSManager Vec) (query : string) (top_k : Z) (thr : Q) :
  metadata fm = [] -> search fm query top_k thr = Ok [].
Proof.
  intros Hmeta. unfold search, search_body.
  destruct (ntotal (index fm) =? 0); [reflexivity|].
  destruct (encode query) as [q|e]; [|reflexivity]. cbn [mbind result_bind].
  destruct (index_search (index fm) (normalize_L2 q) top_k) as [raw|e]; [|reflexivity].
  cbn [mbind result_bind].
  pose proof (search_loop_all_or_nothing fm thr raw []) as Hloop.
  destruct (forallb _ _); [|now rewrite Hloop].
  destruct Hloop as (new & Hrun & HF). rewrite Hrun. cbn [app try_except]. f_equal.
  destruct HF as [|h si hits pairs Hh _]; [reflexivity|]. exfalso.
  destruct Hh as (_ & Hm & _). rewrite Hmeta in Hm.
  pose proof (py_index_resolves (@nil Meta) (snd si)) as Hr.
  unfold resolves in Hr. change (len (@nil Meta)) with 0 in Hr.
  destruct (Z.leb_spec (- 0) (snd si)); destruct (Z.ltb_spec (snd si) 0);
    cbn [andb] in Hr; try lia; congruence.
Qed.

Lemma search_by_topic_empty_metadata (fm : FAISSManager Vec) (topic : string) (top_k : Z) :
  metadata fm = [] -> search_by_topic fm topic top_k = Ok empty_result.
Proof.
  intros Hmeta. unfold search_by_topic, search_by_topic_body, metadata_pass.
  rewrite Hmeta. change (enumerate (@nil Meta)) with (@nil (Z * Meta)).
  cbn [for_fold_r]. unfold mbind at 1, result_bind at 1.
  rewrite (search_empty_metadata fm topic top_k (6 # 10) Hmeta).
  cbn. unfold empty_result. f_equal. f_equal.
  rewrite py_slice_to_firstn. apply firstn_nil.
Qed.

(** X19: [load_database] does not check that the three artifacts belong
    together.  A [DocumentProcessor] started on a database directory whose
    metadata file is missing has no metadata records.  Its index is the one
    of the index file when that file and the documents file can be read,
    and a new empty index when the index file is missing or when reading
    the index file or the documents file fails, since the handler of
    [load_database] then starts from an empty manager.  In each case
    nothing can be found: [search] returns the empty list and
    [search_by_topic] the empty result for every query, however many
    vectors the index holds. *)
Theorem lost_metadata_file_hides_index (folder : string) (d : Disk Vec) :
  metadata_file d = None ->
  index (faiss_manager (open_store folder d))
  = (if damaged (index_file d) || damaged (documents_file d)
     then IndexFlatIP embedding_dim
     else match index_file d with
          | Some (Ok ix) => ix
          | _ => IndexFlatIP embedding_dim
          end)
  /\ metadata (faiss_manager (open_store folder d)) = []
  /\ forall query top_k,
       (forall thr, search (faiss_manager (open_store folder d)) query top_k thr = Ok [])
       /\ search_by_topic (faiss_manager (open_store folder d)) query top_k
          = Ok empty_result.
Proof.
  intros Hnone.
  assert (Hopen : index (faiss_manager (open_store folder d))
                  = (if damaged (index_file d) || damaged (documents_file d)
                     then IndexFlatIP embedding_dim
                     else match index_file d with
                          | Some (Ok ix) => ix
                          | _ => IndexFlatIP embedding_dim
                          end)
                  /\ metadata (faiss_manager (open_store folder d)) = []).
  { destruct d as [ix ms ds reg]. cbn [metadata_file] in Hnone. subst ms.
    destruct ix as [[ix|e]|], ds as [[ds|e']|]; split; reflexivity. }
  destruct Hopen as [Hix Hmeta]. split; [exact Hix|]. split; [exact Hmeta|].
  intros query top_k. split.
  - intros thr. now apply search_empty_metadata.
  - now apply search_by_topic_empty_metadata.
Qed.

End Lost_metadata.

(** ** Word documents *)

Section Docx.
Context `{Engine} `{Files}.

Lemma paragraphs_loop (paragraphs : list string) :
  forall text,
    fold_left (fun text p => (text ++ p ++ newline)%string) paragraphs text
    = (text ++ page_lines paragraphs)%string.
Proof.
  induction paragraphs as [|p ps IH]; intros text.
  - change (page_lines []) with "". now rewrite string_app_empty_r.
  - cbn [fold_left]. now rewrite IH, page_lines_cons, !string_app_assoc.
Qed.

(** X20: the text of a Word document is the text of its paragraphs, each
    followed by a line end, stripped at both ends.  A document whose
    paragraphs hold nothing but white space, and a document that cannot be
    read, are files without text: [process_file] answers [False], adds
    nothing and does not record the file in the registry. *)
Theorem docx_text_and_failure (file_path : string) (s : ST) :
  endswith (lower file_path) ".pdf" = false ->
  endswith (lower file_path) ".docx" = true ->
  (forall paragraphs,
      docx_paragraphs file_path = Ok paragraphs ->
      extract_text_from_docx file_path = strip (page_lines paragraphs)
      /\ (Forall (fun p => all_space p = true) paragraphs ->
          process_file file_path s = (Ok false, s)))
  /\ (forall e,
        docx_paragraphs file_path = Raise e ->
        extract_text_from_docx file_path = ""
        /\ process_file file_path s = (Ok false, s)).
Proof.
  intros Hpdf Hdocx.
  assert (Hskip : extract_text_from_docx file_path = "" ->
                  process_file file_path s = (Ok false, s)).
  { intros Ht. apply process_file_false. unfold extractable, extracted_text.
    now rewrite Hpdf, Hdocx, Ht. }
  split.
  - intros paragraphs Hp.
    assert (Ht : extract_text_from_docx file_path = strip (page_lines paragraphs)).
    { unfold extract_text_from_docx. rewrite Hp. cbn [mbind result_bind try_except].
      now rewrite paragraphs_loop. }
    split; [exact Ht|]. intros Hws. apply Hskip. rewrite Ht.
    now apply strip_all_space, page_lines_all_space.
  - intros e He.
    assert (Ht : extract_text_from_docx file_path = "").
    { unfold extract_text_from_docx. now rewrite He. }
    split; [exact Ht | now apply Hskip].
Qed.

End Docx.

(** ** The further properties at concrete inputs *)

Lemma chunk_text_chunks_are_word_runs_witness :
  (forall k chunk,
      nth_error ["a b"; "b c"; "c"] k = Some chunk ->
      0 <= Z.of_nat k * (2 - 1) < len (py_split "a b c")
      /\ py_split chunk = word_run (py_split "a b c") 2 (Z.of_nat k * (2 - 1))
      /\ 1 <= len (py_split chunk) <= 2
      /\ chunk = join " " (py_split chunk)
      /\ strip chunk = chunk)
  /\ len ["a b"; "b c"; "c"]
     = if len (py_split "a b c") =? 0 then 0
       else (len (py_split "a b c") + (2 - 1) - 1) / (2 - 1).
Proof.
  apply (chunk_text_chunks_are_word_runs "a b c" 2 1); [lia | lia | reflexivity].
Defined.

Lemma chunk_text_covers_every_word_witness :
  exists chunk,
    nth_error ["a b"; "b c"; "c"] (Z.to_nat (Z.of_nat 2 / (2 - 1))) = Some chunk
    /\ py_split chunk = word_run (py_split "a b c") 2 (Z.of_nat 2 / (2 - 1) * (2 - 1))
    /\ nth_error (py_split chunk) (Z.to_nat (Z.of_nat 2 mod (2 - 1))) = Some "c".
Proof.
  apply (chunk_text_covers_every_word "a b c" 2 1 ["a b"; "b c"; "c"] 2 "c");
    [lia | reflexivity | reflexivity].
Defined.

Lemma whitespace_only_pdf_is_skipped_witness :
  @process_file (demo_engine (7 # 10)) blank_files "documents/blank.pdf"
    (@new_store (demo_engine (7 # 10)))
  = (Ok false, @new_store (demo_engine (7 # 10))).
Proof.
  apply (@whitespace_only_pdf_is_skipped (demo_engine (7 # 10)) blank_files
           "documents/blank.pdf" [" "; newline]);
    [reflexivity | reflexivity | repeat constructor].
Defined.

Lemma process_file_twice_duplicates_witness :
  exists s1 s2 vs ms ds,
    @process_file (demo_engine (7 # 10)) demo_files demo_path
      (@new_store (demo_engine (7 # 10))) = (Ok true, s1)
    /\ @process_file (demo_engine (7 # 10)) demo_files demo_path s1 = (Ok true, s2)
    /\ index_xb (index (faiss_manager s1)) = [] ++ vs
    /\ metadata (faiss_manager s1) = [] ++ ms
    /\ documents (faiss_manager s1) = [] ++ ds
    /\ index_xb (index (faiss_manager s2)) = [] ++ vs ++ vs
    /\ metadata (faiss_manager s2) = [] ++ ms ++ ms
    /\ documents (faiss_manager s2) = [] ++ ds ++ ds
    /\ processed_files s2 = processed_files s1.
Proof.
  apply (@process_file_twice_duplicates (demo_engine (7 # 10)) demo_files demo_path
           (@new_store (demo_engine (7 # 10)))).
  vm_compute. reflexivity.
Defined.

Lemma process_file_chunk_metadata_witness :
  exists text chunks new,
    @extracted_text demo_files demo_path = Some text
    /\ chunk_text text 500 50 = Ok chunks
    /\ metadata (faiss_manager demo_processed_store) = [] ++ new
    /\ Forall2 (fun m i =>
                  m !! "chunk_id" = Some (VInt i)
                  /\ m !! "total_chunks" = Some (VInt (len chunks))
                  /\ m !! "id" = Some (VStr "9e107d9d")
                  /\ m !! "file_path" = Some (VStr demo_path))
               new (@stored_positions (demo_engine (7 # 10)) embedding_dim chunks)
    /\ StronglySorted Z.lt (@stored_positions (demo_engine (7 # 10)) embedding_dim chunks)
    /\ Forall (fun i => 0 <= i < len chunks)
              (@stored_positions (demo_engine (7 # 10)) embedding_dim chunks).
Proof.
  apply (@process_file_chunk_metadata (demo_engine (7 # 10)) demo_files demo_path
           (@new_store (demo_engine (7 # 10))) demo_processed_store).
  vm_compute. reflexivity.
Defined.

Lemma search_all_or_nothing_witness :
  @search (demo_engine (7 # 10)) short_documents_manager "recursion" 2 (6 # 10) = Ok [].
Proof.
  apply (proj1 (proj2 (@search_all_or_nothing (demo_engine (7 # 10))
                         short_documents_manager "recursion" 2 (6 # 10) "recursion"
                         [(1%Q, 1); (7 # 10, 0)]
                         ltac:(vm_compute; discriminate)
                         ltac:(reflexivity)
                         ltac:(vm_compute; reflexivity)))).
  intros Hall. apply Forall_inv in Hall. destruct Hall as [Hd _].
  vm_compute in Hd. discriminate Hd.
Defined.

Lemma metadata_pass_selects_witness :
  @metadata_pass (demo_engine (7 # 10)) (faiss_manager demo_store) "Recursion"
  = Ok [demo_metadata_match]
  /\ @metadata_pass (demo_engine (7 # 10)) (faiss_manager demo_store) "sorting" = Ok [].
Proof.
  assert (Hm : metadata (faiss_manager demo_store) = [demo_meta])
    by (vm_compute; reflexivity).
  assert (Ht : Forall title_is_text (metadata (faiss_manager demo_store))).
  { rewrite Hm. constructor; [vm_compute; exact I | constructor]. }
  assert (Hi : Forall topics_iterable (metadata (faiss_manager demo_store))).
  { rewrite Hm. constructor; [vm_compute; exact I | constructor]. }
  assert (Hl : len (metadata (faiss_manager demo_store))
               <= len (documents (faiss_manager demo_store)))
    by (vm_compute; discriminate).
  split.
  - refine (eq_trans (proj1 (@metadata_pass_selects (demo_engine (7 # 10))
                               (faiss_manager demo_store) "Recursion" Ht Hi Hl)) _).
    vm_compute. reflexivity.
  - refine (eq_trans (proj1 (@metadata_pass_selects (demo_engine (7 # 10))
                               (faiss_manager demo_store) "sorting" Ht Hi Hl)) _).
    vm_compute. reflexivity.
Defined.

Lemma registry_round_trip_witness :
  read_registry
    (Some (registry_text [(demo_path, "9e107d9d372bb6826bd81d3542a419d6")]))
  = demo_registry.
Proof.
  apply (registry_round_trip demo_registry).
  - constructor; [intros [] | constructor].
  - constructor; [|constructor]. unfold survives. cbn [fst snd].
    repeat split; vm_compute; reflexivity.
Defined.

Lemma registry_bar_in_path_witness :
  read_registry (Some (registry_text [("documents/a|b.pdf", "abc")]))
  = {[ "documents/a" := "b.pdf|abc" ]}.
Proof.
  apply (registry_bar_in_path "documents/a" "b.pdf" "abc").
  unfold survives. cbn [fst snd]. repeat split; vm_compute; reflexivity.
Defined.

Lemma search_by_topic_first_occurrence_wins_witness :
  exists unique_matches,
    [demo_metadata_match] = py_slice_to unique_matches 3
    /\ 1 = len unique_matches
    /\ List.NoDup (map match_id unique_matches)
    /\ forall m,
         In m [demo_metadata_match] ->
         (forall c, In c [demo_content_match (7 # 10)] -> match_id c = match_id m ->
                    Qle (hit_similarity c) (95 # 100)) ->
         exists e,
           In e unique_matches /\ match_id e = match_id m
           /\ hit_match_type e = Some "metadata"
           /\ hit_similarity e = 95 # 100.
Proof.
  apply (@search_by_topic_first_occurrence_wins (demo_engine (7 # 10))
           (faiss_manager demo_store) "Recursion" 3
           [demo_metadata_match] [demo_content_match (7 # 10)]
           (mkTopicResult [demo_metadata_match] 1 true));
    vm_compute; reflexivity.
Defined.

Lemma lost_metadata_file_hides_index_witness :
  index (faiss_manager (@open_store (demo_engine (7 # 10)) "documents" index_only_disk))
  = mkIndex embedding_dim ["recursion"]
  /\ metadata (faiss_manager (@open_store (demo_engine (7 # 10)) "documents"
                               index_only_disk)) = []
  /\ forall query top_k,
       (forall thr,
           @search (demo_engine (7 # 10))
             (faiss_manager (@open_store (demo_engine (7 # 10)) "documents"
                               index_only_disk)) query top_k thr = Ok [])
       /\ @search_by_topic (demo_engine (7 # 10))
            (faiss_manager (@open_store (demo_engine (7 # 10)) "documents"
                              index_only_disk)) query top_k
          = Ok empty_result.
Proof.
  apply (@lost_metadata_file_hides_index (demo_engine (7 # 10)) "documents"
           index_only_disk).
  reflexivity.
Defined.

Lemma docx_text_and_failure_witness :
  @extract_text_from_docx blank_files "documents/blank.docx" = ""
  /\ @process_file (demo_engine (7 # 10)) blank_files "documents/blank.docx"
       (@new_store (demo_engine (7 # 10)))
     = (Ok false, @new_store (demo_engine (7 # 10))).
Proof.
  destruct (proj1 (@docx_text_and_failure (demo_engine (7 # 10)) blank_files
                     "documents/blank.docx" (@new_store (demo_engine (7 # 10)))
                     ltac:(reflexivity) ltac:(reflexivity))
                  [" "; ""] ltac:(reflexivity)) as [Ht Hskip].
  split; [rewrite Ht; reflexivity|]. apply Hskip. repeat constructor.
Defined.
